(** * The dev.to ETL flow of [getting__started.py]

    A shallow embedding of the three Prefect tasks [fetch_page],
    [to_dataframe], [save_csv] and of the flow [etl], with the parts of
    pandas, httpx and Prefect that the flow calls.

    - JSON values are the Python objects [response.json()] returns.
    - A Python [dict] is an insertion-ordered list of key/value items.
    - [pd.json_normalize] follows pandas' [_simple_json_normalize]
      (the path taken when only [data] is passed).
    - A DataFrame cell is [Some v] for a value and [None] for the
      missing marker (NaN) pandas fills in.  [DataFrame_of_dicts] lays
      the records out as the array of Python objects pandas starts
      from; the dtype pandas then picks for each column, and the cells
      as it holds them (integers as doubles and nulls as NaN in a
      float64 column), are [Storage.infer] and [Storage.stored].
      Statements about the values of cells read them through
      [Storage.stored].
    - A file is kept as what [to_csv] lays out, the header and the rows
      of cells.  Its text is [CsvFile.file_text]: the stored cells as
      text ([PyText]), through Python's [csv.writer]; [Csv.csv_reader]
      is Python's [csv.reader] on the file opened with [newline=''].
      Integers beyond 64 bits, texts with a carriage return, and
      floats and strings inside lists whose Python text is not plain,
      have no text in the model.
    - The outside world (server answers, clock, disk, task runs) is an
      explicit state threaded through a state-and-exception monad.
    - A Prefect task with [retries=n] runs its body up to [1 + n]
      times, whatever the exception; a task called in a flow raises
      what its last execution raised. *)

From Stdlib Require Import ZArith List String Ascii Bool Lia Floats
  DecimalString.
Import ListNotations.
Local Open Scope string_scope.
Local Open Scope list_scope.
Local Open Scope Z_scope.

Set Warnings "-register-all".

(** ** JSON values and Python dicts *)

Module Json.

(** The Python value [json.loads] builds: [None], [bool], [int],
    [float], [str], [list], [dict]. *)
Inductive json : Type :=
| JNull
| JBool (b : bool)
| JInt (n : Z)
| JFloat (x : float)
| JStr (s : string)
| JArr (items : list json)
| JObj (members : list (string * json)).

(** [isinstance(v, dict)] *)
Definition is_dict (v : json) : bool :=
  match v with JObj _ => true | _ => false end.

(** Induction that reaches the values inside arrays and objects. *)
Section Induction.
Variable P : json -> Prop.
Hypothesis Hnull : P JNull.
Hypothesis Hbool : forall b, P (JBool b).
Hypothesis Hint : forall n, P (JInt n).
Hypothesis Hfloat : forall x, P (JFloat x).
Hypothesis Hstr : forall s, P (JStr s).
Hypothesis Harr : forall items, Forall P items -> P (JArr items).
Hypothesis Hobj :
  forall members, Forall (fun kv => P (snd kv)) members -> P (JObj members).

Fixpoint json_nested_ind (j : json) : P j :=
  match j with
  | JNull => Hnull
  | JBool b => Hbool b
  | JInt n => Hint n
  | JFloat x => Hfloat x
  | JStr s => Hstr s
  | JArr items =>
      Harr items
        ((fix all (l : list json) : Forall P l :=
            match l with
            | [] => Forall_nil P
            | x :: l' => Forall_cons x (json_nested_ind x) (all l')
            end) items)
  | JObj members =>
      Hobj members
        ((fix all (l : list (string * json))
            : Forall (fun kv => P (snd kv)) l :=
            match l with
            | [] => Forall_nil _
            | kv :: l' =>
                Forall_cons kv (json_nested_ind (snd kv)) (all l')
            end) members)
  end.
End Induction.

End Json.
Export Json.

Module Dict.

(** An insertion-ordered dict with string keys. *)
Definition pydict (V : Type) : Type := list (string * V).

(** [d.get(k)] *)
Fixpoint get {V} (k : string) (d : pydict V) : option V :=
  match d with
  | [] => None
  | (k', v) :: d' => if String.eqb k k' then Some v else get k d'
  end.

(** [k in d] *)
Definition mem {V} (k : string) (d : pydict V) : bool :=
  match get k d with Some _ => true | None => false end.

(** [d[k] = v]: an existing key keeps its position, a new one goes last. *)
Fixpoint set {V} (k : string) (v : V) (d : pydict V) : pydict V :=
  match d with
  | [] => [(k, v)]
  | (k', v') :: d' =>
      if String.eqb k k' then (k, v) :: d' else (k', v') :: set k v d'
  end.

(** A dict comprehension [{k: v for k, v in items}]. *)
Definition of_items {V} (items : list (string * V)) : pydict V :=
  fold_left (fun d kv => set (fst kv) (snd kv) d) items [].

(** [{**a, **b}] *)
Definition merge {V} (a b : pydict V) : pydict V :=
  fold_left (fun d kv => set (fst kv) (snd kv) d) b a.

Definition keys {V} (d : pydict V) : list string := map fst d.

End Dict.

(** ** pandas: [json_normalize], DataFrame construction and selection *)

Module Pandas.

(** [str.removeprefix] *)
Definition removeprefix (p s : string) : string :=
  if String.prefix p s
  then String.substring (String.length p) (String.length s - String.length p) s
  else s.

Definition str_empty (s : string) : bool :=
  match s with EmptyString => true | _ => false end.

(** The key of a member below [key_string]:
    [new_key = f"{key_string}{separator}{key}"], and at the top level
    ([key_string] empty) [new_key.removeprefix(separator)]. *)
Definition new_key (key_string separator key : string) : string :=
  let new_key := (key_string ++ separator ++ key)%string in
  if str_empty key_string then removeprefix separator new_key else new_key.

(** pandas [_normalise_json]: walk nested dicts, joining the keys on the
    way down with the separator; a non-dict value is stored under the
    joined key. *)
Fixpoint _normalise_json (data : json) (key_string : string)
    (normalized_dict : Dict.pydict json) (separator : string)
    : Dict.pydict json :=
  match data with
  | JObj members =>
      (fix items (ms : list (string * json)) (acc : Dict.pydict json) :=
         match ms with
         | [] => acc
         | (key, value) :: rest =>
             items rest
               (_normalise_json value (new_key key_string separator key)
                                acc separator)
         end) members normalized_dict
  | _ => Dict.set key_string data normalized_dict
  end.

(** pandas [_normalise_json_ordered]: top-level scalars first, then the
    flattened nested dicts. *)
Definition _normalise_json_ordered (data : Dict.pydict json)
    (separator : string) : Dict.pydict json :=
  let top_dict_ :=
    Dict.of_items (filter (fun kv => negb (is_dict (snd kv))) data) in
  let nested_dict_ :=
    _normalise_json
      (JObj (Dict.of_items (filter (fun kv => is_dict (snd kv)) data)))
      "" [] separator in
  Dict.merge top_dict_ nested_dict_.

(** pandas [_simple_json_normalize] on a list of dicts. *)
Definition _simple_json_normalize (ds : list (Dict.pydict json))
    (sep : string) : list (Dict.pydict json) :=
  map (fun row => _normalise_json_ordered row sep) ds.

(** A cell: a value, or the missing marker (NaN). *)
Definition cell : Type := option json.

Record DataFrame : Type := mkDataFrame {
  columns : list string;
  values : list (list cell)  (* one list per row, aligned with [columns] *)
}.

(** [len(df)] *)
Definition len (df : DataFrame) : nat := List.length (values df).

Definition in_list (c : string) (l : list string) : bool :=
  existsb (String.eqb c) l.

(** Union of the dicts' keys, in order of first appearance. *)
Definition union_keys (ds : list (Dict.pydict json)) : list string :=
  fold_left
    (fun (cols : list string) (d : Dict.pydict json) =>
       fold_left
         (fun (cols : list string) (k : string) =>
            if in_list k cols then cols else cols ++ [k])
         (Dict.keys d) cols)
    ds [].

(** [DataFrame(list_of_dicts)]: the columns are the union of the keys;
    a dict without some key gets the missing marker there.  This is
    the array of Python objects the constructor lays out
    ([dicts_to_array]); the conversion of each column to its dtype
    follows in [Storage]. *)
Definition DataFrame_of_dicts (ds : list (Dict.pydict json)) : DataFrame :=
  let cols := union_keys ds in
  mkDataFrame cols (map (fun d => map (fun c => Dict.get c d) cols) ds).

(** [pd.json_normalize(data)] with every other argument left at its
    default; the empty list gives the empty frame. *)
Definition json_normalize (data : list (Dict.pydict json)) : DataFrame :=
  match data with
  | [] => mkDataFrame [] []
  | _ => DataFrame_of_dicts (_simple_json_normalize data ".")
  end.

(** The cell of a row under column [c]. *)
Definition cell_at (cols : list string) (row : list cell) (c : string) : cell :=
  match Dict.get c (combine cols row) with
  | Some x => x
  | None => None
  end.

(** [df[key]] for a list of labels: the labels absent from the columns,
    or the frame restricted to [key], in [key]'s order. *)
Definition getitem (df : DataFrame) (key : list string)
    : list string + DataFrame :=
  match filter (fun c => negb (in_list c (columns df))) key with
  | [] =>
      inr (mkDataFrame key
             (map (fun row => map (cell_at (columns df) row) key) (values df)))
  | missing => inl missing
  end.

End Pandas.

Export Pandas.

(** ** The world the flow runs in *)

Module Runtime.

(** An article as the service returns it. *)
Definition record : Type := Dict.pydict json.
Definition page : Type := list record.

(** The failures a run can end with, under the names of the design
    notes: [httpx.TransportError], [httpx.HTTPStatusError],
    [json.JSONDecodeError], pandas' [KeyError] with the labels it did
    not find, and [OSError]. *)
Inductive error : Type :=
| NetworkError
| HttpError (status_code : Z)
| DecodeError
| MissingFieldError (missing : list string)
| IoError.

Inductive result (A : Type) : Type :=
| Ok (a : A)
| Raise (e : error).
Arguments Ok {A} a.
Arguments Raise {A} e.

(** A GET request: URL, query parameters, timeout in seconds. *)
Record request : Type := mkRequest {
  url : string;
  params : list (string * Z);
  timeout : Z
}.

(** A response: its status code and the body decoded as an array of
    records, [None] when the body is not valid JSON. *)
Record response : Type := mkResponse {
  status_code : Z;
  body : option page
}.

(** What a GET meets: no response at all (connection error, timeout),
    or a response. *)
Inductive http_outcome : Type :=
| NoResponse
| Got (r : response).

(** What [to_csv(path, index=False)] lays out: the header line with the
    column labels, then one record per row, without the index.  The
    text of the file is [CsvFile.file_text]. *)
Record csv_file : Type := mkCsv {
  header : list string;
  records : list (list cell)
}.

(** One task run per call of a task inside the flow. *)
Inductive task_run : Type :=
| Run_fetch_page (page : Z) (api_base : string) (per_page : Z)
| Run_to_dataframe (raw_articles : list page)
| Run_save_csv (df : DataFrame) (path : string).

Inductive log_line : Type :=
| Fetching (page : Z)
| Saved (rows : nat) (path : string) (preview : DataFrame).

Record world : Type := mkWorld {
  server : nat -> request -> http_outcome;
      (* the answer to the n-th GET of the run *)
  writable : string -> bool;      (* can the path be opened for writing *)
  sent : list request;            (* GETs issued, oldest first *)
  slept : list Z;                 (* retry waits in seconds, oldest first *)
  stdout : list log_line;
  runs : list task_run;           (* task runs started, oldest first *)
  files : Dict.pydict csv_file    (* path -> content *)
}.

(** State and exceptions. *)
Definition M (A : Type) : Type := world -> result A * world.

Definition ret {A} (a : A) : M A := fun w => (Ok a, w).
Definition raise {A} (e : error) : M A := fun w => (Raise e, w).
Definition bind {A B} (c : M A) (k : A -> M B) : M B :=
  fun w =>
    match c w with
    | (Ok a, w') => k a w'
    | (Raise e, w') => (Raise e, w')
    end.

End Runtime.
Export Runtime.

Declare Scope flow_scope.
Delimit Scope flow_scope with flow.
Notation "x <- c ;; k" := (bind c (fun x => k))
  (at level 61, c at next level, right associativity) : flow_scope.
Notation "c ;; k" := (bind c (fun _ => k))
  (at level 61, right associativity) : flow_scope.
Local Open Scope flow_scope.

Module Effects.

Definition print (l : log_line) : M unit :=
  fun w => (Ok tt, mkWorld (server w) (writable w) (sent w) (slept w)
                           (stdout w ++ [l]) (runs w) (files w)).

Definition sleep (seconds : Z) : M unit :=
  fun w => (Ok tt, mkWorld (server w) (writable w) (sent w)
                           (slept w ++ [seconds]) (stdout w) (runs w)
                           (files w)).

Definition start_run (r : task_run) : M unit :=
  fun w => (Ok tt, mkWorld (server w) (writable w) (sent w) (slept w)
                           (stdout w) (runs w ++ [r]) (files w)).

(** [httpx.get(url, params=params, timeout=timeout)] *)
Definition httpx_get (url : string) (params : list (string * Z))
    (timeout : Z) : M response :=
  fun w =>
    let rq := mkRequest url params timeout in
    let w' := mkWorld (server w) (writable w) (sent w ++ [rq]) (slept w)
                      (stdout w) (runs w) (files w) in
    match server w (List.length (sent w)) rq with
    | NoResponse => (Raise NetworkError, w')
    | Got r => (Ok r, w')
    end.

(** [response.is_success] *)
Definition is_success (r : response) : bool :=
  (200 <=? status_code r) && (status_code r <=? 299).

(** [response.raise_for_status()] *)
Definition raise_for_status (r : response) : M unit :=
  if is_success r then ret tt else raise (HttpError (status_code r)).

(** [response.json()] *)
Definition response_json (r : response) : M page :=
  match body r with
  | Some p => ret p
  | None => raise DecodeError
  end.

(** [df.to_csv(path, index=False)]: the file at [path] is replaced as a
    whole; [OSError] when the path cannot be opened for writing. *)
Definition to_csv (df : DataFrame) (path : string) : M unit :=
  fun w =>
    if writable w path
    then (Ok tt, mkWorld (server w) (writable w) (sent w) (slept w)
                         (stdout w) (runs w)
                         (Dict.set path (mkCsv (columns df) (values df))
                                   (files w)))
    else (Raise IoError, w).

(** [df.head()] *)
Definition head (df : DataFrame) : DataFrame :=
  mkDataFrame (columns df) (firstn 5 (values df)).

End Effects.
Export Effects.

(** ** Prefect: tasks with retries *)

Module Prefect.

(** The wait before retry number [done + 1]: the entry of
    [retry_delay_seconds] at that position, the last entry once the
    list is used up. *)
Definition retry_delay (retry_delay_seconds : list Z) (done : nat) : Z :=
  nth (Nat.min done (List.length retry_delay_seconds - 1))
      retry_delay_seconds 0.

(** Run [fn]; when it raises and retries are left, wait and run it again. *)
Fixpoint attempts {A} (left : nat) (done : nat)
    (retry_delay_seconds : list Z) (fn : M A) : M A :=
  fun w =>
    match fn w with
    | (Ok a, w') => (Ok a, w')
    | (Raise e, w') =>
        match left with
        | O => (Raise e, w')
        | S left' =>
            match retry_delay_seconds with
            | [] => attempts left' (S done) retry_delay_seconds fn w'
            | _ =>
                (sleep (retry_delay retry_delay_seconds done) ;;
                 attempts left' (S done) retry_delay_seconds fn) w'
            end
        end
    end.

(** [@task(retries=..., retry_delay_seconds=...)] applied to [fn], then
    called: one task run, up to [1 + retries] executions of [fn]. *)
Definition task {A} (retries : nat) (retry_delay_seconds : list Z)
    (run : task_run) (fn : M A) : M A :=
  start_run run ;; attempts retries 0 retry_delay_seconds fn.

End Prefect.
Export Prefect.

(** ** The program: [getting__started.py] *)

Module Etl.

(** The columns [to_dataframe] keeps, in order. *)
Definition COLUMNS : list string :=
  [ "id";
    "title";
    "published_at";
    "url";
    "comments_count";
    "positive_reactions_count";
    "tag_list";
    "user.username" ].

(** The body of [fetch_page]. *)
Definition fetch_page_fn (page : Z) (api_base : string) (per_page : Z)
    : M Runtime.page :=
  let url := (api_base ++ "/articles")%string in
  let params := [("page", page); ("per_page", per_page)] in
  print (Fetching page) ;;
  response <- httpx_get url params 30 ;;
  raise_for_status response ;;
  response_json response.

(** [@task(retries=3, retry_delay_seconds=[2, 5, 15])] *)
Definition fetch_page (page : Z) (api_base : string) (per_page : Z)
    : M Runtime.page :=
  task 3 [2; 5; 15] (Run_fetch_page page api_base per_page)
       (fetch_page_fn page api_base per_page).

(** The body of [to_dataframe]; it touches nothing outside. *)
Definition to_dataframe_fn (raw_articles : list page) : result DataFrame :=
  let records := List.concat raw_articles in
  match getitem (json_normalize records) COLUMNS with
  | inr df => Ok df
  | inl missing => Raise (MissingFieldError missing)
  end.

(** [@task] *)
Definition to_dataframe (raw_articles : list page) : M DataFrame :=
  task 0 [] (Run_to_dataframe raw_articles)
       (fun w => (to_dataframe_fn raw_articles, w)).

(** The body of [save_csv]. *)
Definition save_csv_fn (df : DataFrame) (path : string) : M unit :=
  to_csv df path ;;
  print (Saved (len df) path (head df)).

(** [@task] *)
Definition save_csv (df : DataFrame) (path : string) : M unit :=
  task 0 [] (Run_save_csv df path) (save_csv_fn df path).

(** [range(start, stop)] *)
Definition range (start stop : Z) : list Z :=
  map (fun i => start + Z.of_nat i) (seq 0 (Z.to_nat (stop - start))).

(** The extract loop of [etl]: it goes through the page numbers and
    appends each fetched page to [raw_pages]. *)
Fixpoint extract (api_base : string) (per_page : Z) (page_numbers : list Z)
    (raw_pages : list page) : M (list page) :=
  match page_numbers with
  | [] => ret raw_pages
  | page_number :: rest =>
      p <- fetch_page page_number api_base per_page ;;
      extract api_base per_page rest (raw_pages ++ [p])
  end.

(** [@flow(name="devto_etl", log_prints=True)] *)
Definition etl (api_base : string) (pages : Z) (per_page : Z)
    (output_file : string) : M unit :=
  raw_pages <- extract api_base per_page (range 1 (pages + 1)) [] ;;
  df <- to_dataframe raw_pages ;;
  save_csv df output_file.

(** The configuration of the [__main__] block. *)
Definition main : M unit :=
  let api_base := "https://dev.to/api" in
  let pages := 3 in
  let per_page := 30 in
  let output_file := "devto_articles.csv" in
  etl api_base pages per_page output_file.

End Etl.
Export Etl.

(** ** Sample data *)

Module Samples.

Definition article (id : Z) (title username : string) : record :=
  [ ("id", JInt id);
    ("title", JStr title);
    ("published_at", JStr "2024-01-01T00:00:00Z");
    ("url", JStr "https://dev.to/a");
    ("comments_count", JInt 0);
    ("positive_reactions_count", JInt 7);
    ("tag_list", JArr [JStr "python"; JStr "etl"]);
    ("user", JObj [("name", JStr "N"); ("username", JStr username)]) ].

(** A server with two pages: two articles, then one. *)
Definition two_pages (n : nat) (rq : request) : http_outcome :=
  match Dict.get "page" (params rq) with
  | Some 1 => Got (mkResponse 200 (Some [article 11 "a" "u1"; article 12 "b" "u2"]))
  | Some 2 => Got (mkResponse 200 (Some [article 21 "c" "u3"]))
  | _ => Got (mkResponse 404 None)
  end.

Definition fresh (srv : nat -> request -> http_outcome) : world :=
  mkWorld srv (fun _ => true) [] [] [] [] [].

(** A server that drops the first two connections, then answers. *)
Definition flaky (n : nat) (rq : request) : http_outcome :=
  match n with
  | O | S O => NoResponse
  | _ => Got (mkResponse 200 (Some [article 11 "a" "u1"]))
  end.

(** A server whose pages are all empty arrays. *)
Definition empties (n : nat) (rq : request) : http_outcome :=
  Got (mkResponse 200 (Some [])).

(** An article without a title. *)
Definition untitled (id : Z) (username : string) : record :=
  [ ("id", JInt id);
    ("published_at", JStr "2024-01-01T00:00:00Z");
    ("url", JStr "https://dev.to/b");
    ("comments_count", JInt 3);
    ("positive_reactions_count", JInt 1);
    ("tag_list", JArr []);
    ("user", JObj [("username", JStr username)]) ].

(** A server with one page: a complete article and one without title. *)
Definition one_untitled (n : nat) (rq : request) : http_outcome :=
  Got (mkResponse 200 (Some [article 11 "a" "u1"; untitled 12 "u2"])).

(** An article whose [id] is an object. *)
Definition boxed_id : record :=
  [ ("id", JObj [("value", JInt 7)]);
    ("title", JStr "t");
    ("published_at", JStr "2024-01-01T00:00:00Z");
    ("url", JStr "https://dev.to/c");
    ("comments_count", JInt 0);
    ("positive_reactions_count", JInt 0);
    ("tag_list", JArr [JStr "x"]);
    ("user", JObj [("username", JStr "u")]) ].

(** An article with a member of empty name next to its title. *)
Definition shadowed_title : record :=
  ("", JObj [("title", JStr "inner")]) :: article 31 "outer" "u".

(** A server that answers every request with the same status and no
    usable body. *)
Definition always (status : Z) (n : nat) (rq : request) : http_outcome :=
  Got (mkResponse status None).

End Samples.


(** ** Reading the frame [to_dataframe] builds *)

Module Projection.

(** A record after [json_normalize]: nested objects flattened into
    dotted keys. *)
Definition flat (r : record) : Dict.pydict json :=
  _normalise_json_ordered r ".".

(** The row a record gives: its flattened value under each kept column,
    the missing marker where it has none. *)
Definition project (r : record) : list cell :=
  map (fun c => Dict.get c (flat r)) COLUMNS.

(** The kept columns that no record has after flattening. *)
Definition absent_columns (records : list record) : list string :=
  filter (fun c => negb (existsb (fun r => Dict.mem c (flat r)) records))
         COLUMNS.

(** The value a raw record holds for a column of the table, read the
    way the data model names it: [user.username] inside the object
    under ["user"], the other seven directly. *)
Definition field (r : record) (c : string) : option json :=
  if String.eqb c "user.username"
  then match Dict.get "user" r with
       | Some (JObj user) => Dict.get "username" user
       | _ => None
       end
  else Dict.get c r.

End Projection.
Export Projection.

(** ** Records as Python holds them *)

Module Shape.

(** A dict has no key twice. *)
Definition unique_keys {V} (d : Dict.pydict V) : Prop := NoDup (Dict.keys d).

(** The eight values a record holds for the kept columns, in column
    order. *)
Definition holds (r : record) (vs : list json) : Prop :=
  map (field r) COLUMNS = map Some vs.

(** None of the values is itself an object. *)
Definition plain (vs : list json) : Prop :=
  Forall (fun v => is_dict v = false) vs.

(** Every member is an object. *)
Definition dict_valued (ms : list (string * json)) : Prop :=
  Forall (fun kv => is_dict (snd kv) = true) ms.

(** A dot somewhere in the string. *)
Fixpoint contains_dot (s : string) : bool :=
  match s with
  | EmptyString => false
  | String c s' => Ascii.eqb c "." || contains_dot s'
  end.

End Shape.
Export Shape.

(** ** Reading one fetch task run *)

Module Retry.

(** The request [fetch_page_fn] sends. *)
Definition request_of (page : Z) (api_base : string) (per_page : Z) : request :=
  mkRequest (api_base ++ "/articles")%string
            [("page", page); ("per_page", per_page)] 30.

(** What one execution of [fetch_page_fn] returns on a given outcome of
    its GET. *)
Definition attempt_result (o : http_outcome) : result page :=
  match o with
  | NoResponse => Raise NetworkError
  | Got r =>
      if is_success r
      then match body r with
           | Some p => Ok p
           | None => Raise DecodeError
           end
      else Raise (HttpError (status_code r))
  end.

(** The result of the [i]-th execution (from 0) of a fetch task run
    started in world [w]. *)
Definition execution (w : world) (rq : request) (i : nat) : result page :=
  attempt_result (server w (List.length (sent w) + i)%nat rq).

(** How many times the body runs, given the results of its successive
    executions and the retries left. *)
Fixpoint executions {A} (left : nat) (o : nat -> result A) : nat :=
  match o O with
  | Ok _ => 1
  | Raise _ =>
      match left with
      | O => 1
      | S left' => S (executions left' (fun i => o (S i)))
      end
  end.

End Retry.
Export Retry.

(** ** Reading the extract loop *)

Module Loop.

(** The pages fetched one after the other, each fetch starting in the
    world the previous one left. *)
Inductive fetched (api_base : string) (per_page : Z)
    : list Z -> world -> list page -> world -> Prop :=
| fetched_nil (w : world) : fetched api_base per_page [] w [] w
| fetched_cons (p : Z) (ps : list Z) (w w1 w2 : world) (pg : page)
    (pgs : list page) :
    fetch_page p api_base per_page w = (Ok pg, w1) ->
    fetched api_base per_page ps w1 pgs w2 ->
    fetched api_base per_page (p :: ps) w (pg :: pgs) w2.

(** The task runs of [fetch_page] for a list of page numbers. *)
Definition fetch_runs (api_base : string) (per_page : Z) (ps : list Z)
    : list task_run :=
  map (fun p => Run_fetch_page p api_base per_page) ps.

Definition is_fetch_run (r : task_run) : bool :=
  match r with Run_fetch_page _ _ _ => true | _ => false end.

End Loop.
Export Loop.

(** ** Reading a row off the raw record *)

Module Cells.

(** A value as a cell of its own column: an object is flattened away
    and leaves the column without a value. *)
Definition plain_value (o : option json) : cell :=
  match o with
  | Some v => if is_dict v then None else Some v
  | None => None
  end.

(** The [username] inside the object under [user], when it is there and
    is not an object. *)
Definition nested_username (r : record) : cell :=
  match Dict.get "user" r with
  | Some (JObj user) => plain_value (Dict.get "username" user)
  | _ => None
  end.

(** The cell of a record under a kept column, read off the raw record:
    [user.username] from the object under [user], else from a member
    literally named [user.username]; the others from the member of
    that name. *)
Definition row_cell (r : record) (c : string) : cell :=
  if String.eqb c "user.username"
  then match nested_username r with
       | Some v => Some v
       | None => plain_value (Dict.get "user.username" r)
       end
  else plain_value (Dict.get c r).

(** A record as Python holds it, with no member of empty name: no key
    twice in it or in the object under [user]. *)
Definition well_keyed (r : record) : Prop :=
  NoDup (Dict.keys r) /\ ~ In "" (Dict.keys r) /\
  forall user, Dict.get "user" r = Some (JObj user) -> NoDup (Dict.keys user).

(** Seconds waited in all. *)
Definition total (waits : list Z) : Z := fold_right Z.add 0 waits.

(** The waits of a task run of [fetch_page] with [k] executions. *)
Definition waits_of (k : nat) : list Z := firstn (k - 1) [2; 5; 15].

(** The GETs of a flow, page by page: page [p] with [k] executions. *)
Definition requests_of (api_base : string) (per_page : Z)
    (pks : list (Z * nat)) : list request :=
  List.concat
    (map (fun pk => repeat (request_of (fst pk) api_base per_page) (snd pk))
         pks).

Definition fetching_of (pks : list (Z * nat)) : list log_line :=
  List.concat (map (fun pk => repeat (Fetching (fst pk)) (snd pk)) pks).

Definition is_saved (l : log_line) : bool :=
  match l with Saved _ _ _ => true | _ => false end.

(** The page a log line of [fetch_page] names, and the page a GET asks
    for. *)
Definition line_page (l : log_line) : option Z :=
  match l with Fetching p => Some p | Saved _ _ _ => None end.

Definition request_page (rq : request) : option Z :=
  Dict.get "page" (params rq).

End Cells.
Export Cells.

(** ** More sample data *)

Module MoreSamples.

(** An article whose user has an object for username, next to a member
    literally named [user.username], and whose title is an object. *)
Definition odd : record :=
  [ ("id", JInt 5);
    ("title", JObj [("en", JStr "t")]);
    ("url", JNull);
    ("user", JObj [("username", JObj [("first", JStr "f")])]);
    ("user.username", JStr "spare") ].

(** An article without [id]. *)
Definition noid : record :=
  [ ("title", JStr "n");
    ("published_at", JStr "2024-01-02T00:00:00Z");
    ("url", JStr "https://dev.to/n");
    ("comments_count", JInt 1);
    ("positive_reactions_count", JInt 2);
    ("tag_list", JArr []);
    ("user", JObj [("username", JStr "u9")]) ].

(** An article with a null publication date and no comment count. *)
Definition sparse : record :=
  [ ("id", JInt 12);
    ("title", JStr "b");
    ("published_at", JNull);
    ("url", JStr "https://dev.to/b");
    ("positive_reactions_count", JInt 1);
    ("tag_list", JArr []);
    ("user", JObj [("username", JStr "u2")]) ].

(** A server with one page: a complete article and a sparse one. *)
Definition one_sparse (n : nat) (rq : request) : http_outcome :=
  Got (mkResponse 200 (Some [Samples.article 11 "a" "u1"; sparse])).

(** A server whose second page never answers. *)
Definition second_down (n : nat) (rq : request) : http_outcome :=
  match Dict.get "page" (params rq) with
  | Some 2 => NoResponse
  | _ => Got (mkResponse 200 (Some [Samples.article 11 "a" "u1"]))
  end.

(** A world with a file already at the output path and another one. *)
Definition used (srv : nat -> request -> http_outcome) : world :=
  mkWorld srv (fun _ => true) [] [] [] []
    [("notes.csv", mkCsv ["n"] []); ("out.csv", mkCsv ["old"] [[None]])].

End MoreSamples.

(** ** How pandas stores a column *)

Module Storage.

(** [DataFrame(list_of_dicts)] lays the dicts out as an array of Python
    objects ([DataFrame_of_dicts]) and then converts it column by
    column with [lib.maybe_convert_objects], which picks one dtype for
    the column from the kinds of values it sees.  The conversion works
    on each column by itself, so it gives the same cells before and
    after the selection [df[COLUMNS]].

    Integers that do not fit 64 bits take other paths in pandas
    (unsigned or object storage, or a failed conversion to float);
    they are left out: a frame holding one has no stored form here. *)

Inductive dtype : Type :=
| dtype_object     (* the Python objects, as they are *)
| dtype_bool
| dtype_int64
| dtype_float64.

Definition INT64_MIN : Z := -9223372036854775808.
Definition INT64_MAX : Z := 9223372036854775807.

Definition fits_int64 (c : cell) : bool :=
  match c with
  | Some (JInt n) => (INT64_MIN <=? n) && (n <=? INT64_MAX)
  | _ => true
  end.

(** What the scan of a column meets.  The missing marker is the float
    NaN, and so is a NaN among the values. *)
Definition is_null (c : cell) : bool :=
  match c with Some JNull => true | _ => false end.

Definition is_nan (c : cell) : bool :=
  match c with
  | None => true
  | Some (JFloat x) => PrimFloat.is_nan x
  | _ => false
  end.

Definition is_bool (c : cell) : bool :=
  match c with Some (JBool _) => true | _ => false end.

Definition is_float (c : cell) : bool :=
  match c with
  | Some (JFloat x) => negb (PrimFloat.is_nan x)
  | _ => false
  end.

Definition is_int (c : cell) : bool :=
  match c with Some (JInt _) => true | _ => false end.

(** A string, a list (or a dict): the scan stops there and the column
    stays an object column. *)
Definition is_object (c : cell) : bool :=
  match c with
  | Some (JStr _) | Some (JArr _) | Some (JObj _) => true
  | _ => false
  end.

(** The dtype [maybe_convert_objects] gives a column: object as soon as
    it holds a string or a list; bool for booleans only, object for
    booleans with anything else; float64 for numbers with a float, a
    NaN or a null among them (and for NaN with nulls); int64 for
    integers only; object for nulls only and for no cell at all. *)
Definition infer (col : list cell) : dtype :=
  let null_ := existsb is_null col in
  let nan_ := existsb is_nan col in
  let bool_ := existsb is_bool col in
  let float_ := existsb is_float col in
  let int_ := existsb is_int col in
  let object_ := existsb is_object col in
  if object_ then dtype_object
  else if bool_
       then (if null_ || nan_ || float_ || int_
             then dtype_object else dtype_bool)
  else if null_ || nan_
       then (if float_ || int_ || nan_ then dtype_float64 else dtype_object)
  else if float_ then dtype_float64
  else if int_ then dtype_int64
  else dtype_object.

(** [<float64_t>val]: the integer rounded to the nearest double, ties
    to even. *)
Definition float_of_int (n : Z) : float :=
  SF2Prim (binary_normalize prec emax n 0 false).

(** A cell as held in a column of a given dtype: in a float64 column an
    integer is its double and a null is NaN; elsewhere the value is
    kept.  A NaN is the missing marker everywhere. *)
Definition store (d : dtype) (c : cell) : cell :=
  match c with
  | Some (JFloat x) => if PrimFloat.is_nan x then None else c
  | Some (JInt n) =>
      match d with
      | dtype_float64 => Some (JFloat (float_of_int n))
      | _ => c
      end
  | Some JNull =>
      match d with
      | dtype_float64 => None
      | _ => c
      end
  | _ => c
  end.

(** The cells of the [j]-th column, top down. *)
Definition column (df : DataFrame) (j : nat) : list cell :=
  map (fun row => nth j row None) (values df).

Definition dtypes (df : DataFrame) : list dtype :=
  map (fun j => infer (column df j)) (seq 0 (List.length (columns df))).

Fixpoint store_row (ds : list dtype) (row : list cell) : list cell :=
  match ds, row with
  | d :: ds', c :: row' => store d c :: store_row ds' row'
  | _, _ => []
  end.

Definition ints_fit (df : DataFrame) : bool :=
  forallb (forallb fits_int64) (values df).

(** The frame as pandas holds it. *)
Definition stored (df : DataFrame) : option DataFrame :=
  if ints_fit df
  then Some (mkDataFrame (columns df)
                         (map (store_row (dtypes df)) (values df)))
  else None.

End Storage.
Export Storage.

(** ** CSV text *)

Module Csv.

Definition LF : ascii := "010"%char.
Definition CR : ascii := "013"%char.
Definition DELIMITER : ascii := ","%char.
Definition QUOTECHAR : ascii := "034"%char.

(** [os.linesep] *)
Inductive platform : Type := posix | nt.

Definition linesep (os : platform) : string :=
  match os with
  | posix => String LF ""
  | nt => String CR (String LF "")
  end.

Fixpoint contains (c : ascii) (s : string) : bool :=
  match s with
  | EmptyString => false
  | String c' s' => Ascii.eqb c c' || contains c s'
  end.

(** ** [csv.writer], dialect excel with the given line terminator *)

(** A character that makes the writer quote the field. *)
Definition special (lineterminator : string) (c : ascii) : bool :=
  Ascii.eqb c DELIMITER || Ascii.eqb c QUOTECHAR || contains c lineterminator.

Fixpoint needs_quoting (lineterminator f : string) : bool :=
  match f with
  | EmptyString => false
  | String c f' => special lineterminator c || needs_quoting lineterminator f'
  end.

(** The field with every quote character doubled. *)
Fixpoint doubled (f : string) : string :=
  match f with
  | EmptyString => EmptyString
  | String c f' =>
      if Ascii.eqb c QUOTECHAR
      then String QUOTECHAR (String QUOTECHAR (doubled f'))
      else String c (doubled f')
  end.

Definition str_is_empty (s : string) : bool :=
  match s with EmptyString => true | _ => false end.

(** One field of a record; an empty field is quoted when it is the only
    field of its record. *)
Definition join_append (lineterminator : string) (sole : bool) (f : string)
    : string :=
  if needs_quoting lineterminator f || (sole && str_is_empty f)
  then String QUOTECHAR (doubled f ++ String QUOTECHAR "")%string
  else f.

(** [writer.writerow(row)] *)
Definition writerow (lineterminator : string) (row : list string) : string :=
  let sole := match row with [_] => true | _ => false end in
  (String.concat (String DELIMITER "")
                 (map (join_append lineterminator sole) row)
   ++ lineterminator)%string.

(** [writer.writerows(rows)] *)
Definition writerows (lineterminator : string) (rows : list (list string))
    : string :=
  fold_right append "" (map (writerow lineterminator) rows).

(** ** [csv.reader], dialect excel *)

Inductive ParserState : Type :=
| START_RECORD
| START_FIELD
| IN_FIELD
| IN_QUOTED_FIELD
| QUOTE_IN_QUOTED_FIELD
| EAT_CRNL.

Record ReaderObj : Type := mkReader {
  state : ParserState;
  field_ : string;          (* the field being read *)
  fields : list string      (* the fields of the record read so far *)
}.

Definition parse_reset : ReaderObj := mkReader START_RECORD "" [].

Definition set_state (self : ReaderObj) (s : ParserState) : ReaderObj :=
  mkReader s (field_ self) (fields self).

Definition parse_save_field (self : ReaderObj) : ReaderObj :=
  mkReader (state self) "" (fields self ++ [field_ self]).

Definition parse_add_char (self : ReaderObj) (c : ascii) : ReaderObj :=
  mkReader (state self) (field_ self ++ String c "")%string (fields self).

Definition is_newline (c : ascii) : bool := Ascii.eqb c LF || Ascii.eqb c CR.

(** The end of a field at a line break or at the end of the line
    ([None]). *)
Definition end_of_line (self : ReaderObj) (c : option ascii) : ReaderObj :=
  set_state (parse_save_field self)
            (match c with None => START_RECORD | Some _ => EAT_CRNL end).

Definition start_field (self : ReaderObj) (c : option ascii) : ReaderObj :=
  match c with
  | None => end_of_line self c
  | Some ch =>
      if is_newline ch then end_of_line self c
      else if Ascii.eqb ch QUOTECHAR then set_state self IN_QUOTED_FIELD
      else if Ascii.eqb ch DELIMITER
           then set_state (parse_save_field self) START_FIELD
      else set_state (parse_add_char self ch) IN_FIELD
  end.

(** [parse_process_char]: one character, or the end of the line
    ([None]); no result is the parser's error. *)
Definition parse_process_char (self : ReaderObj) (c : option ascii)
    : option ReaderObj :=
  match state self with
  | START_RECORD =>
      match c with
      | None => Some self
      | Some ch =>
          if is_newline ch then Some (set_state self EAT_CRNL)
          else Some (start_field self c)
      end
  | START_FIELD => Some (start_field self c)
  | IN_FIELD =>
      match c with
      | None => Some (end_of_line self c)
      | Some ch =>
          if is_newline ch then Some (end_of_line self c)
          else if Ascii.eqb ch DELIMITER
               then Some (set_state (parse_save_field self) START_FIELD)
          else Some (parse_add_char self ch)
      end
  | IN_QUOTED_FIELD =>
      match c with
      | None => Some self
      | Some ch =>
          if Ascii.eqb ch QUOTECHAR
          then Some (set_state self QUOTE_IN_QUOTED_FIELD)
          else Some (parse_add_char self ch)
      end
  | QUOTE_IN_QUOTED_FIELD =>
      match c with
      | None => Some (end_of_line self c)
      | Some ch =>
          if Ascii.eqb ch QUOTECHAR
          then Some (set_state (parse_add_char self ch) IN_QUOTED_FIELD)
          else if Ascii.eqb ch DELIMITER
               then Some (set_state (parse_save_field self) START_FIELD)
          else if is_newline ch then Some (end_of_line self c)
          else Some (set_state (parse_add_char self ch) IN_FIELD)
      end
  | EAT_CRNL =>
      match c with
      | None => Some (set_state self START_RECORD)
      | Some ch => if is_newline ch then Some self else None
      end
  end.

(** The characters of a line, one after the other. *)
Fixpoint parse_chars (self : ReaderObj) (line : string) : option ReaderObj :=
  match line with
  | EmptyString => Some self
  | String c line' =>
      match parse_process_char self (Some c) with
      | Some self' => parse_chars self' line'
      | None => None
      end
  end.

(** A line, then its end. *)
Definition parse_line (self : ReaderObj) (line : string) : option ReaderObj :=
  match parse_chars self line with
  | Some self' => parse_process_char self' None
  | None => None
  end.

Definition is_start_record (s : ParserState) : bool :=
  match s with START_RECORD => true | _ => false end.

Definition is_in_quoted_field (s : ParserState) : bool :=
  match s with IN_QUOTED_FIELD => true | _ => false end.

(** The records of the lines: lines are read until the parser is back
    at the start of a record; at the end of the input, a record left
    open inside a quoted field is closed. *)
Fixpoint Reader_iter (lines : list string) (self : ReaderObj)
    : option (list (list string)) :=
  match lines with
  | [] =>
      if negb (str_is_empty (field_ self)) || is_in_quoted_field (state self)
      then Some [fields (parse_save_field self)]
      else Some []
  | line :: rest =>
      match parse_line self line with
      | None => None
      | Some self' =>
          if is_start_record (state self')
          then option_map (cons (fields self')) (Reader_iter rest parse_reset)
          else Reader_iter rest self'
      end
  end.

(** The lines of a file opened with [newline=''], as the file iterator
    gives them: each ends after a line feed, a carriage return, or a
    carriage return followed by a line feed, and keeps it. *)
Fixpoint readlines (s : string) (line : string) : list string :=
  match s with
  | EmptyString => if str_is_empty line then [] else [line]
  | String c rest =>
      if Ascii.eqb c LF then (line ++ String c "")%string :: readlines rest ""
      else if Ascii.eqb c CR
      then match rest with
           | String c' rest' =>
               if Ascii.eqb c' LF
               then (line ++ String c (String c' ""))%string :: readlines rest' ""
               else (line ++ String c "")%string :: readlines rest ""
           | EmptyString => (line ++ String c "")%string :: readlines rest ""
           end
      else readlines rest (line ++ String c "")%string
  end.

(** [list(csv.reader(f))] for the file [f] holding [text]. *)
Definition csv_reader (text : string) : option (list (list string)) :=
  Reader_iter (readlines text "") parse_reset.


(** ** The reader, character by character *)

(** The end of a line: the record is complete when the parser is back
    at the start of a record. *)
Definition after_line (self : ReaderObj)
    (k : ReaderObj -> option (list (list string)))
    : option (list (list string)) :=
  match parse_process_char self None with
  | None => None
  | Some self' =>
      if is_start_record (state self')
      then option_map (cons (fields self')) (k parse_reset)
      else k self'
  end.

(** The reader fed the text as it comes, a line ending where the file
    iterator ends one; [pending] tells whether the current line has
    begun. *)
Fixpoint feed (self : ReaderObj) (pending : bool) (s : string)
    : option (list (list string)) :=
  match s with
  | EmptyString =>
      if pending then after_line self (Reader_iter []) else Reader_iter [] self
  | String c rest =>
      match parse_process_char self (Some c) with
      | None => None
      | Some self1 =>
          if Ascii.eqb c LF
          then after_line self1 (fun p => feed p false rest)
          else if Ascii.eqb c CR
          then match rest with
               | String c' rest' =>
                   if Ascii.eqb c' LF
                   then match parse_process_char self1 (Some c') with
                        | None => None
                        | Some self2 =>
                            after_line self2 (fun p => feed p false rest')
                        end
                   else after_line self1 (fun p => feed p false rest)
               | EmptyString => after_line self1 (fun p => feed p false rest)
               end
          else feed self1 true rest
      end
  end.

Definition cr_free (f : string) : bool := negb (contains CR f).

End Csv.

(** ** The text of a value *)

Module PyText.
Import Csv.

Definition APOSTROPHE : ascii := "'"%char.
Definition BACKSLASH : ascii := "\"%char.

(** [str(n)] of an int: decimal digits, with a minus sign. *)
Definition str_int (n : Z) : string := NilZero.string_of_int (Z.to_int n).

(** [repr(x)] of a float whose value is an integer below 10^16 in
    magnitude (digits and [.0]), of a zero and of an infinity; numpy's
    [astype(str)] gives the same text.  The shortest-digits text of the
    other floats is not modelled. *)
Definition float_repr (x : float) : option string :=
  match Prim2SF x with
  | S754_zero s => Some (if s then "-0.0" else "0.0")
  | S754_infinity s => Some (if s then "-inf" else "inf")
  | S754_nan => Some "nan"
  | S754_finite s m e =>
      let integral := (0 <=? e) || (Zpos m mod 2 ^ (- e) =? 0) in
      let n := if 0 <=? e then Zpos m * 2 ^ e else Zpos m / 2 ^ (- e) in
      if integral && (n <? 10 ^ 16)
      then Some ((if s then "-" else "") ++ str_int n ++ ".0")%string
      else None
  end.

Definition printable (c : ascii) : bool :=
  let n := Z.of_N (N_of_ascii c) in (32 <=? n) && (n <=? 126).

Fixpoint all_printable (s : string) : bool :=
  match s with
  | EmptyString => true
  | String c s' => printable c && all_printable s'
  end.

(** The string with the quote in use and the backslash escaped. *)
Fixpoint escaped (quote : ascii) (s : string) : string :=
  match s with
  | EmptyString => EmptyString
  | String c s' =>
      if Ascii.eqb c quote || Ascii.eqb c BACKSLASH
      then String BACKSLASH (String c (escaped quote s'))
      else String c (escaped quote s')
  end.

(** [repr(s)] of a str made of printable ASCII characters: in single
    quotes, or in double quotes when it holds a single quote and no
    double quote.  Other strings are not modelled. *)
Definition repr_str (s : string) : option string :=
  if all_printable s
  then let quote := if contains APOSTROPHE s && negb (contains QUOTECHAR s)
                    then QUOTECHAR else APOSTROPHE in
       Some (String quote (escaped quote s ++ String quote ""))%string
  else None.

Fixpoint all_some {A} (l : list (option A)) : option (list A) :=
  match l with
  | [] => Some []
  | Some a :: l' => option_map (cons a) (all_some l')
  | None :: _ => None
  end.

(** [repr(v)] *)
Fixpoint py_repr (v : json) : option string :=
  match v with
  | JNull => Some "None"
  | JBool b => Some (if b then "True" else "False")
  | JInt n => Some (str_int n)
  | JFloat x => float_repr x
  | JStr s => repr_str s
  | JArr items =>
      option_map
        (fun parts => ("[" ++ String.concat ", " parts ++ "]")%string)
        ((fix reprs (l : list json) : option (list string) :=
            match l with
            | [] => Some []
            | x :: l' =>
                match py_repr x, reprs l' with
                | Some a, Some b => Some (a :: b)
                | _, _ => None
                end
            end) items)
  | JObj members =>
      option_map
        (fun parts => ("{" ++ String.concat ", " parts ++ "}")%string)
        ((fix reprs (l : list (string * json)) : option (list string) :=
            match l with
            | [] => Some []
            | (k, x) :: l' =>
                match repr_str k, py_repr x, reprs l' with
                | Some a, Some b, Some c => Some ((a ++ ": " ++ b)%string :: c)
                | _, _, _ => None
                end
            end) members)
  end.

(** [str(v)] *)
Definition py_str (v : json) : option string :=
  match v with
  | JStr s => Some s
  | _ => py_repr v
  end.

(** The text [to_csv] writes for a stored cell: nothing for a missing
    value or a null ([na_rep], empty by default), else the [str] of
    the value. *)
Definition cell_text (c : cell) : option string :=
  match c with
  | None => Some ""
  | Some JNull => Some ""
  | Some v => py_str v
  end.

End PyText.
Export PyText.

(** ** The file [to_csv] writes *)

Module CsvFile.
Import Csv.

Definition row_texts (row : list cell) : option (list string) :=
  all_some (map cell_text row).

(** [df.to_csv(f, index=False)]: the labels, then the rows of the frame
    as pandas holds it, through [csv.writer] with [os.linesep] as line
    terminator.  A text holding a carriage return is left out: whether
    the writer quotes it depends on the version of the csv module. *)
Definition to_csv_text (os : platform) (df : DataFrame) : option string :=
  match stored df with
  | None => None
  | Some table =>
      match all_some (map row_texts (values table)) with
      | None => None
      | Some rows =>
          if forallb (forallb cr_free) (columns df :: rows)
          then Some (writerows (linesep os) (columns df :: rows))
          else None
      end
  end.

(** The text of a file. *)
Definition file_text (os : platform) (doc : csv_file) : option string :=
  to_csv_text os (mkDataFrame (header doc) (records doc)).

End CsvFile.
Export CsvFile.

(** * Properties *)

(** ** Dicts *)

Module DictFacts.
Import Dict.

Lemma get_set_same {V} (k : string) (v : V) (d : pydict V) :
  get k (set k v d) = Some v.
Proof.
  induction d as [|[k' v'] d IH]; simpl.
  - now rewrite String.eqb_refl.
  - destruct (String.eqb k k') eqn:E; simpl.
    + now rewrite String.eqb_refl.
    + now rewrite E.
Qed.

Lemma get_set_other {V} (k k' : string) (v : V) (d : pydict V) :
  k <> k' -> get k (set k' v d) = get k d.
Proof.
  intros Hne. induction d as [|[k0 v0] d IH]; simpl.
  - destruct (String.eqb_spec k k'); [contradiction | reflexivity].
  - destruct (String.eqb_spec k' k0) as [->|Hk]; simpl.
    + destruct (String.eqb_spec k k0); [contradiction | reflexivity].
    + destruct (String.eqb_spec k k0); [reflexivity | exact IH].
Qed.

Lemma mem_keys {V} (k : string) (d : pydict V) :
  mem k d = existsb (String.eqb k) (keys d).
Proof.
  unfold mem. induction d as [|[k' v'] d IH]; simpl; [reflexivity|].
  destruct (String.eqb k k'); [reflexivity | exact IH].
Qed.

Lemma get_In {V} (k : string) (v : V) (d : pydict V) :
  NoDup (keys d) -> In (k, v) d -> get k d = Some v.
Proof.
  induction d as [|[k' v'] d IH]; simpl; intros Hnd Hin; [contradiction|].
  inversion Hnd as [|? ? Hnotin Hnd']; subst.
  destruct Hin as [Heq | Hin].
  - inversion Heq; subst. now rewrite String.eqb_refl.
  - destruct (String.eqb_spec k k') as [->|Hne].
    + exfalso. apply Hnotin. unfold keys.
      change k' with (fst (k', v)). now apply in_map.
    + now apply IH.
Qed.

Lemma get_Some_In {V} (k : string) (v : V) (d : pydict V) :
  get k d = Some v -> In (k, v) d.
Proof.
  induction d as [|[k' v'] d IH]; simpl; [discriminate|].
  destruct (String.eqb_spec k k') as [->|Hne].
  - intros [= ->]. now left.
  - intros H. right. now apply IH.
Qed.

Lemma get_None_iff {V} (k : string) (d : pydict V) :
  get k d = None <-> ~ In k (keys d).
Proof.
  induction d as [|[k' v'] d IH]; simpl; [tauto|].
  destruct (String.eqb_spec k k') as [->|Hne].
  - split; [discriminate | intros H; exfalso; apply H; now left].
  - rewrite IH. split; [intros H [E|E]; [congruence | contradiction] | tauto].
Qed.

(** A key not yet in the dict goes last. *)
Lemma set_fresh {V} (k : string) (v : V) (d : pydict V) :
  ~ In k (keys d) -> set k v d = d ++ [(k, v)].
Proof.
  induction d as [|[k' v'] d IH]; simpl; intros H; [reflexivity|].
  destruct (String.eqb_spec k k') as [->|Hne]; [exfalso; apply H; now left|].
  f_equal. apply IH. tauto.
Qed.

Lemma keys_set {V} (k : string) (v : V) (d : pydict V) :
  keys (set k v d) = if mem k d then keys d else keys d ++ [k].
Proof.
  unfold mem. induction d as [|[k' v'] d IH]; simpl; [reflexivity|].
  destruct (String.eqb_spec k k') as [->|Hne]; simpl; [reflexivity|].
  rewrite IH. now destruct (get k d).
Qed.

Lemma unique_set {V} (k : string) (v : V) (d : pydict V) :
  NoDup (keys d) -> NoDup (keys (set k v d)).
Proof.
  intros H. rewrite keys_set. unfold mem.
  destruct (get k d) eqn:E; [exact H|].
  apply get_None_iff in E.
  apply NoDup_app; [exact H | repeat constructor; simpl; tauto |].
  intros x Hx [<-|[]]. contradiction.
Qed.

Lemma fold_set_fresh {V} (l acc : pydict V) :
  NoDup (keys (acc ++ l)) ->
  fold_left (fun d kv => set (fst kv) (snd kv) d) l acc = acc ++ l.
Proof.
  revert acc. induction l as [|[k v] l IH]; intros acc H; simpl.
  - now rewrite app_nil_r.
  - assert (Hk : ~ In k (keys acc)).
    { unfold keys in *. rewrite map_app in H. simpl in H.
      apply NoDup_remove_2 in H. intros Hin. apply H.
      apply in_or_app. now left. }
    rewrite (set_fresh k v acc Hk). rewrite IH; rewrite <- app_assoc;
      [reflexivity | exact H].
Qed.

(** Items without a repeated key are the dict they build. *)
Lemma of_items_unique {V} (l : pydict V) : NoDup (keys l) -> of_items l = l.
Proof. intros H. unfold of_items. now rewrite fold_set_fresh. Qed.

Lemma unique_filter {V} (f : string * V -> bool) (d : pydict V) :
  NoDup (keys d) -> NoDup (keys (filter f d)).
Proof.
  induction d as [|[k v] d IH]; simpl; intros H; [constructor|].
  inversion H as [|? ? Hk Hd]; subst.
  destruct (f (k, v)); [|now apply IH].
  simpl. constructor; [|now apply IH].
  intros Hin. apply Hk. unfold keys in *. apply in_map_iff in Hin.
  destruct Hin as [[k' v'] [Hfst Hin]]. simpl in Hfst. subst k'.
  apply filter_In in Hin. apply in_map_iff. exists (k, v'). tauto.
Qed.

Lemma keys_filter_incl {V} (f : string * V -> bool) (d : pydict V) (k : string) :
  In k (keys (filter f d)) -> In k (keys d).
Proof.
  unfold keys. rewrite !in_map_iff. intros [kv [Hk Hin]].
  apply filter_In in Hin. exists kv. tauto.
Qed.

(** [{**a, **b}] keeps [a]'s value under a key [b] lacks. *)
Lemma get_merge_none {V} (c : string) (a b : pydict V) :
  get c b = None -> get c (merge a b) = get c a.
Proof.
  unfold merge. revert a. induction b as [|[k x] b IH]; intros a; simpl;
    [reflexivity|].
  destruct (String.eqb_spec c k) as [->|Hne]; [discriminate|].
  intros H. rewrite IH by exact H. now apply get_set_other.
Qed.

(** [{**a, **b}] takes [b]'s value under a key [b] has. *)
Lemma get_merge_some {V} (c : string) (v : V) (a b : pydict V) :
  NoDup (keys b) -> get c b = Some v -> get c (merge a b) = Some v.
Proof.
  unfold merge. revert a. induction b as [|[k x] b IH]; intros a Hnd; simpl;
    [discriminate|].
  inversion Hnd as [|? ? Hk Hb]; subst.
  destruct (String.eqb_spec c k) as [->|Hne].
  - intros [= ->]. fold (merge (set k v a) b).
    rewrite get_merge_none; [apply get_set_same | now apply get_None_iff].
  - intros H. now apply IH.
Qed.

End DictFacts.

(** ** Building and cutting the frame *)

Module FrameFacts.
Import Dict DictFacts.

Lemma in_list_app (c : string) (l1 l2 : list string) :
  in_list c (l1 ++ l2) = in_list c l1 || in_list c l2.
Proof. unfold in_list. apply existsb_app. Qed.

(** One dict's keys added to the columns seen so far. *)
Lemma in_list_add_keys (c : string) (ks cols : list string) :
  in_list c
    (fold_left (fun (cols : list string) (k : string) =>
                  if in_list k cols then cols else cols ++ [k]) ks cols)
  = in_list c cols || in_list c ks.
Proof.
  revert cols. induction ks as [|k ks IH]; intros cols; simpl.
  - now rewrite orb_false_r.
  - rewrite IH. destruct (in_list k cols) eqn:Hk.
    + destruct (String.eqb_spec c k) as [->|Hne]; simpl.
      * rewrite Hk. reflexivity.
      * reflexivity.
    + rewrite in_list_app. simpl. rewrite orb_false_r.
      now rewrite orb_assoc.
Qed.

Lemma in_list_union_from (c : string) (ds : list (pydict json))
    (cols : list string) :
  in_list c
    (fold_left
       (fun (cols : list string) (d : pydict json) =>
          fold_left (fun (cols : list string) (k : string) =>
                       if in_list k cols then cols else cols ++ [k])
                    (keys d) cols) ds cols)
  = in_list c cols || existsb (mem c) ds.
Proof.
  revert cols. induction ds as [|d ds IH]; intros cols; simpl.
  - now rewrite orb_false_r.
  - rewrite IH, in_list_add_keys, mem_keys. unfold in_list.
    now rewrite orb_assoc.
Qed.

(** A label is a column of the frame iff some dict has it as a key. *)
Lemma in_list_union_keys (c : string) (ds : list (pydict json)) :
  in_list c (union_keys ds) = existsb (mem c) ds.
Proof. unfold union_keys. now rewrite in_list_union_from. Qed.

Lemma cell_at_built (d : pydict json) (cols : list string) (c : string) :
  in_list c cols = true ->
  cell_at cols (map (fun c' => get c' d) cols) c = get c d.
Proof.
  unfold cell_at. induction cols as [|c' cols IH]; simpl; [discriminate|].
  destruct (String.eqb_spec c c') as [->|Hne]; simpl; [reflexivity|].
  exact IH.
Qed.

End FrameFacts.

(** ** [to_dataframe] in closed form *)

Module TransformFacts.
Import Dict DictFacts FrameFacts.

Lemma existsb_map {A B} (f : B -> bool) (g : A -> B) (l : list A) :
  existsb f (map g l) = existsb (fun a => f (g a)) l.
Proof. induction l as [|a l IH]; simpl; [reflexivity | now rewrite IH]. Qed.

Lemma filter_nil_all {A} (f : A -> bool) (l : list A) :
  filter f l = [] -> forall a, In a l -> f a = false.
Proof.
  induction l as [|x l IH]; simpl; intros H a Ha; [contradiction|].
  destruct (f x) eqn:Hx; [discriminate|].
  destruct Ha as [<-|Ha]; [exact Hx | now apply IH].
Qed.

Lemma in_list_In (c : string) (l : list string) : In c l -> in_list c l = true.
Proof.
  intros H. unfold in_list. apply existsb_exists. exists c. split; [exact H|].
  apply String.eqb_refl.
Qed.

(** Selecting labels from a frame built from dicts. *)
Lemma getitem_of_dicts (ds : list (pydict json)) (key : list string) :
  getitem (DataFrame_of_dicts ds) key =
  match filter (fun c => negb (existsb (mem c) ds)) key with
  | [] => inr (mkDataFrame key (map (fun d => map (fun c => get c d) key) ds))
  | missing => inl missing
  end.
Proof.
  unfold getitem, DataFrame_of_dicts.
  cbv beta iota zeta delta [columns Pandas.values].
  assert (Hf : filter (fun c => negb (in_list c (union_keys ds))) key
               = filter (fun c => negb (existsb (mem c) ds)) key).
  { apply filter_ext. intros c. now rewrite in_list_union_keys. }
  rewrite <- Hf.
  destruct (filter (fun c => negb (in_list c (union_keys ds))) key)
    as [|m ms] eqn:Habs; [|reflexivity].
  do 2 f_equal. rewrite map_map. apply map_ext. intros d.
  apply map_ext_in. intros c Hc. apply cell_at_built.
  pose proof (filter_nil_all _ _ Habs c Hc) as Hin.
  now apply negb_false_iff in Hin.
Qed.

(** The frame is cut to [COLUMNS] when every kept column occurs in some
    flattened record; otherwise the selection raises, naming the absent
    columns. *)
Lemma to_dataframe_fn_eq (raw_articles : list page) :
  to_dataframe_fn raw_articles =
  match absent_columns (List.concat raw_articles) with
  | [] => Ok (mkDataFrame COLUMNS (map project (List.concat raw_articles)))
  | missing => Raise (MissingFieldError missing)
  end.
Proof.
  unfold to_dataframe_fn.
  generalize (List.concat raw_articles) as recs. intros [|r rs]; [reflexivity|].
  change (json_normalize (r :: rs))
    with (DataFrame_of_dicts (_simple_json_normalize (r :: rs) ".")).
  rewrite getitem_of_dicts. unfold _simple_json_normalize.
  assert (Hf : filter
            (fun c => negb (existsb (mem c)
               (map (fun row => _normalise_json_ordered row ".") (r :: rs))))
            COLUMNS = absent_columns (r :: rs)).
  { unfold absent_columns. apply filter_ext. intros c.
    rewrite existsb_map. reflexivity. }
  rewrite Hf. destruct (absent_columns (r :: rs)); [|reflexivity].
  do 2 f_equal. rewrite map_map. reflexivity.
Qed.

Lemma absent_columns_nil (records : list record) :
  (forall c, In c COLUMNS ->
             exists r, In r records /\ Dict.mem c (flat r) = true) ->
  absent_columns records = [].
Proof.
  intros Hall. destruct (absent_columns records) as [|m ms] eqn:E;
    [reflexivity|].
  assert (Hm : In m (absent_columns records)) by (rewrite E; now left).
  unfold absent_columns in Hm. apply filter_In in Hm.
  destruct Hm as [Hc Hneg]. apply negb_true_iff in Hneg.
  destruct (Hall m Hc) as [r [Hr Hmem]].
  assert (Hex : existsb (fun r => Dict.mem m (flat r)) records = true).
  { apply existsb_exists. now exists r. }
  congruence.
Qed.

Lemma to_dataframe_fn_ok (raw_articles : list page) (df : DataFrame) :
  to_dataframe_fn raw_articles = Ok df ->
  df = mkDataFrame COLUMNS (map project (List.concat raw_articles)).
Proof.
  rewrite to_dataframe_fn_eq.
  destruct (absent_columns _); [|discriminate]. now intros [= <-].
Qed.

End TransformFacts.

(** ** What flattening does to the kept columns *)

Module FlattenFacts.
Import Dict DictFacts.

#[local] Arguments Ascii.ascii_dec : simpl never.

Lemma prefix_app_l (a b t : string) :
  String.prefix (a ++ b) t = true -> String.prefix a t = true.
Proof.
  revert t. induction a as [|x a IH]; intros [|y t]; simpl;
    try reflexivity; try discriminate.
  destruct (Ascii.ascii_dec x y); [apply IH | discriminate].
Qed.

Lemma prefix_refl (s : string) : String.prefix s s = true.
Proof.
  induction s as [|x s IH]; simpl; [reflexivity|].
  destruct (Ascii.ascii_dec x x); [exact IH | contradiction].
Qed.


Lemma prefix_dot (a b t : string) :
  String.prefix (a ++ "." ++ b) t = true -> contains_dot t = true.
Proof.
  revert t. induction a as [|x a IH]; intros [|y t]; simpl;
    try discriminate.
  - destruct (Ascii.ascii_dec "." y) as [<-|]; [reflexivity | discriminate].
  - destruct (Ascii.ascii_dec x y); [|discriminate].
    intros H. rewrite (IH t H). apply orb_true_r.
Qed.

Lemma substring_all (s : string) : String.substring 0 (String.length s) s = s.
Proof. induction s as [|x s IH]; simpl; [reflexivity | now rewrite IH]. Qed.

(** At the top level a member keeps its own key. *)
Lemma new_key_top (key : string) : new_key "" "." key = key.
Proof.
  unfold new_key, removeprefix. simpl. rewrite Nat.sub_0_r.
  replace (String.prefix "" key) with true by now destruct key.
  apply substring_all.
Qed.

(** Below a key, the member's key is appended after the separator. *)
Lemma new_key_below (ks key : string) :
  ks <> "" -> new_key ks "." key = (ks ++ "." ++ key)%string.
Proof. intros H. unfold new_key. destruct ks; [contradiction | reflexivity]. Qed.

Lemma append_nonempty (a b : string) : a <> "" -> (a ++ b)%string <> "".
Proof. destruct a; [contradiction | discriminate]. Qed.

(** The walk over an object is a fold over its members. *)
Lemma normalise_obj (ms : list (string * json)) (ks : string)
    (acc : pydict json) (sep : string) :
  _normalise_json (JObj ms) ks acc sep =
  fold_left (fun a kv =>
               _normalise_json (snd kv) (new_key ks sep (fst kv)) a sep)
            ms acc.
Proof.
  cbn [_normalise_json]. revert acc.
  induction ms as [|[k v] ms IH]; intros acc; [reflexivity|].
  cbn [fold_left fst snd]. apply IH.
Qed.

Lemma normalise_leaf (v : json) (ks : string) (acc : pydict json)
    (sep : string) :
  is_dict v = false -> _normalise_json v ks acc sep = set ks v acc.
Proof. destruct v; try reflexivity. discriminate. Qed.

(** Under a key that does not begin the label [t], nothing the walk
    stores is stored under [t]. *)
Lemma get_normalise_off_prefix (t : string) (data : json) :
  forall ks acc,
    ks <> "" -> String.prefix ks t = false ->
    get t (_normalise_json data ks acc ".") = get t acc.
Proof.
  assert (Hleaf : forall v ks acc,
             is_dict v = false -> String.prefix ks t = false ->
             get t (_normalise_json v ks acc ".") = get t acc).
  { intros v ks acc Hv Hp. rewrite normalise_leaf by exact Hv.
    apply get_set_other. intros ->. now rewrite prefix_refl in Hp. }
  induction data as [| | | | | items _ | ms IH] using json_nested_ind;
    intros ks acc Hne Hp; try (now apply Hleaf).
  rewrite normalise_obj. revert acc.
  induction IH as [|[k v] ms Hv _ IHms]; intros acc; [reflexivity|].
  cbn [fold_left fst snd]. rewrite IHms. cbn [snd] in Hv.
  apply Hv.
  - rewrite new_key_below by exact Hne. now apply append_nonempty.
  - rewrite new_key_below by exact Hne.
    destruct (String.prefix (ks ++ "." ++ k) t) eqn:E; [|reflexivity].
    apply prefix_app_l in E. congruence.
Qed.

(** Under a key [ks] other than [t], when [t] does not continue [ks]
    with a separator, nothing is stored under [t]. *)
Lemma get_normalise_below (t : string) (data : json) (ks : string)
    (acc : pydict json) :
  ks <> "" -> ks <> t ->
  (forall k, String.prefix (ks ++ "." ++ k) t = false) ->
  get t (_normalise_json data ks acc ".") = get t acc.
Proof.
  intros Hne Hks Hp. destruct (is_dict data) eqn:Hd.
  - destruct data; try discriminate. clear Hd. rewrite normalise_obj.
    revert acc. induction members as [|[k v] ms IH]; intros acc; [reflexivity|].
    cbn [fold_left fst snd]. rewrite IH.
    rewrite new_key_below by exact Hne.
    apply get_normalise_off_prefix; [now apply append_nonempty | apply Hp].
  - rewrite normalise_leaf by exact Hd. apply get_set_other. congruence.
Qed.

(** Below a top-level key, a label without dot is never stored. *)
Lemma get_normalise_dotless (t : string) (ms : list (string * json))
    (k : string) (acc : pydict json) :
  contains_dot t = false -> k <> "" ->
  get t (_normalise_json (JObj ms) k acc ".") = get t acc.
Proof.
  intros Ht Hk. rewrite normalise_obj. revert acc.
  induction ms as [|[k2 v] ms IH]; intros acc; [reflexivity|].
  cbn [fold_left fst snd]. rewrite IH. rewrite new_key_below by exact Hk.
  apply get_normalise_off_prefix; [now apply append_nonempty|].
  destruct (String.prefix (k ++ "." ++ k2) t) eqn:E; [|reflexivity].
  apply prefix_dot in E. congruence.
Qed.

(** Only the key [user] is followed by a dot at the start of
    [user.username]. *)
Lemma dot_prefix_user (k rest : string) :
  String.prefix (k ++ "." ++ rest) "user.username" = true -> k = "user".
Proof.
  intros H.
  repeat
    (destruct k as [|? k]; cbn [append String.prefix] in H;
     [ first [ discriminate H | reflexivity
             | destruct (Ascii.ascii_dec _ _); discriminate H ]
     | match type of H with
       | (if Ascii.ascii_dec ?a ?b then _ else _) = _ =>
           destruct (Ascii.ascii_dec a b) as [->|]; [|discriminate H]
       | _ => discriminate H
       end ]).
Qed.

Lemma prefix_same_head (c : ascii) (a t : string) :
  String.prefix (String c a) (String c t) = String.prefix a t.
Proof.
  cbn [String.prefix]. destruct (Ascii.ascii_dec c c); [reflexivity|].
  contradiction.
Qed.

(** The walk keeps the keys of the dict it fills distinct. *)
Lemma unique_normalise (data : json) :
  forall ks acc,
    NoDup (keys acc) -> NoDup (keys (_normalise_json data ks acc ".")).
Proof.
  induction data as [| | | | | items _ | ms IH] using json_nested_ind;
    intros ks acc H; try (now apply unique_set).
  rewrite normalise_obj. revert acc H.
  induction IH as [|[k v] ms Hv _ IHms]; intros acc H; [exact H|].
  cbn [fold_left fst snd]. apply IHms. now apply Hv.
Qed.

(** Inside the object under [user]: a member other than [username]
    stores nothing under [user.username]. *)
Lemma user_member_other (k2 : string) (v2 : json) (acc : pydict json) :
  k2 <> "username" ->
  get "user.username" (_normalise_json v2 (new_key "user" "." k2) acc ".")
  = get "user.username" acc.
Proof.
  intros Hk. rewrite new_key_below by discriminate.
  apply get_normalise_below.
  - discriminate.
  - cbn [append]. intros [= H]. contradiction.
  - intros k. cbn [append]. rewrite !prefix_same_head.
    change (k2 ++ String "." k)%string with (k2 ++ "." ++ k)%string.
    destruct (String.prefix (k2 ++ "." ++ k) "username") eqn:E;
      [|reflexivity].
    apply prefix_dot in E. discriminate E.
Qed.

Lemma user_fold_none (u : list (string * json)) (acc : pydict json) :
  ~ In "username" (keys u) ->
  get "user.username" (_normalise_json (JObj u) "user" acc ".")
  = get "user.username" acc.
Proof.
  rewrite normalise_obj. revert acc.
  induction u as [|[k2 v2] u IH]; intros acc H; [reflexivity|].
  cbn [fold_left fst snd]. simpl in H. rewrite IH by tauto.
  apply user_member_other. intros ->. tauto.
Qed.

(** The member [username] of the object under [user] ends up under
    [user.username]. *)
Lemma user_fold (u : list (string * json)) (v : json) (acc : pydict json) :
  NoDup (keys u) -> In ("username", v) u -> is_dict v = false ->
  get "user.username" (_normalise_json (JObj u) "user" acc ".") = Some v.
Proof.
  intros Hnd Hin Hv. revert acc.
  induction u as [|[k2 v2] u IH]; intros acc; [contradiction|].
  inversion Hnd as [|? ? Hk Hu]; subst.
  rewrite normalise_obj. cbn [fold_left fst snd]. rewrite <- normalise_obj.
  destruct Hin as [[= -> ->] | Hin].
  - rewrite user_fold_none by exact Hk.
    change (new_key "user" "." "username") with "user.username".
    rewrite normalise_leaf by exact Hv. apply get_set_same.
  - apply IH; assumption.
Qed.

(** At the top level: an object under a key other than [user] stores
    nothing under [user.username]. *)
Lemma top_member_other (k : string) (v : json) (acc : pydict json) :
  is_dict v = true -> k <> "" -> k <> "user" ->
  get "user.username" (_normalise_json v (new_key "" "." k) acc ".")
  = get "user.username" acc.
Proof.
  intros Hv Hk Hu. destruct v; try discriminate. clear Hv.
  rewrite new_key_top, normalise_obj. revert acc.
  induction members as [|[k2 v2] ms IH]; intros acc; [reflexivity|].
  cbn [fold_left fst snd]. rewrite IH. rewrite new_key_below by exact Hk.
  apply get_normalise_off_prefix; [now apply append_nonempty|].
  destruct (String.prefix (k ++ "." ++ k2) "user.username") eqn:E;
    [|reflexivity].
  apply dot_prefix_user in E. contradiction.
Qed.

Lemma top_fold_none (ms : list (string * json)) (acc : pydict json) :
  dict_valued ms -> ~ In "" (keys ms) -> ~ In "user" (keys ms) ->
  get "user.username" (_normalise_json (JObj ms) "" acc ".")
  = get "user.username" acc.
Proof.
  rewrite normalise_obj. intros Hd. revert acc.
  induction Hd as [|[k v] ms Hv _ IH]; intros acc He Hu; [reflexivity|].
  cbn [fold_left fst snd]. simpl in He, Hu. rewrite IH by tauto.
  apply top_member_other; [exact Hv | |]; intros ->; tauto.
Qed.

Lemma top_fold_user (ms u : list (string * json)) (v : json)
    (acc : pydict json) :
  dict_valued ms -> ~ In "" (keys ms) -> NoDup (keys ms) ->
  In ("user", JObj u) ms ->
  NoDup (keys u) -> In ("username", v) u -> is_dict v = false ->
  get "user.username" (_normalise_json (JObj ms) "" acc ".") = Some v.
Proof.
  intros Hd He Hnd Hin Hu Hv Hplain. revert acc.
  induction Hd as [|[k x] ms Hx Hd IH]; intros acc; [contradiction|].
  inversion Hnd as [|? ? Hk Hms]; subst. simpl in He.
  rewrite normalise_obj. cbn [fold_left fst snd]. rewrite <- normalise_obj.
  destruct Hin as [[= -> ->] | Hin].
  - rewrite top_fold_none by tauto. rewrite new_key_top.
    now apply user_fold.
  - apply IH; tauto.
Qed.

Lemma top_fold_dotless (t : string) (ms : list (string * json))
    (acc : pydict json) :
  contains_dot t = false -> dict_valued ms -> ~ In "" (keys ms) ->
  get t (_normalise_json (JObj ms) "" acc ".") = get t acc.
Proof.
  intros Ht Hd. rewrite normalise_obj. revert acc.
  induction Hd as [|[k v] ms Hv _ IH]; intros acc He; [reflexivity|].
  cbn [fold_left fst snd]. simpl in He. rewrite IH by tauto.
  cbn [snd] in Hv. destruct v; try discriminate.
  rewrite new_key_top. apply get_normalise_dotless; [exact Ht|].
  intros ->. tauto.
Qed.

Lemma dict_valued_filter (r : record) :
  dict_valued (filter (fun kv => is_dict (snd kv)) r).
Proof.
  apply Forall_forall. intros kv H. apply filter_In in H. tauto.
Qed.

(** A column without dot shows the record's own value under that key,
    when the value is not an object. *)
Lemma flat_get_top (r : record) (c : string) (v : json) :
  NoDup (keys r) -> ~ In "" (keys r) ->
  get c r = Some v -> is_dict v = false -> contains_dot c = false ->
  get c (flat r) = Some v.
Proof.
  intros Hnd He Hget Hv Hc. unfold flat, _normalise_json_ordered.
  rewrite !of_items_unique by now apply unique_filter.
  rewrite get_merge_none.
  - apply get_In; [now apply unique_filter|].
    apply filter_In. split; [now apply get_Some_In|].
    cbn [snd]. now rewrite Hv.
  - rewrite top_fold_dotless; [reflexivity | exact Hc | apply dict_valued_filter|].
    intros H. apply keys_filter_incl in H. contradiction.
Qed.

(** The column [user.username] shows the [username] of the object under
    [user], when that value is not an object. *)
Lemma flat_get_user (r : record) (u : list (string * json)) (v : json) :
  NoDup (keys r) -> ~ In "" (keys r) ->
  get "user" r = Some (JObj u) -> NoDup (keys u) ->
  get "username" u = Some v -> is_dict v = false ->
  get "user.username" (flat r) = Some v.
Proof.
  intros Hnd He Hget Hu Hname Hv. unfold flat, _normalise_json_ordered.
  rewrite !of_items_unique by now apply unique_filter.
  apply get_merge_some; [apply unique_normalise; constructor|].
  apply top_fold_user with (u := u).
  - apply dict_valued_filter.
  - intros H. apply keys_filter_incl in H. contradiction.
  - now apply unique_filter.
  - apply filter_In. split; [now apply get_Some_In | reflexivity].
  - exact Hu.
  - now apply get_Some_In.
  - exact Hv.
Qed.

End FlattenFacts.

(** ** One task run in closed form *)

Module TaskFacts.

Lemma executions_ext {A} (left : nat) (o o' : nat -> result A) :
  (forall i, o i = o' i) -> executions left o = executions left o'.
Proof.
  revert o o'. induction left as [|left IH]; intros o o' H; simpl;
    rewrite <- (H O); destruct (o O); try reflexivity.
  f_equal. apply IH. intros i. apply H.
Qed.

Lemma executions_raise {A} (left : nat) (o : nat -> result A) (e : error) :
  o O = Raise e ->
  executions (S left) o = S (executions left (fun i => o (S i))).
Proof. intros H. simpl. now rewrite H. Qed.

Lemma executions_pos {A} (left : nat) (o : nat -> result A) :
  (1 <= executions left o <= S left)%nat.
Proof.
  revert o. induction left as [|left IH]; intros o; simpl.
  - destruct (o O); lia.
  - destruct (o O); [lia|]. specialize (IH (fun i => o (S i))). lia.
Qed.

(** One execution of the body: a log line, a GET, the decoded page or
    the failure. *)
Lemma fetch_page_fn_run (page : Z) (api_base : string) (per_page : Z)
    (w : world) :
  fetch_page_fn page api_base per_page w =
  (execution w (request_of page api_base per_page) 0,
   mkWorld (server w) (writable w)
           (sent w ++ [request_of page api_base per_page]) (slept w)
           (stdout w ++ [Fetching page]) (runs w) (files w)).
Proof.
  unfold fetch_page_fn, execution, attempt_result, bind, print, httpx_get,
    raise_for_status, response_json, request_of. simpl.
  rewrite Nat.add_0_r.
  destruct (server w (List.length (sent w)) _) as [|r]; [reflexivity|].
  destruct (is_success r); [|reflexivity].
  destruct (body r); reflexivity.
Qed.

(** The retry loop around the body of [fetch_page], started with [done]
    retries behind it and [left] ahead. *)
Lemma attempts_fetch (page : Z) (api_base : string) (per_page : Z)
    (left done : nat) (w : world) :
  let rq := request_of page api_base per_page in
  let k := executions left (execution w rq) in
  attempts left done [2; 5; 15] (fetch_page_fn page api_base per_page) w =
  (execution w rq (k - 1),
   mkWorld (server w) (writable w)
           (sent w ++ repeat rq k)
           (slept w ++ map (retry_delay [2; 5; 15]) (seq done (k - 1)))
           (stdout w ++ repeat (Fetching page) k) (runs w) (files w)).
Proof.
  intros rq. revert done w.
  induction left as [|left IH]; intros done w; cbv zeta.
  - cbn [attempts executions]. rewrite fetch_page_fn_run. fold rq.
    destruct (execution w rq 0) eqn:E; cbn [Nat.sub repeat seq map];
      rewrite E, app_nil_r; reflexivity.
  - cbn [attempts executions]. rewrite fetch_page_fn_run. fold rq.
    destruct (execution w rq 0) eqn:E.
    + cbn [Nat.sub repeat seq map]. rewrite E, app_nil_r. reflexivity.
    + unfold bind, sleep. cbv beta iota.
      specialize (IH (S done)). cbv zeta in IH. rewrite IH. clear IH.
      cbn [server writable sent slept stdout runs files].
      assert (Hext : forall i,
                 execution
                   (mkWorld (server w) (writable w) (sent w ++ [rq])
                      (slept w ++ [retry_delay [2; 5; 15] done])
                      (stdout w ++ [Fetching page]) (runs w) (files w)) rq i
                 = execution w rq (S i)).
      { intros i. unfold execution. cbn [server sent].
        rewrite length_app. cbn [List.length].
        replace (List.length (sent w) + 1 + i)%nat
          with (List.length (sent w) + S i)%nat by lia.
        reflexivity. }
      rewrite (executions_ext left _ _ Hext).
      set (k := executions left (fun i => execution w rq (S i))).
      pose proof (executions_pos left (fun i => execution w rq (S i))) as Hk.
      fold k in Hk.
      rewrite Hext.
      replace (S (k - 1)) with k by lia.
      replace (S k - 1)%nat with k by lia.
      rewrite <- !app_assoc.
      destruct k as [|k']; [lia|].
      cbn [repeat app Nat.sub seq map]. rewrite Nat.sub_0_r.
      reflexivity.
Qed.

(** A call of the task [fetch_page]. *)
Lemma fetch_page_run (page : Z) (api_base : string) (per_page : Z)
    (w : world) :
  let rq := request_of page api_base per_page in
  let k := executions 3 (execution w rq) in
  fetch_page page api_base per_page w =
  (execution w rq (k - 1),
   mkWorld (server w) (writable w)
           (sent w ++ repeat rq k)
           (slept w ++ firstn (k - 1) [2; 5; 15])
           (stdout w ++ repeat (Fetching page) k)
           (runs w ++ [Run_fetch_page page api_base per_page]) (files w)).
Proof.
  cbv zeta. unfold fetch_page, task, bind, start_run. cbv beta iota.
  rewrite attempts_fetch. cbv zeta.
  cbn [server writable sent slept stdout runs files].
  change (execution (mkWorld (server w) (writable w) (sent w) (slept w)
             (stdout w) (runs w ++ [Run_fetch_page page api_base per_page])
             (files w)))
    with (execution w).
  pose proof (executions_pos 3
                (execution w (request_of page api_base per_page))) as Hk.
  set (k := executions 3 _) in *.
  assert (Hd : map (retry_delay [2; 5; 15]) (seq 0 (k - 1))
               = firstn (k - 1) [2; 5; 15]).
  { destruct k as [|[|[|[|[|k]]]]]; try lia; reflexivity. }
  rewrite Hd. reflexivity.
Qed.

(** A call of the task [to_dataframe]: one run, the body once. *)
Lemma to_dataframe_run (raw_articles : list page) (w : world) :
  to_dataframe raw_articles w =
  (to_dataframe_fn raw_articles,
   mkWorld (server w) (writable w) (sent w) (slept w) (stdout w)
           (runs w ++ [Run_to_dataframe raw_articles]) (files w)).
Proof.
  unfold to_dataframe, task, bind, start_run. cbn [attempts].
  destruct (to_dataframe_fn raw_articles); reflexivity.
Qed.

(** A call of the task [save_csv]: one run, the body once. *)
Lemma save_csv_run (df : DataFrame) (path : string) (w : world) :
  save_csv df path w =
  if writable w path
  then (Ok tt,
        mkWorld (server w) (writable w) (sent w) (slept w)
                (stdout w ++ [Saved (len df) path (head df)])
                (runs w ++ [Run_save_csv df path])
                (Dict.set path (mkCsv (columns df) (values df)) (files w)))
  else (Raise IoError,
        mkWorld (server w) (writable w) (sent w) (slept w) (stdout w)
                (runs w ++ [Run_save_csv df path]) (files w)).
Proof.
  unfold save_csv, task, bind, start_run. cbn [attempts].
  unfold save_csv_fn, bind, to_csv, print.
  cbn [server writable sent slept stdout runs files].
  destruct (writable w path); reflexivity.
Qed.

End TaskFacts.

(** ** The Fetcher's retry policy *)

Module FetchFacts.
Import TaskFacts.

(** Every execution before the last one failed, and the last one either
    succeeded or used up the retries. *)
Lemma executions_spec {A} (left : nat) (o : nat -> result A) :
  (forall i, (i < executions left o - 1)%nat -> exists e, o i = Raise e) /\
  (executions left o = S left \/ exists a, o (executions left o - 1)%nat = Ok a).
Proof.
  revert o. induction left as [|left IH]; intros o; simpl.
  - destruct (o O) eqn:E; simpl; (split; [intros i Hi; lia|]).
    + right. now exists a.
    + now left.
  - destruct (o O) eqn:E; simpl.
    + split; [intros i Hi; lia|]. right. now exists a.
    + destruct (IH (fun i => o (S i))) as [Hfail Hlast].
      pose proof (executions_pos left (fun i => o (S i))) as Hk.
      set (k := executions left (fun i => o (S i))) in *.
      rewrite Nat.sub_0_r. split.
      * intros [|i] Hi; [now exists e|]. apply Hfail. lia.
      * destruct Hlast as [-> | [a Ha]]; [now left|]. right. exists a.
        replace k with (S (k - 1)) by lia. exact Ha.
Qed.

(** Four failures in a row: the last one is raised, after the three
    waits. *)
Lemma fetch_page_four_failures page api_base per_page w e0 e1 e2 e3 :
  let rq := request_of page api_base per_page in
  execution w rq 0 = Raise e0 -> execution w rq 1 = Raise e1 ->
  execution w rq 2 = Raise e2 -> execution w rq 3 = Raise e3 ->
  fetch_page page api_base per_page w =
  (Raise e3,
   mkWorld (server w) (writable w) (sent w ++ [rq; rq; rq; rq])
           (slept w ++ [2; 5; 15])
           (stdout w ++ repeat (Fetching page) 4)
           (runs w ++ [Run_fetch_page page api_base per_page]) (files w)).
Proof.
  cbv zeta. intros H0 H1 H2 H3. rewrite fetch_page_run. cbv zeta.
  cbn [executions]. rewrite H0, H1, H2, H3. cbn. now rewrite H3.
Qed.

(** One failure is enough for a second execution, after a wait of 2. *)
Lemma fetch_page_failure_retried page api_base per_page w e :
  let rq := request_of page api_base per_page in
  execution w rq 0 = Raise e ->
  exists more waits,
    sent (snd (fetch_page page api_base per_page w))
    = sent w ++ rq :: rq :: more /\
    slept (snd (fetch_page page api_base per_page w))
    = slept w ++ 2 :: waits.
Proof.
  cbv zeta. intros H0. rewrite fetch_page_run. cbv zeta.
  cbn [snd sent slept]. rewrite (executions_raise _ _ _ H0).
  set (rq := request_of page api_base per_page).
  pose proof (executions_pos 2 (fun i => execution w rq (S i))) as Hk.
  destruct (executions 2 (fun i => execution w rq (S i))) as [|k]; [lia|].
  exists (repeat rq k), (firstn k [5; 15]). split; reflexivity.
Qed.

End FetchFacts.

(** ** The extract loop *)

Module LoopFacts.
Import TaskFacts.

Lemma fetched_length api_base per_page ps w pgs w' :
  fetched api_base per_page ps w pgs w' -> List.length pgs = List.length ps.
Proof. induction 1; simpl; congruence. Qed.

(** The loop returns exactly when every fetch does, with the pages in
    the order of the page numbers, after those already collected. *)
Lemma extract_ok_iff api_base per_page ps raw w raw' w' :
  extract api_base per_page ps raw w = (Ok raw', w') <->
  exists pgs, raw' = raw ++ pgs /\ fetched api_base per_page ps w pgs w'.
Proof.
  revert raw w. induction ps as [|p ps IH]; intros raw w; simpl.
  - unfold ret. split.
    + intros [= <- <-]. exists []. rewrite app_nil_r. split; constructor.
    + intros [pgs [-> H]]. inversion H; subst. now rewrite app_nil_r.
  - unfold bind.
    destruct (fetch_page p api_base per_page w) as [[pg|e] w1] eqn:E.
    + rewrite IH. split.
      * intros [pgs [-> H]]. exists (pg :: pgs). rewrite <- app_assoc.
        split; [reflexivity|]. econstructor; eassumption.
      * intros [pgs [-> H]]. inversion H; subst.
        match goal with
        | K : fetch_page p api_base per_page w = _ |- _ =>
            rewrite E in K; inversion K; subst
        end.
        eexists. rewrite <- app_assoc. split; [reflexivity | eassumption].
    + split; [discriminate|]. intros [pgs [_ H]]. inversion H; subst.
      congruence.
Qed.

(** What the loop leaves in the world, whether it returns or raises. *)
Lemma extract_frame api_base per_page ps raw w :
  let run := extract api_base per_page ps raw w in
  server (snd run) = server w /\
  writable (snd run) = writable w /\
  files (snd run) = files w /\
  exists (k : nat) (new : list request),
    (k <= List.length ps)%nat /\
    runs (snd run) = runs w ++ fetch_runs api_base per_page (firstn k ps) /\
    sent (snd run) = sent w ++ new /\
    Forall (fun rq => exists p, In p ps /\ rq = request_of p api_base per_page)
           new /\
    (forall raw', fst run = Ok raw' -> k = List.length ps).
Proof.
  revert raw w. induction ps as [|p ps IH]; intros raw w; cbv zeta.
  - simpl. repeat split; try reflexivity. exists O, []. simpl.
    rewrite !app_nil_r. repeat split; auto.
  - cbn [extract]. unfold bind. rewrite fetch_page_run. cbv zeta.
    set (k1 := executions 3 (execution w (request_of p api_base per_page))).
    set (w1 := mkWorld _ _ _ _ _ _ _).
    destruct (execution w (request_of p api_base per_page) (k1 - 1))
      as [pg|e] eqn:E.
    + specialize (IH (raw ++ [pg]) w1). cbv zeta in IH.
      destruct IH as (Hs & Hw & Hf & k & new & Hk & Hruns & Hsent & Hall & Hok).
      split; [exact Hs|]. split; [exact Hw|]. split; [exact Hf|].
      exists (S k), (repeat (request_of p api_base per_page) k1 ++ new).
      split; [simpl; lia|]. split.
      { rewrite Hruns. unfold w1. cbn [runs firstn fetch_runs map].
        now rewrite <- app_assoc. }
      split.
      { rewrite Hsent. unfold w1. cbn [sent]. now rewrite <- app_assoc. }
      split.
      { apply Forall_app. split.
        - apply Forall_forall. intros rq Hin. apply repeat_spec in Hin.
          exists p. split; [now left | exact Hin].
        - eapply Forall_impl; [|exact Hall]. intros rq [q [Hq ->]].
          exists q. split; [now right | reflexivity]. }
      intros raw' Hraw. simpl. f_equal. eapply Hok. exact Hraw.
    + cbn [fst snd]. unfold w1. cbn [server writable files runs sent].
      repeat split; try reflexivity.
      exists 1%nat, (repeat (request_of p api_base per_page) k1).
      split; [simpl; lia|]. split; [reflexivity|]. split; [reflexivity|].
      split; [|discriminate].
      apply Forall_forall. intros rq Hin. apply repeat_spec in Hin.
      exists p. split; [now left | exact Hin].
Qed.

Lemma range_one (pages : Z) :
  range 1 (pages + 1) = map Z.of_nat (seq 1 (Z.to_nat pages)).
Proof.
  unfold range. replace (pages + 1 - 1) with pages by lia.
  rewrite <- seq_shift, map_map. apply map_ext. intros i. lia.
Qed.

End LoopFacts.

(** ** The flow *)

Module FlowFacts.
Import TaskFacts LoopFacts TransformFacts.

(** The flow, stage by stage. *)
Lemma etl_run api_base pages per_page output_file w :
  etl api_base pages per_page output_file w =
  match extract api_base per_page (range 1 (pages + 1)) [] w with
  | (Raise e, w1) => (Raise e, w1)
  | (Ok raw_pages, w1) =>
      let w2 := mkWorld (server w1) (writable w1) (sent w1) (slept w1)
                        (stdout w1) (runs w1 ++ [Run_to_dataframe raw_pages])
                        (files w1) in
      match to_dataframe_fn raw_pages with
      | Raise e => (Raise e, w2)
      | Ok df => save_csv df output_file w2
      end
  end.
Proof.
  unfold etl, bind.
  destruct (extract _ _ _ _ w) as [[raw_pages|e] w1]; [|reflexivity].
  rewrite to_dataframe_run. destruct (to_dataframe_fn raw_pages); reflexivity.
Qed.

(** The flow when the extract loop returned. *)
Lemma etl_after_fetched api_base pages per_page output_file w raw_pages w1 :
  fetched api_base per_page (range 1 (pages + 1)) w raw_pages w1 ->
  etl api_base pages per_page output_file w =
  let w2 := mkWorld (server w1) (writable w1) (sent w1) (slept w1)
                    (stdout w1) (runs w1 ++ [Run_to_dataframe raw_pages])
                    (files w1) in
  match to_dataframe_fn raw_pages with
  | Raise e => (Raise e, w2)
  | Ok df => save_csv df output_file w2
  end.
Proof.
  intros H. rewrite etl_run.
  assert (E : extract api_base per_page (range 1 (pages + 1)) [] w
              = (Ok raw_pages, w1)).
  { apply extract_ok_iff. exists raw_pages. now split. }
  now rewrite E.
Qed.

(** A run whose stages all return replaces the output file by the
    table: the kept columns as header, one row per record, in fetch
    order. *)
Lemma etl_writes_table api_base pages per_page output_file w raw_pages w1 :
  fetched api_base per_page (range 1 (pages + 1)) w raw_pages w1 ->
  absent_columns (List.concat raw_pages) = [] ->
  writable w output_file = true ->
  fst (etl api_base pages per_page output_file w) = Ok tt /\
  files (snd (etl api_base pages per_page output_file w))
  = Dict.set output_file
      (mkCsv COLUMNS (map project (List.concat raw_pages))) (files w).
Proof.
  intros Hf Habs Hw.
  rewrite (etl_after_fetched _ _ _ _ _ _ _ Hf). cbv zeta.
  rewrite to_dataframe_fn_eq, Habs, save_csv_run. cbn [writable].
  assert (E : extract api_base per_page (range 1 (pages + 1)) [] w
              = (Ok raw_pages, w1)).
  { apply extract_ok_iff. exists raw_pages. now split. }
  pose proof (extract_frame api_base per_page (range 1 (pages + 1)) [] w)
    as Hfr. cbv zeta in Hfr. rewrite E in Hfr. cbn [snd] in Hfr.
  destruct Hfr as (_ & Hwr & Hfiles & _).
  rewrite Hwr, Hw. cbn [fst snd files columns values].
  now rewrite Hfiles.
Qed.

(** A run that raises anything but [IoError] has written nothing. *)
Lemma etl_raise_files api_base pages per_page output_file w e :
  fst (etl api_base pages per_page output_file w) = Raise e ->
  e <> IoError ->
  files (snd (etl api_base pages per_page output_file w)) = files w.
Proof.
  rewrite etl_run.
  pose proof (extract_frame api_base per_page (range 1 (pages + 1)) [] w)
    as Hfr. cbv zeta in Hfr. destruct Hfr as (_ & _ & Hfiles & _).
  destruct (extract _ _ _ _ w) as [[raw_pages|e1] w1]; cbn [fst snd] in *.
  - cbv zeta. destruct (to_dataframe_fn raw_pages) as [df|e2].
    + rewrite save_csv_run. cbn [writable].
      destruct (writable w1 output_file); cbn [fst snd files].
      * discriminate.
      * intros [= <-] Hne. now contradiction Hne.
    + cbn [fst snd files]. intros _ _. exact Hfiles.
  - intros _ _. exact Hfiles.
Qed.

End FlowFacts.

(** ** The Fetcher: requests and failures *)

Module FetcherClaims.
Import TaskFacts FetchFacts LoopFacts FlowFacts.

Lemma is_success_false (r : response) :
  ~ (200 <= status_code r <= 299) -> is_success r = false.
Proof.
  intros H. unfold is_success. apply andb_false_iff.
  destruct (Z.leb_spec 200 (status_code r)); [right | now left].
  apply Z.leb_gt. lia.
Qed.

Lemma execution_non_2xx (w : world) (rq : request) (i : nat) (r : response) :
  server w (List.length (sent w) + i)%nat rq = Got r ->
  ~ (200 <= status_code r <= 299) ->
  execution w rq i = Raise (HttpError (status_code r)).
Proof.
  intros Hr Hs. unfold execution, attempt_result. rewrite Hr.
  now rewrite is_success_false.
Qed.

(** C6. A failed fetch is run again up to 3 times, after waits of 2, 5
    and 15 seconds; when the fourth execution fails too, its failure is
    what the task raises; two failures followed by a success give the
    page, after waits of 2 and 5 seconds, and no error. *)
Theorem fetch_page_retry_policy (page : Z) (api_base : string)
    (per_page : Z) (w : world) :
  let rq := request_of page api_base per_page in
  let run := fetch_page page api_base per_page w in
  (exists k : nat,
      (1 <= k <= 4)%nat /\
      sent (snd run) = sent w ++ repeat rq k /\
      slept (snd run) = slept w ++ firstn (k - 1) [2; 5; 15] /\
      fst run = execution w rq (k - 1) /\
      (forall i, (i < k - 1)%nat -> exists e, execution w rq i = Raise e) /\
      (k = 4%nat \/ exists p, fst run = Ok p)) /\
  (forall e0 e1 e2 e3,
      execution w rq 0 = Raise e0 -> execution w rq 1 = Raise e1 ->
      execution w rq 2 = Raise e2 -> execution w rq 3 = Raise e3 ->
      fst run = Raise e3 /\
      slept (snd run) = slept w ++ [2; 5; 15] /\
      sent (snd run) = sent w ++ [rq; rq; rq; rq]) /\
  (forall e0 e1 p,
      execution w rq 0 = Raise e0 -> execution w rq 1 = Raise e1 ->
      execution w rq 2 = Ok p ->
      fst run = Ok p /\
      slept (snd run) = slept w ++ [2; 5] /\
      sent (snd run) = sent w ++ [rq; rq; rq]).
Proof.
  cbv zeta. rewrite fetch_page_run. cbv zeta. cbn [fst snd sent slept].
  set (rq := request_of page api_base per_page).
  split; [|split].
  - exists (executions 3 (execution w rq)).
    pose proof (executions_pos 3 (execution w rq)) as Hk.
    destruct (executions_spec 3 (execution w rq)) as [Hfail Hlast].
    split; [lia|]. do 3 (split; [reflexivity|]). split; [exact Hfail|].
    destruct Hlast as [H | [p Hp]]; [now left | right; now exists p].
  - intros e0 e1 e2 e3 H0 H1 H2 H3.
    cbn [executions]. rewrite H0, H1, H2, H3. cbn. rewrite H3. auto.
  - intros e0 e1 p H0 H1 H2.
    cbn [executions]. rewrite H0, H1, H2. cbn. rewrite H2. auto.
Qed.

(** The scenario on a server that drops two connections, then answers. *)
Lemma fetch_page_retry_policy_witness :
  let w := Samples.fresh Samples.flaky in
  let rq := request_of 1 "https://dev.to/api" 30 in
  let run := fetch_page 1 "https://dev.to/api" 30 w in
  execution w rq 0 = Raise NetworkError /\
  execution w rq 1 = Raise NetworkError /\
  execution w rq 2 = Ok [Samples.article 11 "a" "u1"] /\
  fst run = Ok [Samples.article 11 "a" "u1"] /\
  slept (snd run) = slept w ++ [2; 5] /\
  sent (snd run) = sent w ++ [rq; rq; rq].
Proof.
  cbv zeta.
  split; [reflexivity|]. split; [reflexivity|]. split; [reflexivity|].
  apply (proj2 (proj2 (fetch_page_retry_policy 1 "https://dev.to/api" 30
                         (Samples.fresh Samples.flaky)))
           NetworkError NetworkError); reflexivity.
Defined.

(** C8. A response outside 200..299 makes the execution of the fetch
    raise [HttpError] with that status code; when the first execution
    and the three retries all meet such a response, the task raises
    [HttpError] with the status code of the last one. *)
Theorem fetch_page_http_error (page : Z) (api_base : string) (per_page : Z)
    (w : world) :
  let rq := request_of page api_base per_page in
  let n := List.length (sent w) in
  (forall r,
      server w n rq = Got r -> ~ (200 <= status_code r <= 299) ->
      fst (fetch_page_fn page api_base per_page w)
      = Raise (HttpError (status_code r))) /\
  (forall r0 r1 r2 r3,
      server w n rq = Got r0 -> ~ (200 <= status_code r0 <= 299) ->
      server w (n + 1)%nat rq = Got r1 -> ~ (200 <= status_code r1 <= 299) ->
      server w (n + 2)%nat rq = Got r2 -> ~ (200 <= status_code r2 <= 299) ->
      server w (n + 3)%nat rq = Got r3 -> ~ (200 <= status_code r3 <= 299) ->
      fst (fetch_page page api_base per_page w)
      = Raise (HttpError (status_code r3))).
Proof.
  cbv zeta. split.
  - intros r Hr Hs. rewrite fetch_page_fn_run. cbn [fst].
    apply execution_non_2xx; [|exact Hs]. now rewrite Nat.add_0_r.
  - intros r0 r1 r2 r3 H0 S0 H1 S1 H2 S2 H3 S3.
    rewrite <- (Nat.add_0_r (List.length (sent w))) in H0.
    pose proof (execution_non_2xx w _ _ _ H0 S0) as E0.
    pose proof (execution_non_2xx w _ _ _ H1 S1) as E1.
    pose proof (execution_non_2xx w _ _ _ H2 S2) as E2.
    pose proof (execution_non_2xx w _ _ _ H3 S3) as E3.
    now rewrite (fetch_page_four_failures _ _ _ _ _ _ _ _ E0 E1 E2 E3).
Qed.

(** Four answers 503 in a row. *)
Lemma fetch_page_http_error_witness :
  let w := Samples.fresh (Samples.always 503) in
  ~ (200 <= 503 <= 299) /\
  fst (fetch_page_fn 1 "https://dev.to/api" 30 w) = Raise (HttpError 503) /\
  fst (fetch_page 1 "https://dev.to/api" 30 w) = Raise (HttpError 503).
Proof.
  cbv zeta. split; [lia|].
  pose proof (fetch_page_http_error 1 "https://dev.to/api" 30
                (Samples.fresh (Samples.always 503))) as [H1 H4].
  split.
  - apply (H1 (mkResponse 503 None)); [reflexivity | simpl; lia].
  - apply (H4 (mkResponse 503 None) (mkResponse 503 None)
              (mkResponse 503 None) (mkResponse 503 None));
      solve [reflexivity | simpl; lia].
Defined.




End FetcherClaims.

(** ** The Transformer: rows *)

Module TransformerClaims.
Import TaskFacts LoopFacts FlowFacts TransformFacts.

Lemma length_concat_sum {A} (ls : list (list A)) :
  List.length (List.concat ls) = list_sum (map (@List.length A) ls).
Proof.
  induction ls as [|l ls IH]; simpl; [reflexivity|].
  now rewrite length_app, IH.
Qed.

(** C3. The table has one row per record of every page, the rows of a
    page in the page's order, the pages in the order given; two records
    on page 1 and one on page 2 give three rows, p1r1, p1r2, p2r1. *)
Theorem to_dataframe_rows (raw_articles : list page) (df : DataFrame) :
  to_dataframe_fn raw_articles = Ok df ->
  len df = list_sum (map (@List.length record) raw_articles) /\
  values df = List.concat (map (map project) raw_articles) /\
  (forall p1r1 p1r2 p2r1,
      raw_articles = [[p1r1; p1r2]; [p2r1]] ->
      len df = 3%nat /\
      values df = [project p1r1; project p1r2; project p2r1]).
Proof.
  intros H. apply to_dataframe_fn_ok in H. subst df. unfold len.
  cbn [values]. split; [|split].
  - now rewrite length_map, length_concat_sum.
  - apply concat_map.
  - intros p1r1 p1r2 p2r1 ->. split; reflexivity.
Qed.

(** The scenario on the sample server with two pages, through the whole
    flow: the file holds the three rows in fetch order. *)
Lemma to_dataframe_rows_witness :
  let a := Samples.article 11 "a" "u1" in
  let b := Samples.article 12 "b" "u2" in
  let c := Samples.article 21 "c" "u3" in
  let df := mkDataFrame COLUMNS [project a; project b; project c] in
  let run := etl "https://dev.to/api" 2 2 "out.csv"
                 (Samples.fresh Samples.two_pages) in
  to_dataframe_fn [[a; b]; [c]] = Ok df /\
  len df = 3%nat /\
  values df = [project a; project b; project c] /\
  fst run = Ok tt /\
  Dict.get "out.csv" (files (snd run))
  = Some (mkCsv COLUMNS [project a; project b; project c]).
Proof.
  cbv zeta.
  assert (H : to_dataframe_fn
                [[Samples.article 11 "a" "u1"; Samples.article 12 "b" "u2"];
                 [Samples.article 21 "c" "u3"]]
              = Ok (mkDataFrame COLUMNS
                      [project (Samples.article 11 "a" "u1");
                       project (Samples.article 12 "b" "u2");
                       project (Samples.article 21 "c" "u3")]))
    by reflexivity.
  split; [exact H|].
  destruct (to_dataframe_rows _ _ H) as (_ & _ & H3).
  destruct (H3 _ _ _ eq_refl) as [Hlen Hrows].
  split; [exact Hlen|]. split; [exact Hrows|]. split; reflexivity.
Defined.

(** C10. With no record at all (no page asked for, or only empty pages)
    the selection finds none of the columns: [to_dataframe] raises, the
    flow raises with it, and no file is written. *)
Theorem empty_input_fails (api_base : string) (pages per_page : Z)
    (output_file : string) (w : world) :
  let run := etl api_base pages per_page output_file w in
  (forall raw_articles,
      List.concat raw_articles = [] ->
      to_dataframe_fn raw_articles = Raise (MissingFieldError COLUMNS)) /\
  (pages <= 0 ->
      fst run = Raise (MissingFieldError COLUMNS) /\
      files (snd run) = files w /\ sent (snd run) = sent w) /\
  (forall raw_pages w1,
      fetched api_base per_page (range 1 (pages + 1)) w raw_pages w1 ->
      Forall (fun p => p = []) raw_pages ->
      fst run = Raise (MissingFieldError COLUMNS) /\
      files (snd run) = files w).
Proof.
  cbv zeta.
  assert (Hempty : forall raw_articles,
             List.concat raw_articles = [] ->
             to_dataframe_fn raw_articles = Raise (MissingFieldError COLUMNS)).
  { intros raw H. rewrite to_dataframe_fn_eq, H. reflexivity. }
  split; [exact Hempty|]. split.
  - intros Hp.
    assert (Hr : range 1 (pages + 1) = []).
    { unfold range. replace (Z.to_nat (pages + 1 - 1)) with O by lia.
      reflexivity. }
    rewrite etl_run, Hr. cbn [extract]. unfold ret. cbv zeta.
    repeat split.
  - intros raw_pages w1 Hf Hall.
    assert (Hc : List.concat raw_pages = []).
    { clear Hf. induction Hall as [|p ps -> _ IH]; [reflexivity | exact IH]. }
    assert (Hfst : fst (etl api_base pages per_page output_file w)
                   = Raise (MissingFieldError COLUMNS)).
    { rewrite (etl_after_fetched _ _ _ _ _ _ _ Hf). cbv zeta.
      now rewrite (Hempty _ Hc). }
    split; [exact Hfst|].
    apply (etl_raise_files _ _ _ _ _ _ Hfst). discriminate.
Qed.

(** No page asked for, and two empty pages. *)
Lemma empty_input_fails_witness :
  let w := Samples.fresh Samples.empties in
  to_dataframe_fn [[]; []] = Raise (MissingFieldError COLUMNS) /\
  (fst (etl "https://dev.to/api" 0 30 "out.csv" w)
   = Raise (MissingFieldError COLUMNS) /\
   files (snd (etl "https://dev.to/api" 0 30 "out.csv" w)) = files w /\
   sent (snd (etl "https://dev.to/api" 0 30 "out.csv" w)) = sent w) /\
  (fst (etl "https://dev.to/api" 2 30 "out.csv" w)
   = Raise (MissingFieldError COLUMNS) /\
   files (snd (etl "https://dev.to/api" 2 30 "out.csv" w)) = files w).
Proof.
  cbv zeta. split; [|split].
  - apply (proj1 (empty_input_fails "https://dev.to/api" 0 30 "out.csv"
                    (Samples.fresh Samples.empties))). reflexivity.
  - apply (proj1 (proj2 (empty_input_fails "https://dev.to/api" 0 30 "out.csv"
                           (Samples.fresh Samples.empties)))). lia.
  - apply (proj2 (proj2 (empty_input_fails "https://dev.to/api" 2 30 "out.csv"
                           (Samples.fresh Samples.empties))) [[]; []]
             (snd (extract "https://dev.to/api" 30 (range 1 (2 + 1)) []
                           (Samples.fresh Samples.empties)))).
    + econstructor; [reflexivity|]. econstructor; [reflexivity|]. constructor.
    + repeat constructor.
Defined.

(** C1 as stated fails: the second article of the page has no title,
    the first has one; the run succeeds and writes both rows, the
    second with the missing marker under [title]. *)
Lemma record_without_field_is_written :
  let a := Samples.article 11 "a" "u1" in
  let b := Samples.untitled 12 "u2" in
  let run := etl "https://dev.to/api" 1 30 "out.csv"
                 (Samples.fresh Samples.one_untitled) in
  field b "title" = None /\
  fst run = Ok tt /\
  Dict.get "out.csv" (files (snd run))
  = Some (mkCsv COLUMNS
            [project a;
             [Some (JInt 12); None; Some (JStr "2024-01-01T00:00:00Z");
              Some (JStr "https://dev.to/b"); Some (JInt 3); Some (JInt 1);
              Some (JArr []); Some (JStr "u2")]]).
Proof. cbv zeta. repeat split; reflexivity. Qed.

(** C1, amended. The run fails with [MissingFieldError], naming the
    columns concerned, and writes nothing, when some kept column is in
    none of the fetched records after flattening.  When every kept
    column is in at least one record the table is built, and a record
    without some column has the missing marker there. *)
Theorem missing_column_fails (api_base : string) (pages per_page : Z)
    (output_file : string) (w w1 : world) (raw_pages : list page) :
  fetched api_base per_page (range 1 (pages + 1)) w raw_pages w1 ->
  let records := List.concat raw_pages in
  let run := etl api_base pages per_page output_file w in
  (forall c,
      In c COLUMNS ->
      (forall r, In r records -> Dict.mem c (flat r) = false) ->
      In c (absent_columns records) /\
      fst run = Raise (MissingFieldError (absent_columns records)) /\
      files (snd run) = files w) /\
  ((forall c, In c COLUMNS ->
              exists r, In r records /\ Dict.mem c (flat r) = true) ->
   to_dataframe_fn raw_pages
   = Ok (mkDataFrame COLUMNS (map project records)) /\
   forall r c, In r records -> In c COLUMNS ->
               Dict.mem c (flat r) = false ->
               cell_at COLUMNS (project r) c = None).
Proof.
  intros Hf. cbv zeta. split.
  - intros c Hc Hnone.
    assert (Habs : In c (absent_columns (List.concat raw_pages))).
    { unfold absent_columns. apply filter_In. split; [exact Hc|].
      apply negb_true_iff.
      destruct (existsb _ (List.concat raw_pages)) eqn:E; [|reflexivity].
      apply existsb_exists in E. destruct E as [r [Hr Hm]].
      rewrite (Hnone r Hr) in Hm. discriminate. }
    split; [exact Habs|].
    assert (Hfst : fst (etl api_base pages per_page output_file w)
                   = Raise (MissingFieldError
                              (absent_columns (List.concat raw_pages)))).
    { rewrite (etl_after_fetched _ _ _ _ _ _ _ Hf). cbv zeta.
      rewrite to_dataframe_fn_eq.
      destruct (absent_columns (List.concat raw_pages));
        [contradiction | reflexivity]. }
    split; [exact Hfst|].
    apply (etl_raise_files _ _ _ _ _ _ Hfst). discriminate.
  - intros Hall. split.
    + rewrite to_dataframe_fn_eq. now rewrite absent_columns_nil.
    + intros r c _ Hc Hmem. unfold project.
      rewrite FrameFacts.cell_at_built by now apply in_list_In.
      unfold Dict.mem in Hmem. now destruct (Dict.get c (flat r)).
Qed.

(** A page of untitled articles fails the run; the page with one titled
    and one untitled article gives the table. *)
Lemma missing_column_fails_witness :
  let api := "https://dev.to/api" in
  let a := Samples.article 11 "a" "u1" in
  let b := Samples.untitled 12 "u2" in
  let none (n : nat) (rq : request) := Got (mkResponse 200 (Some [b])) in
  (In "title" (absent_columns [b]) /\
   fst (etl api 1 30 "out.csv" (Samples.fresh none))
   = Raise (MissingFieldError (absent_columns [b])) /\
   files (snd (etl api 1 30 "out.csv" (Samples.fresh none)))
   = files (Samples.fresh none)) /\
  (to_dataframe_fn [[a; b]] = Ok (mkDataFrame COLUMNS (map project [a; b])) /\
   cell_at COLUMNS (project b) "title" = None).
Proof.
  cbv zeta. split.
  - refine (proj1 (missing_column_fails "https://dev.to/api" 1 30 "out.csv"
             (Samples.fresh (fun _ _ =>
                Got (mkResponse 200 (Some [Samples.untitled 12 "u2"]))))
             _ [[Samples.untitled 12 "u2"]] _) "title" _ _).
    + econstructor; [reflexivity | constructor].
    + simpl. tauto.
    + intros r [<- | []]. reflexivity.
  - destruct (proj2 (missing_column_fails "https://dev.to/api" 1 30 "out.csv"
             (Samples.fresh Samples.one_untitled)
             _ [[Samples.article 11 "a" "u1"; Samples.untitled 12 "u2"]]
             ltac:(econstructor; [reflexivity | constructor]))) as [Hok Hcell].
    + intros c Hc. exists (Samples.article 11 "a" "u1").
      split; [now left|].
      simpl in Hc.
      repeat (destruct Hc as [<- | Hc]; [reflexivity|]). contradiction.
    + split; [exact Hok|].
      apply (Hcell (Samples.untitled 12 "u2") "title");
        [simpl; tauto | simpl; tauto | reflexivity].
Defined.

End TransformerClaims.

(** ** The orchestrator: which pages are fetched *)

Module OrchestratorClaims.
Import TaskFacts LoopFacts FlowFacts.

Lemma fetched_runs api_base per_page ps w pgs w' :
  fetched api_base per_page ps w pgs w' ->
  runs w' = runs w ++ fetch_runs api_base per_page ps.
Proof.
  induction 1 as [w|p ps w w1 w2 pg pgs Hp Hrest IH].
  - simpl. now rewrite app_nil_r.
  - rewrite IH. rewrite fetch_page_run in Hp. cbv zeta in Hp.
    inversion Hp; subst. cbn [runs fetch_runs map].
    now rewrite <- app_assoc.
Qed.

(** C4. For a page count N >= 0 the page numbers are 1, 2, ..., N.  The
    flow starts the fetch task for an initial part of them, in that
    order, and for nothing else.  When each fetch returns, there are
    exactly N fetch runs, for 1..N in increasing order, and the pages
    they returned, in that order, are what [to_dataframe] is called
    with. *)
Theorem etl_fetches_pages_in_order (api_base : string) (pages per_page : Z)
    (output_file : string) (w : world) :
  0 <= pages ->
  let numbers := range 1 (pages + 1) in
  let run := etl api_base pages per_page output_file w in
  numbers = map Z.of_nat (seq 1 (Z.to_nat pages)) /\
  (exists (k : nat) (others : list task_run),
      (k <= Z.to_nat pages)%nat /\
      runs (snd run)
      = runs w ++ fetch_runs api_base per_page (firstn k numbers) ++ others /\
      existsb is_fetch_run others = false) /\
  (forall raw_pages w1,
      fetched api_base per_page numbers w raw_pages w1 ->
      Z.of_nat (List.length (fetch_runs api_base per_page numbers)) = pages /\
      List.length raw_pages = Z.to_nat pages /\
      exists others,
        runs (snd run)
        = runs w ++ fetch_runs api_base per_page numbers
                 ++ Run_to_dataframe raw_pages :: others /\
        existsb is_fetch_run others = false).
Proof.
  intros Hpages. cbv zeta.
  assert (Hlen : List.length (range 1 (pages + 1)) = Z.to_nat pages).
  { unfold range. rewrite length_map, length_seq. f_equal. lia. }
  split; [apply range_one|]. split.
  - rewrite etl_run.
    pose proof (extract_frame api_base per_page (range 1 (pages + 1)) [] w)
      as Hfr. cbv zeta in Hfr.
    destruct Hfr as (_ & _ & _ & k & new & Hk & Hruns & _ & _ & _).
    rewrite Hlen in Hk.
    destruct (extract _ _ _ _ w) as [[raw_pages|e] w1]; cbn [snd] in *.
    + cbv zeta. destruct (to_dataframe_fn raw_pages) as [df|e].
      * rewrite save_csv_run. cbn [writable].
        exists k, [Run_to_dataframe raw_pages; Run_save_csv df output_file].
        split; [exact Hk|]. split; [|reflexivity].
        destruct (writable w1 output_file); cbn [snd runs]; rewrite Hruns;
          now rewrite <- !app_assoc.
      * exists k, [Run_to_dataframe raw_pages]. cbn [snd runs].
        split; [exact Hk|]. split; [|reflexivity].
        rewrite Hruns. now rewrite <- !app_assoc.
    + exists k, []. split; [exact Hk|]. split; [|reflexivity].
      now rewrite app_nil_r.
  - intros raw_pages w1 Hf.
    split; [unfold fetch_runs; rewrite length_map, Hlen; lia|].
    split; [rewrite (fetched_length _ _ _ _ _ _ Hf); exact Hlen|].
    rewrite (etl_after_fetched _ _ _ _ _ _ _ Hf). cbv zeta.
    pose proof (fetched_runs _ _ _ _ _ _ Hf) as Hruns.
    destruct (to_dataframe_fn raw_pages) as [df|e].
    + rewrite save_csv_run. cbn [writable].
      exists [Run_save_csv df output_file]. split; [|reflexivity].
      destruct (writable w1 output_file); cbn [snd runs]; rewrite Hruns;
        now rewrite <- !app_assoc.
    + exists []. split; [|reflexivity]. cbn [snd runs]. rewrite Hruns.
      now rewrite <- !app_assoc.
Qed.

(** Two pages on the sample server. *)
Lemma etl_fetches_pages_in_order_witness :
  let api := "https://dev.to/api" in
  let w := Samples.fresh Samples.two_pages in
  let p1 := [Samples.article 11 "a" "u1"; Samples.article 12 "b" "u2"] in
  let p2 := [Samples.article 21 "c" "u3"] in
  0 <= 2 /\
  range 1 (2 + 1) = [1; 2] /\
  exists others,
    runs (snd (etl api 2 2 "out.csv" w))
    = runs w ++ [Run_fetch_page 1 api 2; Run_fetch_page 2 api 2]
             ++ Run_to_dataframe [p1; p2] :: others /\
    existsb is_fetch_run others = false.
Proof.
  cbv zeta. split; [lia|]. split; [reflexivity|].
  assert (H2 : 0 <= 2) by lia.
  destruct (etl_fetches_pages_in_order "https://dev.to/api" 2 2 "out.csv"
              (Samples.fresh Samples.two_pages) H2) as (_ & _ & H).
  destruct (H [[Samples.article 11 "a" "u1"; Samples.article 12 "b" "u2"];
               [Samples.article 21 "c" "u3"]]
              (snd (extract "https://dev.to/api" 2 (range 1 (2 + 1)) []
                            (Samples.fresh Samples.two_pages))))
    as (_ & _ & others & Hruns & Hno).
  - econstructor; [reflexivity|]. econstructor; [reflexivity|]. constructor.
  - exists others. split; [exact Hruns | exact Hno].
Defined.

End OrchestratorClaims.


(** ** The Transformer: the row of one record *)

Module CsvFacts.
Import Csv.

Lemma parse_chars_app (self : ReaderObj) (a b : string) :
  parse_chars self (a ++ b)%string =
  match parse_chars self a with
  | Some self' => parse_chars self' b
  | None => None
  end.
Proof.
  revert self. induction a as [|c a IH]; intros self; [reflexivity|].
  cbn [append parse_chars].
  destruct (parse_process_char self (Some c)); [apply IH | reflexivity].
Qed.

Lemma eol_not_eat (self self' : ReaderObj) :
  parse_process_char self None = Some self' -> state self' <> EAT_CRNL.
Proof.
  unfold parse_process_char.
  destruct self as [[] f fs]; cbn; intros [= <-]; cbn; discriminate.
Qed.

Lemma step_plain (self : ReaderObj) (c : ascii) :
  state self <> EAT_CRNL -> is_newline c = false ->
  exists self', parse_process_char self (Some c) = Some self' /\
                state self' <> EAT_CRNL.
Proof.
  intros Hs Hn. unfold parse_process_char, start_field.
  destruct self as [st f fs]. cbn [state] in *. rewrite ?Hn.
  destruct st; rewrite ?Hn;
    try contradiction;
    destruct (Ascii.eqb c QUOTECHAR); destruct (Ascii.eqb c DELIMITER);
    eexists; (split; [reflexivity | cbn; discriminate]).
Qed.

Lemma str_is_empty_app (a : string) (c : ascii) :
  str_is_empty (a ++ String c "")%string = false.
Proof. now destruct a. Qed.

(** The reader over the lines of a text is the reader fed that text. *)
Lemma feed_readlines (n : nat) :
  forall (s line : string) (p q : ReaderObj),
    (String.length s <= n)%nat ->
    parse_chars p line = Some q -> state q <> EAT_CRNL ->
    Reader_iter (readlines s line) p = feed q (negb (str_is_empty line)) s.
Proof.
  induction n as [|n IH]; intros s line p q Hlen Hq Hst.
  - destruct s; [|cbn in Hlen; lia]. cbn [readlines feed].
    destruct line as [|c line].
    + cbn in Hq. injection Hq as <-. reflexivity.
    + cbn [str_is_empty negb]. cbn [Reader_iter]. unfold parse_line, after_line.
      rewrite Hq. destruct (parse_process_char q None) as [q'|]; [|reflexivity].
      destruct (is_start_record (state q')); reflexivity.
  - destruct s as [|c rest].
    { apply (IH "" line p q); [cbn; lia | exact Hq | exact Hst]. }
    cbn [String.length] in Hlen. cbn [readlines feed].
    destruct (Ascii.eqb c LF) eqn:Hlf.
    + cbn [Reader_iter]. unfold parse_line. rewrite parse_chars_app, Hq.
      cbn [parse_chars].
      destruct (parse_process_char q (Some c)) as [q1|]; [|reflexivity].
      unfold after_line.
      destruct (parse_process_char q1 None) as [q2|] eqn:E2; [|reflexivity].
      destruct (is_start_record (state q2)).
      * f_equal; apply (IH rest "" parse_reset parse_reset);
          [lia | reflexivity | cbn; discriminate].
      * apply (IH rest "" q2 q2); [lia | reflexivity |].
        eapply eol_not_eat; exact E2.
    + destruct (Ascii.eqb c CR) eqn:Hcr.
      * destruct rest as [|c' rest'].
        -- cbn [Reader_iter]. unfold parse_line. rewrite parse_chars_app, Hq.
           cbn [parse_chars].
           destruct (parse_process_char q (Some c)) as [q1|]; [|reflexivity].
           unfold after_line.
           destruct (parse_process_char q1 None) as [q2|] eqn:E2;
             [|reflexivity].
           destruct (is_start_record (state q2)); reflexivity.
        -- destruct (Ascii.eqb c' LF) eqn:Hlf'.
           ++ cbn [Reader_iter]. unfold parse_line.
              rewrite parse_chars_app, Hq. cbn [parse_chars].
              destruct (parse_process_char q (Some c)) as [q1|];
                [|reflexivity].
              destruct (parse_process_char q1 (Some c')) as [q1'|];
                [|reflexivity].
              unfold after_line.
              destruct (parse_process_char q1' None) as [q2|] eqn:E2;
                [|reflexivity].
              cbn [String.length] in Hlen.
              destruct (is_start_record (state q2)).
              ** f_equal; apply (IH rest' "" parse_reset parse_reset);
                   [lia | reflexivity | cbn; discriminate].
              ** apply (IH rest' "" q2 q2); [lia | reflexivity |].
                 eapply eol_not_eat; exact E2.
           ++ cbn [Reader_iter]. unfold parse_line.
              rewrite parse_chars_app, Hq. cbn [parse_chars].
              destruct (parse_process_char q (Some c)) as [q1|];
                [|reflexivity].
              unfold after_line.
              destruct (parse_process_char q1 None) as [q2|] eqn:E2;
                [|reflexivity].
              destruct (is_start_record (state q2)).
              ** f_equal; apply (IH _ "" parse_reset parse_reset);
                   [lia | reflexivity | cbn; discriminate].
              ** apply (IH _ "" q2 q2); [lia | reflexivity |].
                 eapply eol_not_eat; exact E2.
      * assert (Hn : is_newline c = false)
          by (unfold is_newline; now rewrite Hlf, Hcr).
        destruct (step_plain q c Hst Hn) as (q1 & E1 & Hst1).
        rewrite E1.
        replace true with (negb (str_is_empty (line ++ String c "")%string))
          by now rewrite str_is_empty_app.
        apply (IH rest (line ++ String c "")%string p q1); [lia | | exact Hst1].
        rewrite parse_chars_app, Hq. cbn [parse_chars]. now rewrite E1.
Qed.

Lemma csv_reader_feed (text : string) :
  csv_reader text = feed parse_reset false text.
Proof.
  unfold csv_reader.
  apply (feed_readlines (String.length text) text "" parse_reset parse_reset);
    [lia | reflexivity | cbn; discriminate].
Qed.


(** *** Reading back what the writer wrote *)

Section RoundTrip.
Variable os : platform.
Let lt := linesep os.

Lemma plain_char (c : ascii) :
  special lt c = false -> Ascii.eqb c CR = false ->
  Ascii.eqb c DELIMITER = false /\ Ascii.eqb c QUOTECHAR = false /\
  Ascii.eqb c LF = false /\ is_newline c = false.
Proof.
  unfold special, is_newline. intros Hs Hcr.
  apply orb_false_iff in Hs. destruct Hs as [Hs Hlt].
  apply orb_false_iff in Hs. destruct Hs as [Hd Hq].
  assert (Hlf : Ascii.eqb c LF = false).
  { subst lt. destruct os; cbn in Hlt.
    - now apply orb_false_iff in Hlt.
    - apply orb_false_iff in Hlt. destruct Hlt as [_ Hlt].
      now apply orb_false_iff in Hlt. }
  now rewrite Hd, Hq, Hlf, Hcr.
Qed.

Lemma cr_free_cons (c : ascii) (f : string) :
  cr_free (String c f) = true ->
  Ascii.eqb c CR = false /\ cr_free f = true.
Proof.
  unfold cr_free. cbn [contains]. rewrite negb_true_iff, orb_false_iff.
  intros [H1 H2]. rewrite Ascii.eqb_sym in H1. now rewrite H2.
Qed.

Lemma append_assoc (a b c : string) :
  ((a ++ b) ++ c = a ++ (b ++ c))%string.
Proof. induction a as [|x a IH]; cbn; [reflexivity | now rewrite IH]. Qed.

Lemma append_nil_r (a : string) : (a ++ "" = a)%string.
Proof. induction a as [|x a IH]; cbn; [reflexivity | now rewrite IH]. Qed.

(** The rest of an unquoted field. *)
Lemma feed_unquoted (g : string) :
  needs_quoting lt g = false -> cr_free g = true ->
  forall acc done b U,
  exists b',
    feed (mkReader IN_FIELD acc done) b (g ++ U)%string
    = feed (mkReader IN_FIELD (acc ++ g)%string done) b' U.
Proof.
  induction g as [|c g IH]; intros Hq Hcr acc done b U.
  - exists b. now rewrite append_nil_r.
  - cbn [needs_quoting] in Hq. apply orb_false_iff in Hq.
    destruct Hq as [Hc Hg]. apply cr_free_cons in Hcr.
    destruct Hcr as [Hccr Hgcr].
    destruct (plain_char c Hc Hccr) as (Hd & Hqu & Hlf & Hn).
    destruct (IH Hg Hgcr (acc ++ String c "")%string done true U) as [b' E].
    exists b'. cbn [append feed].
    unfold parse_process_char. cbn [state]. rewrite Hn, Hd, Hlf, Hccr.
    unfold parse_add_char. cbn [state field_ fields].
    rewrite E, append_assoc. reflexivity.
Qed.

(** The first character of an unquoted field. *)
Lemma feed_unquoted_start (st : ParserState) (c : ascii) :
  st = START_RECORD \/ st = START_FIELD ->
  special lt c = false -> Ascii.eqb c CR = false ->
  forall done b U,
    feed (mkReader st "" done) b (String c U)
    = feed (mkReader IN_FIELD (String c "") done) true U.
Proof.
  intros Hst Hc Hccr done b U.
  destruct (plain_char c Hc Hccr) as (Hd & Hqu & Hlf & Hn).
  cbn [feed]. unfold parse_process_char, start_field. cbn [state].
  destruct Hst as [-> | ->]; rewrite Hn, Hqu, Hd, Hlf, Hccr; reflexivity.
Qed.

(** The body of a quoted field, up to the closing quote. *)
Lemma feed_quoted (g : string) :
  cr_free g = true ->
  forall acc done b U,
    feed (mkReader IN_QUOTED_FIELD acc done) b
         (doubled g ++ String QUOTECHAR U)%string
    = feed (mkReader QUOTE_IN_QUOTED_FIELD (acc ++ g)%string done) true U.
Proof.
  induction g as [|c g IH]; intros Hcr acc done b U.
  - rewrite append_nil_r. reflexivity.
  - apply cr_free_cons in Hcr. destruct Hcr as [Hccr Hgcr].
    cbn [doubled]. destruct (Ascii.eqb c QUOTECHAR) eqn:Hqu.
    + apply Ascii.eqb_eq in Hqu. subst c.
      cbn [append feed]. unfold parse_process_char. cbn [state].
      change (Ascii.eqb QUOTECHAR QUOTECHAR) with true. cbv iota.
      change (Ascii.eqb QUOTECHAR LF) with false.
      change (Ascii.eqb QUOTECHAR CR) with false. cbv iota.
      cbn [set_state state field_ fields feed].
      unfold parse_process_char. cbn [state].
      change (Ascii.eqb QUOTECHAR QUOTECHAR) with true. cbv iota.
      change (Ascii.eqb QUOTECHAR LF) with false.
      change (Ascii.eqb QUOTECHAR CR) with false. cbv iota.
      unfold set_state, parse_add_char. cbn [state field_ fields].
      rewrite (IH Hgcr), append_assoc. reflexivity.
    + cbn [append feed]. unfold parse_process_char. cbn [state].
      rewrite Hqu, Hccr. unfold parse_add_char. cbn [state field_ fields].
      destruct (Ascii.eqb c LF) eqn:Hlf.
      * unfold after_line, parse_process_char. cbn [state is_start_record].
        rewrite (IH Hgcr), append_assoc. reflexivity.
      * rewrite (IH Hgcr), append_assoc. reflexivity.
Qed.

Definition field_done (st : ParserState) : Prop :=
  st = START_FIELD \/ st = IN_FIELD \/ st = QUOTE_IN_QUOTED_FIELD.

(** A delimiter ends the field. *)
Lemma feed_delimiter (st : ParserState) (acc : string) (done : list string)
    (b : bool) (U : string) :
  st = START_RECORD \/ field_done st ->
  feed (mkReader st acc done) b (String DELIMITER U)
  = feed (mkReader START_FIELD "" (done ++ [acc])) true U.
Proof.
  intros Hst. cbn [feed]. unfold parse_process_char, start_field.
  cbn [state].
  destruct Hst as [-> | [-> | [-> | ->]]]; reflexivity.
Qed.

(** The line terminator ends the record. *)
Lemma feed_lineterminator (st : ParserState) (acc : string)
    (done : list string) (b : bool) (T : string) :
  field_done st ->
  feed (mkReader st acc done) b (lt ++ T)%string
  = option_map (cons (done ++ [acc])) (feed parse_reset false T).
Proof.
  intros Hst. subst lt.
  destruct os; cbn [linesep append feed];
    unfold parse_process_char, start_field; cbn [state];
    destruct Hst as [-> | [-> | ->]]; reflexivity.
Qed.

(** An empty record. *)
Lemma feed_empty_record (b : bool) (T : string) :
  feed parse_reset b (lt ++ T)%string
  = option_map (cons []) (feed parse_reset false T).
Proof. subst lt. destruct os; reflexivity. Qed.

(** A field as written, read from the start of a field: the parser
    holds it, ready for the delimiter or the end of the line. *)
Lemma feed_field (st : ParserState) (sole : bool) (f : string) :
  st = START_RECORD \/ st = START_FIELD ->
  cr_free f = true ->
  forall done b U,
  exists st' b',
    (st' = QUOTE_IN_QUOTED_FIELD \/ st' = IN_FIELD \/
     (st' = st /\ sole = false)) /\
    feed (mkReader st "" done) b (join_append lt sole f ++ U)%string
    = feed (mkReader st' f done) b' U.
Proof.
  intros Hst Hcr done b U. unfold join_append.
  destruct (needs_quoting lt f || sole && str_is_empty f) eqn:Hq.
  - exists QUOTE_IN_QUOTED_FIELD, true. split; [now left|].
    cbn [append]. rewrite append_assoc. cbn [append].
    assert (E : forall V,
               feed (mkReader st "" done) b (String QUOTECHAR V)
               = feed (mkReader IN_QUOTED_FIELD "" done) true V).
    { intros V. cbn [feed]. unfold parse_process_char, start_field.
      cbn [state]. destruct Hst as [-> | ->]; reflexivity. }
    rewrite E. now rewrite feed_quoted.
  - apply orb_false_iff in Hq. destruct Hq as [Hnq Hsole].
    destruct f as [|c f].
    + exists st, b. split; [|reflexivity]. right. right.
      split; [reflexivity|]. now rewrite andb_true_r in Hsole.
    + cbn [needs_quoting] in Hnq. apply orb_false_iff in Hnq.
      destruct Hnq as [Hc Hf]. apply cr_free_cons in Hcr.
      destruct Hcr as [Hccr Hfcr].
      destruct (feed_unquoted f Hf Hfcr (String c "") done true U) as [b' E].
      exists IN_FIELD, b'. split; [right; now left|].
      cbn [append]. rewrite (feed_unquoted_start st c Hst Hc Hccr).
      exact E.
Qed.

Lemma concat_cons2 (sep x y : string) (l : list string) :
  String.concat sep (x :: y :: l)
  = (x ++ sep ++ String.concat sep (y :: l))%string.
Proof. reflexivity. Qed.

(** The fields of a record after its first, up to the end of the
    line. *)
Lemma feed_fields (fs : list string) :
  fs <> [] -> Forall (fun f => cr_free f = true) fs ->
  forall done b T,
    feed (mkReader START_FIELD "" done) b
         (String.concat (String DELIMITER "") (map (join_append lt false) fs)
          ++ lt ++ T)%string
    = option_map (cons (done ++ fs)) (feed parse_reset false T).
Proof.
  induction fs as [|f fs IH]; intros Hne Hall done b T; [contradiction|].
  inversion Hall as [|? ? Hf Hfs]; subst.
  destruct fs as [|f2 fs].
  - cbn [map String.concat].
    destruct (feed_field START_FIELD false f (or_intror eq_refl) Hf done b
                (lt ++ T)%string) as (st' & b' & Hst' & E).
    rewrite E. apply feed_lineterminator.
    destruct Hst' as [-> | [-> | [-> _]]];
      [right; now right | right; now left | now left].
  - cbn [map]. rewrite concat_cons2, !append_assoc.
    destruct (feed_field START_FIELD false f (or_intror eq_refl) Hf done b
                (String DELIMITER "" ++
                 String.concat (String DELIMITER "")
                   (join_append lt false f2 :: map (join_append lt false) fs)
                 ++ lt ++ T)%string) as (st' & b' & Hst' & E).
    rewrite E. cbn [append]. rewrite feed_delimiter.
    + change (join_append lt false f2 :: map (join_append lt false) fs)
        with (map (join_append lt false) (f2 :: fs)).
      rewrite IH; [|discriminate | exact Hfs].
      now rewrite <- app_assoc.
    + right.
      destruct Hst' as [-> | [-> | [-> _]]];
        [right; now right | right; now left | now left].
Qed.

(** A record as written, read from the start of a record. *)
Lemma feed_row (row : list string) (b : bool) (T : string) :
  Forall (fun f => cr_free f = true) row ->
  feed parse_reset b (writerow lt row ++ T)%string
  = option_map (cons row) (feed parse_reset false T).
Proof.
  intros Hall. unfold writerow. rewrite append_assoc.
  destruct row as [|f [|f2 fs]].
  - apply feed_empty_record.
  - inversion Hall as [|? ? Hf _]; subst. cbn [map String.concat].
    destruct (feed_field START_RECORD true f (or_introl eq_refl) Hf [] b
                (lt ++ T)%string) as (st' & b' & Hst' & E).
    unfold parse_reset. rewrite E.
    rewrite feed_lineterminator; [reflexivity|].
    destruct Hst' as [-> | [-> | [_ Hs]]];
      [right; now right | right; now left | discriminate].
  - inversion Hall as [|? ? Hf Hfs]; subst. cbn [map].
    rewrite concat_cons2, !append_assoc.
    destruct (feed_field START_RECORD false f (or_introl eq_refl) Hf [] b
                (String DELIMITER "" ++
                 String.concat (String DELIMITER "")
                   (join_append lt false f2 :: map (join_append lt false) fs)
                 ++ lt ++ T)%string) as (st' & b' & Hst' & E).
    unfold parse_reset. rewrite E. cbn [append]. rewrite feed_delimiter.
    + change (join_append lt false f2 :: map (join_append lt false) fs)
        with (map (join_append lt false) (f2 :: fs)).
      rewrite feed_fields; [reflexivity | discriminate | exact Hfs].
    + destruct Hst' as [-> | [-> | [-> _]]];
        [right; right; now right | right; right; now left | now left].
Qed.

(** Reading back the records the writer wrote gives those records. *)
Lemma csv_reader_writerows (rows : list (list string)) :
  Forall (Forall (fun f => cr_free f = true)) rows ->
  csv_reader (writerows lt rows) = Some rows.
Proof.
  intros Hall. rewrite csv_reader_feed. unfold writerows.
  induction Hall as [|row rows Hrow _ IH]; [reflexivity|].
  cbn [map fold_right]. rewrite feed_row by exact Hrow.
  now rewrite IH.
Qed.

End RoundTrip.

End CsvFacts.

Module StorageFacts.

Lemma nth_error_store_row (ds : list dtype) (row : list cell) (j : nat)
    (d : dtype) (c : cell) :
  nth_error ds j = Some d -> nth_error row j = Some c ->
  nth_error (store_row ds row) j = Some (store d c).
Proof.
  revert row j. induction ds as [|d0 ds IH]; intros row j Hd Hc.
  - now destruct j.
  - destruct row as [|c0 row]; [now destruct j|].
    destruct j as [|j]; cbn in *.
    + now injection Hd as ->; injection Hc as ->.
    + now apply IH.
Qed.

Lemma length_store_row (ds : list dtype) (row : list cell) :
  List.length ds = List.length row ->
  List.length (store_row ds row) = List.length row.
Proof.
  revert row. induction ds as [|d ds IH]; intros [|c row] H;
    try discriminate; [reflexivity|].
  cbn. f_equal. apply IH. now injection H.
Qed.

Lemma nth_error_dtypes (df : DataFrame) (j : nat) :
  (j < List.length (columns df))%nat ->
  nth_error (dtypes df) j = Some (infer (column df j)).
Proof.
  intros Hj. unfold dtypes.
  rewrite (map_nth_error (fun j => infer (column df j)) j
             (seq 0 (List.length (columns df))) (d := j)); [reflexivity|].
  rewrite nth_error_nth' with (d := O) by now rewrite length_seq.
  now rewrite seq_nth.
Qed.

Lemma length_dtypes (df : DataFrame) :
  List.length (dtypes df) = List.length (columns df).
Proof. unfold dtypes. now rewrite length_map, length_seq. Qed.

(** The cell of the [i]-th row is in its column. *)
Lemma in_column (df : DataFrame) (i j : nat) (row : list cell) (c : cell) :
  nth_error (values df) i = Some row -> nth_error row j = Some c ->
  In c (column df j).
Proof.
  intros Hi Hj. unfold column. apply in_map_iff. exists row. split.
  - now apply nth_error_nth.
  - eapply nth_error_In; exact Hi.
Qed.

Lemma stored_Some (df : DataFrame) :
  ints_fit df = true ->
  stored df = Some (mkDataFrame (columns df)
                      (map (store_row (dtypes df)) (values df))).
Proof. intros H. unfold stored. now rewrite H. Qed.

Lemma stored_inv (df table : DataFrame) :
  stored df = Some table ->
  ints_fit df = true /\
  table = mkDataFrame (columns df) (map (store_row (dtypes df)) (values df)).
Proof.
  unfold stored. destruct (ints_fit df); [|discriminate].
  intros [= <-]. now split.
Qed.

(** A float64 column holds numbers, nulls and missing cells only. *)
Lemma float64_column (col : list cell) (c : cell) :
  infer col = dtype_float64 -> In c col ->
  is_object c = false /\ is_bool c = false.
Proof.
  unfold infer. intros H Hin.
  destruct (existsb is_object col) eqn:Ho; [discriminate|].
  destruct (existsb is_bool col) eqn:Hb.
  - destruct (_ || _); discriminate.
  - split.
    + destruct (is_object c) eqn:E; [|reflexivity].
      assert (existsb is_object col = true)
        by (apply existsb_exists; now exists c).
      congruence.
    + destruct (is_bool c) eqn:E; [|reflexivity].
      assert (existsb is_bool col = true)
        by (apply existsb_exists; now exists c).
      congruence.
Qed.

(** A column is stored as float64 exactly when it holds no string, list
    or boolean, and holds a float, a missing cell, or a null next to an
    integer. *)
Lemma infer_float64_iff (col : list cell) :
  infer col = dtype_float64 <->
  existsb is_object col = false /\ existsb is_bool col = false /\
  (existsb is_float col = true \/ existsb is_nan col = true \/
   (existsb is_null col = true /\ existsb is_int col = true)).
Proof.
  unfold infer.
  destruct (existsb is_object col), (existsb is_bool col),
    (existsb is_null col), (existsb is_nan col), (existsb is_float col),
    (existsb is_int col); cbn; split; intros H;
    solve [discriminate | reflexivity | intuition discriminate
          | intuition congruence].
Qed.

(** Outside a float64 column, a value that is not NaN is kept. *)
Lemma store_kept (d : dtype) (v : json) :
  d <> dtype_float64 -> is_nan (Some v) = false ->
  store d (Some v) = Some v.
Proof.
  intros Hd Hn. destruct v; cbn in *; try reflexivity.
  - now destruct d.
  - now destruct d.
  - now rewrite Hn.
Qed.

End StorageFacts.

Module ProjectionClaims.
Import TransformFacts FlattenFacts StorageFacts.


(** An object under the empty name is flattened into keys without
    prefix, which take the place of the record's own: the row shows the
    inner title. *)
Lemma empty_name_shadows_field :
  field Samples.shadowed_title "title" = Some (JStr "outer") /\
  Dict.get "title" (flat Samples.shadowed_title) = Some (JStr "inner").
Proof. split; reflexivity. Qed.

(** The values of a record that holds all eight, one by one. *)
Lemma holds_fields (r : record) (vs : list json) :
  holds r vs ->
  exists v1 v2 v3 v4 v5 v6 v7 v8 user,
    vs = [v1; v2; v3; v4; v5; v6; v7; v8] /\
    Dict.get "id" r = Some v1 /\ Dict.get "title" r = Some v2 /\
    Dict.get "published_at" r = Some v3 /\ Dict.get "url" r = Some v4 /\
    Dict.get "comments_count" r = Some v5 /\
    Dict.get "positive_reactions_count" r = Some v6 /\
    Dict.get "tag_list" r = Some v7 /\
    Dict.get "user" r = Some (JObj user) /\
    Dict.get "username" user = Some v8.
Proof.
  unfold holds. intros H.
  destruct vs as [|v1 [|v2 [|v3 [|v4 [|v5 [|v6 [|v7 [|v8 [|v9 vs]]]]]]]]];
    try discriminate H.
  cbn [map COLUMNS] in H.
  injection H as H1 H2 H3 H4 H5 H6 H7 H8.
  unfold field in H8. cbn [String.eqb] in H8.
  change (String.eqb "user.username" "user.username") with true in H8.
  cbv iota in H8.
  destruct (Dict.get "user" r) as [[| | | | | |user]|] eqn:Hu;
    try discriminate H8.
  exists v1, v2, v3, v4, v5, v6, v7, v8, user. repeat split; assumption.
Qed.

(** Before storage: a record that holds all eight fields, none of them
    an object, gives the row of those eight values in column order,
    [user.username] taken from the object under [user], and the frame
    is built whatever the other records are. *)
Lemma complete_record_row (raw_articles : list page) (i : nat)
    (r : record) (vs : list json) :
  nth_error (List.concat raw_articles) i = Some r ->
  unique_keys r ->
  (forall user, Dict.get "user" r = Some (JObj user) -> unique_keys user) ->
  ~ In "" (Dict.keys r) ->
  holds r vs -> plain vs ->
  project r = map Some vs /\
  exists df,
    to_dataframe_fn raw_articles = Ok df /\
    columns df = COLUMNS /\
    nth_error (values df) i = Some (map Some vs).
Proof.
  intros Hi Hnd Huser He Hholds Hplain.
  destruct (holds_fields r vs Hholds)
    as (v1 & v2 & v3 & v4 & v5 & v6 & v7 & v8 & user & -> &
        H1 & H2 & H3 & H4 & H5 & H6 & H7 & Hu & H8).
  unfold plain in Hplain.
  repeat match goal with
         | H : Forall _ (_ :: _) |- _ => inversion H; clear H; subst
         end.
  assert (Hrow : project r = map Some [v1; v2; v3; v4; v5; v6; v7; v8]).
  { unfold project. cbn [map COLUMNS].
    rewrite (flat_get_top r "id" v1), (flat_get_top r "title" v2),
      (flat_get_top r "published_at" v3), (flat_get_top r "url" v4),
      (flat_get_top r "comments_count" v5),
      (flat_get_top r "positive_reactions_count" v6),
      (flat_get_top r "tag_list" v7),
      (flat_get_user r user v8);
      solve [reflexivity | assumption | exact Hnd | exact (Huser _ Hu)]. }
  split; [exact Hrow|].
  exists (mkDataFrame COLUMNS (map project (List.concat raw_articles))).
  split; [|split; [reflexivity|]].
  - rewrite to_dataframe_fn_eq, absent_columns_nil; [reflexivity|].
    intros c Hc. exists r. split; [eapply nth_error_In; exact Hi|].
    assert (Hin : In (Dict.get c (flat r)) (project r)).
    { unfold project.
      exact (in_map (fun c' => Dict.get c' (flat r)) COLUMNS c Hc). }
    rewrite Hrow in Hin. unfold Dict.mem.
    destruct (Dict.get c (flat r)); [reflexivity|].
    simpl in Hin. repeat (destruct Hin as [Hin|Hin]; [discriminate|]).
    contradiction.
  - cbn [values]. rewrite <- Hrow. now apply map_nth_error.
Qed.




End ProjectionClaims.

(** ** The row of any record, read off the raw record *)

Module RowFacts.
Import Dict DictFacts TransformFacts FlattenFacts.

#[local] Arguments Ascii.ascii_dec : simpl never.

(** Lookup after a filter, in a dict. *)
Lemma get_filter {V} (f : string * V -> bool) (k : string) (d : pydict V) :
  NoDup (keys d) ->
  get k (filter f d) =
  match get k d with
  | Some v => if f (k, v) then Some v else None
  | None => None
  end.
Proof.
  induction d as [|[k' v'] d IH]; intros Hnd; [reflexivity|].
  inversion Hnd as [|? ? Hk Hd]; subst. cbn [filter get].
  destruct (String.eqb_spec k k') as [->|Hne].
  - destruct (f (k', v')) eqn:Hf.
    + cbn [get]. now rewrite String.eqb_refl.
    + apply get_None_iff. intros Hin. apply keys_filter_incl in Hin.
      contradiction.
  - destruct (f (k', v')); [|now apply IH].
    cbn [get]. destruct (String.eqb_spec k k'); [contradiction | now apply IH].
Qed.

(** [{**a, **b}] under any key. *)
Lemma get_merge {V} (c : string) (a b : pydict V) :
  NoDup (keys b) ->
  get c (merge a b) =
  match get c b with Some v => Some v | None => get c a end.
Proof.
  intros Hnd. destruct (get c b) as [v|] eqn:E.
  - now apply get_merge_some.
  - now apply get_merge_none.
Qed.

(** A string does not begin with itself followed by more. *)
Lemma prefix_longer (t rest : string) :
  String.prefix (t ++ "." ++ rest) t = false.
Proof.
  induction t as [|x t IH]; [reflexivity|].
  cbn [append]. rewrite prefix_same_head. exact IH.
Qed.

(** An object stores nothing under its own key. *)
Lemma get_normalise_self (ks : string) (ms : list (string * json))
    (acc : pydict json) :
  ks <> "" -> get ks (_normalise_json (JObj ms) ks acc ".") = get ks acc.
Proof.
  intros Hne. rewrite normalise_obj. revert acc.
  induction ms as [|[k v] ms IH]; intros acc; [reflexivity|].
  cbn [fold_left fst snd]. rewrite IH. rewrite new_key_below by exact Hne.
  apply get_normalise_off_prefix; [now apply append_nonempty|].
  apply prefix_longer.
Qed.

(** What the object under [user] stores under [user.username]. *)
Lemma user_fold_closed (u : list (string * json)) (acc : pydict json) :
  NoDup (keys u) ->
  get "user.username" (_normalise_json (JObj u) "user" acc ".") =
  match plain_value (get "username" u) with
  | Some v => Some v
  | None => get "user.username" acc
  end.
Proof.
  intros Hnd. revert acc.
  induction u as [|[k2 v2] u IH]; intros acc; [reflexivity|].
  inversion Hnd as [|? ? Hk Hu]; subst.
  rewrite normalise_obj. cbn [fold_left fst snd]. rewrite <- normalise_obj.
  cbn [get]. destruct (String.eqb_spec "username" k2) as [<-|Hne].
  - rewrite user_fold_none by exact Hk.
    change (new_key "user" "." "username") with "user.username".
    cbn [plain_value]. destruct (is_dict v2) eqn:Hv.
    + destruct v2; try discriminate. now apply get_normalise_self.
    + rewrite normalise_leaf by exact Hv. apply get_set_same.
  - rewrite (IH Hu). destruct (plain_value (get "username" u));
      [reflexivity|].
    apply user_member_other. congruence.
Qed.

Lemma nested_username_cons (k : string) (x : json)
    (ms : list (string * json)) :
  nested_username ((k, x) :: ms) =
  if String.eqb "user" k
  then match x with
       | JObj u => plain_value (get "username" u)
       | _ => None
       end
  else nested_username ms.
Proof.
  unfold nested_username. cbn [get]. now destruct (String.eqb "user" k).
Qed.

(** What the objects of a record store under [user.username]. *)
Lemma top_fold_closed (ms : list (string * json)) (acc : pydict json) :
  dict_valued ms -> ~ In "" (keys ms) -> NoDup (keys ms) ->
  (forall u, get "user" ms = Some (JObj u) -> NoDup (keys u)) ->
  get "user.username" (_normalise_json (JObj ms) "" acc ".") =
  match nested_username ms with
  | Some v => Some v
  | None => get "user.username" acc
  end.
Proof.
  intros Hd. revert acc.
  induction Hd as [|[k x] ms Hx Hd IH]; intros acc He Hnd Hu; [reflexivity|].
  inversion Hnd as [|? ? Hk Hms]; subst. simpl in He.
  rewrite normalise_obj. cbn [fold_left fst snd]. rewrite <- normalise_obj.
  rewrite nested_username_cons.
  destruct (String.eqb_spec "user" k) as [<-|Hne].
  - rewrite top_fold_none by tauto. rewrite new_key_top.
    cbn [snd] in Hx. destruct x; try discriminate.
    apply user_fold_closed. apply Hu. cbn [get].
    now rewrite String.eqb_refl.
  - rewrite IH; [| tauto | exact Hms |].
    + destruct (nested_username ms); [reflexivity|].
      apply top_member_other; [exact Hx | | congruence].
      intros ->. tauto.
    + intros u Hm. apply Hu. cbn [get].
      destruct (String.eqb_spec "user" k); [contradiction | exact Hm].
Qed.

Lemma nested_username_filter (r : record) :
  NoDup (keys r) ->
  nested_username (filter (fun kv => is_dict (snd kv)) r) = nested_username r.
Proof.
  intros Hnd. unfold nested_username. rewrite get_filter by exact Hnd.
  cbn [snd]. destruct (get "user" r) as [[| | | | | |u]|]; reflexivity.
Qed.

(** A kept column without dot, in the flattened record. *)
Lemma flat_get_dotless (r : record) (c : string) :
  NoDup (keys r) -> ~ In "" (keys r) -> contains_dot c = false ->
  get c (flat r) = plain_value (get c r).
Proof.
  intros Hnd He Hc. unfold flat, _normalise_json_ordered.
  rewrite !of_items_unique by now apply unique_filter.
  rewrite get_merge_none.
  - rewrite get_filter by exact Hnd. unfold plain_value. cbn [snd].
    destruct (get c r) as [v|]; [|reflexivity]. now destruct (is_dict v).
  - rewrite top_fold_dotless; [reflexivity | exact Hc | apply dict_valued_filter|].
    intros H. apply keys_filter_incl in H. contradiction.
Qed.

(** The column [user.username], in the flattened record. *)
Lemma flat_get_username (r : record) :
  well_keyed r -> get "user.username" (flat r) = row_cell r "user.username".
Proof.
  intros (Hnd & He & Hu). unfold flat, _normalise_json_ordered.
  rewrite !of_items_unique by now apply unique_filter.
  rewrite get_merge by (apply unique_normalise; constructor).
  rewrite top_fold_closed.
  - rewrite nested_username_filter by exact Hnd.
    unfold row_cell.
    change (String.eqb "user.username" "user.username") with true.
    cbv iota.
    destruct (nested_username r); [reflexivity|].
    cbn [get]. rewrite get_filter by exact Hnd. unfold plain_value. cbn [snd].
    destruct (get "user.username" r) as [v|]; [|reflexivity].
    now destruct (is_dict v).
  - apply dict_valued_filter.
  - intros H. apply keys_filter_incl in H. contradiction.
  - now apply unique_filter.
  - intros u Hget. rewrite get_filter in Hget by exact Hnd.
    destruct (get "user" r) as [v|] eqn:E; [|discriminate].
    cbn [snd] in Hget. destruct (is_dict v); [|discriminate].
    injection Hget as ->. now apply Hu.
Qed.

(** The whole row. *)
Lemma project_closed (r : record) :
  well_keyed r -> project r = map (row_cell r) COLUMNS.
Proof.
  intros Hwk. pose proof Hwk as (Hnd & He & _).
  unfold project. cbn [map COLUMNS].
  rewrite (flat_get_username r Hwk).
  rewrite !flat_get_dotless by solve [assumption | reflexivity].
  reflexivity.
Qed.

End RowFacts.

(** ** More on [to_dataframe] *)

Module TransformMore.
Import Dict DictFacts TransformFacts RowFacts.

Lemma absent_columns_nil_inv (records : list record) :
  absent_columns records = [] ->
  forall c, In c COLUMNS ->
            exists r, In r records /\ Dict.mem c (flat r) = true.
Proof.
  intros H c Hc. unfold absent_columns in H.
  pose proof (filter_nil_all _ _ H c Hc) as Hf.
  apply negb_false_iff in Hf. apply existsb_exists in Hf. exact Hf.
Qed.

Lemma absent_columns_spec (records : list record) (c : string) :
  In c (absent_columns records) <->
  In c COLUMNS /\ forall r, In r records -> Dict.mem c (flat r) = false.
Proof.
  unfold absent_columns. rewrite filter_In, negb_true_iff. split.
  - intros [Hc Hex]. split; [exact Hc|]. intros r Hr.
    destruct (Dict.mem c (flat r)) eqn:E; [|reflexivity].
    assert (Ht : existsb (fun r => Dict.mem c (flat r)) records = true).
    { apply existsb_exists. now exists r. }
    congruence.
  - intros [Hc Hall]. split; [exact Hc|].
    destruct (existsb _ records) eqn:E; [|reflexivity].
    apply existsb_exists in E. destruct E as [r [Hr Hm]].
    rewrite (Hall r Hr) in Hm. discriminate.
Qed.

Lemma map_eq_pointwise {A B} (f g : A -> B) (l : list A) :
  map f l = map g l -> forall a, In a l -> f a = g a.
Proof.
  induction l as [|x l IH]; simpl; intros H a Ha; [contradiction|].
  injection H as Hx Hl. destruct Ha as [<-|Ha]; [exact Hx | now apply IH].
Qed.

Lemma flat_get_column (r : record) (c : string) :
  well_keyed r -> In c COLUMNS -> Dict.get c (flat r) = row_cell r c.
Proof.
  intros Hwk Hc. pose proof (project_closed r Hwk) as H. unfold project in H.
  exact (map_eq_pointwise _ _ _ H c Hc).
Qed.

(** X3. The row of a record, as pandas holds it in the table, is read
    off the raw record column by column: under the seven plain columns
    the member of that name, no value when there is none or when it is
    an object; under [user.username] the [username] of the object
    under [user], else a member literally named [user.username]; each
    cell stored with the dtype of its column (an integer as a double
    and a null as the missing marker in a float64 column).  The record
    is a dict (no key twice, in it and in its user object) without a
    member of empty name. *)
Theorem row_read_off_record (raw_articles : list page) (i : nat)
    (r : record) (df table : DataFrame) :
  to_dataframe_fn raw_articles = Ok df ->
  stored df = Some table ->
  nth_error (List.concat raw_articles) i = Some r ->
  well_keyed r ->
  nth_error (values table) i
  = Some (store_row (dtypes df) (map (row_cell r) COLUMNS)).
Proof.
  intros Hdf Ht Hi Hwk. apply StorageFacts.stored_inv in Ht.
  destruct Ht as [_ ->]. cbn [values].
  apply to_dataframe_fn_ok in Hdf.
  rewrite <- (project_closed r Hwk).
  apply map_nth_error. rewrite Hdf. cbn [values]. now apply map_nth_error.
Qed.

(** A complete article next to an odd one: an object for title, no
    publication date, a null url, an object for username and a spare
    member named [user.username].  The counts of the complete article
    are held as floats, next to the missing counts of the odd one. *)
Lemma row_read_off_record_witness :
  exists df table,
    to_dataframe_fn [[Samples.article 11 "a" "u1"]; [MoreSamples.odd]] = Ok df /\
    stored df = Some table /\
    values table
    = [[Some (JInt 11); Some (JStr "a"); Some (JStr "2024-01-01T00:00:00Z");
        Some (JStr "https://dev.to/a");
        Some (JFloat 0%float); Some (JFloat 7%float);
        Some (JArr [JStr "python"; JStr "etl"]); Some (JStr "u1")];
       [Some (JInt 5); None; None; Some JNull; None; None; None;
        Some (JStr "spare")]] /\
    nth_error (values table) 1
    = Some (store_row (dtypes df) (map (row_cell MoreSamples.odd) COLUMNS)).
Proof.
  eexists. eexists. split; [reflexivity|].
  split; [vm_compute; reflexivity|].
  split; [vm_compute; reflexivity|].
  apply (row_read_off_record
           [[Samples.article 11 "a" "u1"]; [MoreSamples.odd]] 1
           MoreSamples.odd).
  - reflexivity.
  - vm_compute. reflexivity.
  - reflexivity.
  - split; [|split].
    + simpl. repeat (constructor; [simpl; intuition discriminate|]).
      constructor.
    + simpl. intuition discriminate.
    + intros user [= <-]. simpl.
      repeat (constructor; [simpl; intuition discriminate|]). constructor.
Defined.

(** X4. For records that are dicts without a member of empty name, the
    table is built exactly when every kept column has a value in at
    least one raw record; otherwise the error names the columns that
    have a value in none. *)
Theorem to_dataframe_succeeds_iff (raw_articles : list page) :
  Forall well_keyed (List.concat raw_articles) ->
  ((exists df, to_dataframe_fn raw_articles = Ok df) <->
   (forall c, In c COLUMNS ->
              exists r, In r (List.concat raw_articles) /\
                        row_cell r c <> None)) /\
  (forall missing c,
      to_dataframe_fn raw_articles = Raise (MissingFieldError missing) ->
      (In c missing <->
       In c COLUMNS /\
       forall r, In r (List.concat raw_articles) -> row_cell r c = None)).
Proof.
  intros Hwk. rewrite Forall_forall in Hwk.
  assert (Hmem : forall r c,
             In r (List.concat raw_articles) -> In c COLUMNS ->
             (Dict.mem c (flat r) = true <-> row_cell r c <> None) /\
             (Dict.mem c (flat r) = false <-> row_cell r c = None)).
  { intros r c Hr Hc. unfold Dict.mem.
    rewrite (flat_get_column r c (Hwk r Hr) Hc).
    destruct (row_cell r c); split; split; congruence. }
  split; [split|].
  - intros [df Hdf] c Hc. rewrite to_dataframe_fn_eq in Hdf.
    destruct (absent_columns (List.concat raw_articles)) eqn:E;
      [|discriminate].
    destruct (absent_columns_nil_inv _ E c Hc) as [r [Hr Hm]].
    exists r. split; [exact Hr|]. now apply (Hmem r c Hr Hc).
  - intros Hall. eexists. rewrite to_dataframe_fn_eq.
    rewrite absent_columns_nil; [reflexivity|].
    intros c Hc. destruct (Hall c Hc) as [r [Hr Hcell]].
    exists r. split; [exact Hr|]. now apply (Hmem r c Hr Hc).
  - intros missing c Hraise. rewrite to_dataframe_fn_eq in Hraise.
    destruct (absent_columns (List.concat raw_articles)) eqn:E;
      [discriminate|].
    injection Hraise as <-. rewrite <- E, absent_columns_spec. split.
    + intros [Hc Hall]. split; [exact Hc|]. intros r Hr.
      now apply (Hmem r c Hr Hc), Hall.
    + intros [Hc Hall]. split; [exact Hc|]. intros r Hr.
      now apply (Hmem r c Hr Hc), Hall.
Qed.

(** The odd article alone: five columns have no value. *)
Lemma to_dataframe_succeeds_iff_witness :
  Forall well_keyed (List.concat [[MoreSamples.odd]]) /\
  to_dataframe_fn [[MoreSamples.odd]]
  = Raise (MissingFieldError
             ["title"; "published_at"; "comments_count";
              "positive_reactions_count"; "tag_list"]) /\
  (In "title"
      ["title"; "published_at"; "comments_count";
       "positive_reactions_count"; "tag_list"] <->
   In "title" COLUMNS /\
   forall r, In r (List.concat [[MoreSamples.odd]]) -> row_cell r "title" = None).
Proof.
  assert (Hwk : Forall well_keyed (List.concat [[MoreSamples.odd]])).
  { constructor; [|constructor]. split; [|split].
    - simpl. repeat (constructor; [simpl; intuition discriminate|]).
      constructor.
    - simpl. intuition discriminate.
    - intros user [= <-]. simpl.
      repeat (constructor; [simpl; intuition discriminate|]). constructor. }
  split; [exact Hwk|]. split; [reflexivity|].
  apply (proj2 (to_dataframe_succeeds_iff [[MoreSamples.odd]] Hwk)).
  reflexivity.
Defined.

Lemma NoDup_filter_list {A} (f : A -> bool) (l : list A) :
  NoDup l -> NoDup (filter f l).
Proof.
  induction 1 as [|x l Hx Hl IH]; simpl; [constructor|].
  destruct (f x); [|exact IH]. constructor; [|exact IH].
  intros Hin. apply filter_In in Hin. tauto.
Qed.

Lemma COLUMNS_NoDup : NoDup COLUMNS.
Proof.
  unfold COLUMNS.
  repeat (constructor; [simpl; intuition discriminate|]). constructor.
Qed.

(** X5. [to_dataframe] ends in one of two ways.  Either it returns a
    table with exactly the eight kept columns, one row per record and
    eight cells in every row; or it raises [MissingFieldError] with
    the kept columns found in no flattened record: at least one, none
    twice, in column order.  It raises nothing else. *)
Theorem to_dataframe_outcome (raw_articles : list page) :
  (exists df,
      to_dataframe_fn raw_articles = Ok df /\
      columns df = COLUMNS /\
      len df = List.length (List.concat raw_articles) /\
      Forall (fun row => List.length row = 8%nat) (values df)) \/
  (exists missing,
      to_dataframe_fn raw_articles = Raise (MissingFieldError missing) /\
      missing <> [] /\ NoDup missing /\
      (exists keep, missing = filter keep COLUMNS) /\
      forall c,
        In c missing <->
        In c COLUMNS /\
        forall r, In r (List.concat raw_articles) ->
                  Dict.mem c (flat r) = false).
Proof.
  rewrite to_dataframe_fn_eq.
  destruct (absent_columns (List.concat raw_articles)) as [|m ms] eqn:E.
  - left. eexists. split; [reflexivity|]. split; [reflexivity|].
    unfold len. cbn [values]. split; [apply length_map|].
    apply Forall_forall. intros row Hrow. apply in_map_iff in Hrow.
    destruct Hrow as [r [<- _]]. unfold project. now rewrite length_map.
  - right. exists (m :: ms). split; [reflexivity|].
    split; [discriminate|]. rewrite <- E. split.
    + apply NoDup_filter_list, COLUMNS_NoDup.
    + split; [eexists; reflexivity|]. apply absent_columns_spec.
Qed.

End TransformMore.

(** ** More on [fetch_page] *)

Module FetchMore.
Import TaskFacts FetchFacts.

Lemma is_success_iff (r : response) :
  is_success r = true <-> 200 <= status_code r <= 299.
Proof.
  unfold is_success. rewrite andb_true_iff, !Z.leb_le. tauto.
Qed.

Lemma attempt_result_fetch_errors (o : http_outcome) :
  (forall m, attempt_result o <> Raise (MissingFieldError m)) /\
  attempt_result o <> Raise IoError.
Proof.
  unfold attempt_result. destruct o as [|r]; [split; [intros m|]; discriminate|].
  destruct (is_success r); [destruct (body r)|]; split; try intros m;
    discriminate.
Qed.

(** X1. One execution of the body of [fetch_page] is decided by the
    answer to its GET, the status first and the body only after it:
    a page exactly for a 2xx response with a decodable body,
    [DecodeError] exactly for a 2xx response with an undecodable one,
    [HttpError] with the status exactly for a status outside 2xx
    (whatever the body), [NetworkError] exactly when no response came;
    nothing else. *)
Theorem fetch_page_fn_classified (page : Z) (api_base : string)
    (per_page : Z) (w : world) :
  let o := server w (List.length (sent w))
                  (request_of page api_base per_page) in
  let res := fst (fetch_page_fn page api_base per_page w) in
  (forall p,
      res = Ok p <->
      exists r, o = Got r /\ 200 <= status_code r <= 299 /\ body r = Some p) /\
  (res = Raise DecodeError <->
   exists r, o = Got r /\ 200 <= status_code r <= 299 /\ body r = None) /\
  (forall s,
      res = Raise (HttpError s) <->
      exists r, o = Got r /\ status_code r = s /\ ~ (200 <= s <= 299)) /\
  (res = Raise NetworkError <-> o = NoResponse) /\
  (forall m, res <> Raise (MissingFieldError m)) /\
  res <> Raise IoError.
Proof.
  cbv zeta. rewrite fetch_page_fn_run. cbn [fst]. unfold execution.
  rewrite Nat.add_0_r.
  destruct (attempt_result_fetch_errors
              (server w (List.length (sent w))
                      (request_of page api_base per_page))) as [Hm Hio].
  repeat split; try exact Hm; try exact Hio; unfold attempt_result in *;
    destruct (server w (List.length (sent w))
                     (request_of page api_base per_page)) as [|r];
    try destruct (is_success r) eqn:Hs; try destruct (body r) eqn:Hb;
    try (apply is_success_iff in Hs);
    try (assert (Hn : ~ (200 <= status_code r <= 299))
           by (intros Hin; apply is_success_iff in Hin; congruence));
    try discriminate;
    try (intros [r' [Hr' H']]; try discriminate Hr';
         injection Hr' as <-; destruct H' as [H1 H2]; congruence).
  all: try (intros [= <-]; exists r; auto).
  all: try (intros _; exists r; auto).
  all: try reflexivity.
Qed.

Lemma fetch_page_error_kinds (page : Z) (api_base : string)
    (per_page : Z) (w : world) :
  (forall m, fst (fetch_page page api_base per_page w)
             <> Raise (MissingFieldError m)) /\
  fst (fetch_page page api_base per_page w) <> Raise IoError.
Proof.
  rewrite fetch_page_run. cbv zeta. cbn [fst].
  apply attempt_result_fetch_errors.
Qed.

(** X2. A call of the task [fetch_page] is one task run that prints one
    [Fetching page] line per GET it sends, between one and four of
    each; it writes no file, and what it raises is a network, status
    or decoding failure. *)
Theorem fetch_page_logs_each_get (page : Z) (api_base : string)
    (per_page : Z) (w : world) :
  let run := fetch_page page api_base per_page w in
  exists k : nat,
    (1 <= k <= 4)%nat /\
    stdout (snd run) = stdout w ++ repeat (Fetching page) k /\
    sent (snd run)
    = sent w ++ repeat (request_of page api_base per_page) k /\
    runs (snd run) = runs w ++ [Run_fetch_page page api_base per_page] /\
    files (snd run) = files w /\
    (forall m, fst run <> Raise (MissingFieldError m)) /\
    fst run <> Raise IoError.
Proof.
  cbv zeta. rewrite fetch_page_run. cbv zeta.
  cbn [fst snd stdout sent runs files].
  pose proof (executions_pos 3
                (execution w (request_of page api_base per_page))) as Hk.
  eexists. split; [exact Hk|]. do 4 (split; [reflexivity|]).
  apply attempt_result_fetch_errors.
Qed.

End FetchMore.

(** ** More on [save_csv] *)

Module SaveMore.
Import Dict DictFacts TaskFacts.

Lemma set_set {V} (k : string) (v1 v2 : V) (d : pydict V) :
  set k v2 (set k v1 d) = set k v2 d.
Proof.
  induction d as [|[k' v'] d IH]; simpl.
  - now rewrite String.eqb_refl.
  - destruct (String.eqb k k') eqn:E; simpl.
    + now rewrite String.eqb_refl.
    + now rewrite E, IH.
Qed.

(** X7. When the path can be written, [save_csv] returns, and afterwards
    the file at the path holds the frame (its columns as header, its
    rows in order) in place of whatever was there; every other file is
    as before, and nothing is fetched or waited for. *)
Theorem save_csv_overwrites (df : DataFrame) (path : string) (w : world) :
  writable w path = true ->
  let run := save_csv df path w in
  fst run = Ok tt /\
  Dict.get path (files (snd run)) = Some (mkCsv (columns df) (values df)) /\
  (forall other, other <> path ->
                 Dict.get other (files (snd run)) = Dict.get other (files w)) /\
  sent (snd run) = sent w /\ slept (snd run) = slept w.
Proof.
  intros Hw. cbv zeta. rewrite save_csv_run, Hw. cbn [fst snd files sent slept].
  split; [reflexivity|]. split; [apply get_set_same|].
  split; [|split; reflexivity].
  intros other Hne. now apply get_set_other.
Qed.

(** A frame saved over an older file, next to another file. *)
Lemma save_csv_overwrites_witness :
  let w := MoreSamples.used Samples.empties in
  let df := mkDataFrame COLUMNS [project (Samples.article 11 "a" "u1")] in
  let run := save_csv df "out.csv" w in
  Dict.get "out.csv" (files w) = Some (mkCsv ["old"] [[None]]) /\
  fst run = Ok tt /\
  Dict.get "out.csv" (files (snd run))
  = Some (mkCsv COLUMNS [project (Samples.article 11 "a" "u1")]) /\
  Dict.get "notes.csv" (files (snd run)) = Some (mkCsv ["n"] []).
Proof.
  cbv zeta. split; [reflexivity|].
  destruct (save_csv_overwrites
              (mkDataFrame COLUMNS [project (Samples.article 11 "a" "u1")])
              "out.csv" (MoreSamples.used Samples.empties) eq_refl)
    as (Hok & Hfile & Hother & _).
  split; [exact Hok|]. split; [exact Hfile|].
  rewrite (Hother "notes.csv"); [reflexivity | discriminate].
Defined.

(** X8. Saving twice to the same path leaves the files as saving the
    second frame alone does: the last write wins, and saving the same
    frame again changes nothing on disk. *)
Theorem save_csv_last_write_wins (df1 df2 : DataFrame) (path : string)
    (w : world) :
  writable w path = true ->
  fst (save_csv df2 path (snd (save_csv df1 path w))) = Ok tt /\
  files (snd (save_csv df2 path (snd (save_csv df1 path w))))
  = files (snd (save_csv df2 path w)) /\
  (df1 = df2 ->
   files (snd (save_csv df2 path (snd (save_csv df1 path w))))
   = files (snd (save_csv df1 path w))).
Proof.
  intros Hw. rewrite !save_csv_run, Hw. cbn [snd writable files].
  rewrite Hw. cbn [fst snd files]. split; [reflexivity|].
  split; [apply set_set|]. intros ->. apply set_set.
Qed.

Lemma save_csv_last_write_wins_witness :
  let w := MoreSamples.used Samples.empties in
  let df1 := mkDataFrame COLUMNS [] in
  let df2 := mkDataFrame COLUMNS [project (Samples.article 11 "a" "u1")] in
  fst (save_csv df2 "out.csv" (snd (save_csv df1 "out.csv" w))) = Ok tt /\
  files (snd (save_csv df2 "out.csv" (snd (save_csv df1 "out.csv" w))))
  = files (snd (save_csv df2 "out.csv" w)).
Proof.
  cbv zeta.
  destruct (save_csv_last_write_wins
              (mkDataFrame COLUMNS [])
              (mkDataFrame COLUMNS [project (Samples.article 11 "a" "u1")])
              "out.csv" (MoreSamples.used Samples.empties) eq_refl)
    as (Hok & Hfiles & _).
  split; [exact Hok | exact Hfiles].
Defined.

(** X9. [save_csv] prints its summary after the write and only then:
    on success one line with the number of rows of the frame, the path
    and a preview holding the first rows of the frame, five of them or
    all when there are fewer; when the write fails [IoError] is raised
    and nothing is printed. *)
Theorem save_csv_summary (df : DataFrame) (path : string) (w : world) :
  let run := save_csv df path w in
  (writable w path = true ->
   stdout (snd run) = stdout w ++ [Saved (len df) path (head df)] /\
   columns (head df) = columns df /\
   len (head df) = Nat.min 5 (len df) /\
   exists rest, values df = values (head df) ++ rest) /\
  (writable w path = false ->
   fst run = Raise IoError /\ stdout (snd run) = stdout w).
Proof.
  cbv zeta. rewrite save_csv_run. split; intros Hw; rewrite Hw.
  - cbn [snd stdout]. split; [reflexivity|]. split; [reflexivity|].
    unfold head, len. cbn [values]. split; [apply length_firstn|].
    exists (skipn 5 (values df)). symmetry. apply firstn_skipn.
  - split; reflexivity.
Qed.

(** Seven rows saved, then a locked path. *)
Lemma save_csv_summary_witness :
  let row := project (Samples.article 11 "a" "u1") in
  let df := mkDataFrame COLUMNS [row; row; row; row; row; row; row] in
  let w := Samples.fresh Samples.empties in
  let locked := mkWorld Samples.empties (fun _ => false) [] [] [] [] [] in
  stdout (snd (save_csv df "out.csv" w))
  = [Saved 7 "out.csv" (mkDataFrame COLUMNS [row; row; row; row; row])] /\
  fst (save_csv df "out.csv" locked) = Raise IoError /\
  stdout (snd (save_csv df "out.csv" locked)) = [].
Proof.
  cbv zeta.
  pose proof (save_csv_summary
    (mkDataFrame COLUMNS
       (repeat (project (Samples.article 11 "a" "u1")) 7))
    "out.csv" (Samples.fresh Samples.empties)) as [Hok _].
  pose proof (save_csv_summary
    (mkDataFrame COLUMNS
       (repeat (project (Samples.article 11 "a" "u1")) 7))
    "out.csv"
    (mkWorld Samples.empties (fun _ => false) [] [] [] [] [])) as [_ Hfail].
  cbv zeta in Hok, Hfail.
  split; [exact (proj1 (Hok eq_refl))|]. exact (Hfail eq_refl).
Defined.

End SaveMore.

(** ** More on the flow *)

Module FlowMoreFacts.
Import TaskFacts FetchFacts LoopFacts FlowFacts TransformFacts FetchMore.

(** The loop raises exactly when some fetch does, after the fetches of
    the pages before it returned; it stops in the world that fetch
    left. *)
Lemma extract_raise_iff api_base per_page ps raw w e w' :
  extract api_base per_page ps raw w = (Raise e, w') <->
  exists ps1 p ps2 pgs w1,
    ps = ps1 ++ p :: ps2 /\
    fetched api_base per_page ps1 w pgs w1 /\
    fetch_page p api_base per_page w1 = (Raise e, w').
Proof.
  revert raw w. induction ps as [|p ps IH]; intros raw w; cbn [extract].
  - unfold ret. split; [discriminate|].
    intros (ps1 & q & ps2 & _ & _ & H & _). now destruct ps1.
  - unfold bind.
    destruct (fetch_page p api_base per_page w) as [[pg|e1] w1] eqn:E.
    + rewrite IH. split.
      * intros (ps1 & q & ps2 & pgs & w2 & -> & Hf & Hq).
        exists (p :: ps1), q, ps2, (pg :: pgs), w2.
        split; [reflexivity|]. split; [|exact Hq].
        econstructor; eassumption.
      * intros (ps1 & q & ps2 & pgs & w2 & Hps & Hf & Hq).
        destruct ps1 as [|p1 ps1]; cbn [app] in Hps; injection Hps as <- ->.
        -- inversion Hf; subst. congruence.
        -- inversion Hf; subst.
           match goal with
           | K : fetch_page p api_base per_page w = _ |- _ =>
               rewrite E in K; injection K as <- <-
           end.
           exists ps1, q, ps2. eauto.
    + split.
      * intros [= <- <-]. exists [], p, ps, [], w.
        split; [reflexivity|]. split; [constructor | exact E].
      * intros (ps1 & q & ps2 & pgs & w2 & Hps & Hf & Hq).
        destruct ps1 as [|p1 ps1]; cbn [app] in Hps; injection Hps as <- ->.
        -- inversion Hf; subst. congruence.
        -- inversion Hf; subst. congruence.
Qed.

Lemma extract_fetch_errors api_base per_page ps raw w e :
  fst (extract api_base per_page ps raw w) = Raise e ->
  (forall m, e <> MissingFieldError m) /\ e <> IoError.
Proof.
  destruct (extract api_base per_page ps raw w) as [res w'] eqn:E.
  cbn [fst]. intros ->. apply extract_raise_iff in E.
  destruct E as (ps1 & p & ps2 & pgs & w1 & _ & _ & Hp).
  destruct (fetch_page_error_kinds p api_base per_page w1) as [Hm Hio].
  rewrite Hp in Hm, Hio. cbn [fst] in Hm, Hio. split; [|congruence].
  intros m ->. now apply (Hm m).
Qed.

(** The loop page by page: the executions of each fetch, with its
    GETs, waits and log lines. *)
Lemma extract_counts api_base per_page ps raw w :
  let run := extract api_base per_page ps raw w in
  exists ks : list nat,
    (List.length ks <= List.length ps)%nat /\
    Forall (fun k => (1 <= k <= 4)%nat) ks /\
    sent (snd run) = sent w ++ requests_of api_base per_page (combine ps ks) /\
    slept (snd run) = slept w ++ List.concat (map waits_of ks) /\
    stdout (snd run) = stdout w ++ fetching_of (combine ps ks) /\
    (forall raw', fst run = Ok raw' -> List.length ks = List.length ps).
Proof.
  revert raw w. induction ps as [|p ps IH]; intros raw w; cbv zeta.
  - exists []. cbn. rewrite !app_nil_r. repeat split; auto.
  - cbn [extract]. unfold bind. rewrite fetch_page_run. cbv zeta.
    pose proof (executions_pos 3
                  (execution w (request_of p api_base per_page))) as Hk1.
    set (k1 := executions 3 (execution w (request_of p api_base per_page)))
      in *.
    set (w1 := mkWorld _ _ _ _ _ _ _).
    destruct (execution w (request_of p api_base per_page) (k1 - 1))
      as [pg|e].
    + specialize (IH (raw ++ [pg]) w1). cbv zeta in IH.
      destruct IH as (ks & Hlen & Hall & Hsent & Hslept & Hout & Hok).
      exists (k1 :: ks). split; [simpl; lia|].
      split; [constructor; [exact Hk1 | exact Hall]|].
      split.
      { rewrite Hsent. unfold w1, requests_of. cbn [sent combine map List.concat fst snd].
        now rewrite <- app_assoc. }
      split.
      { rewrite Hslept. unfold w1. cbn [slept map List.concat].
        now rewrite <- app_assoc. }
      split.
      { rewrite Hout. unfold w1, fetching_of.
        cbn [stdout combine map List.concat fst snd]. now rewrite <- app_assoc. }
      intros raw' H. simpl. f_equal. eapply Hok. exact H.
    + exists [k1]. cbn [fst snd]. unfold w1, requests_of, fetching_of.
      assert (Hc : combine (p :: ps) [k1] = [(p, k1)])
        by (cbn; now destruct ps).
      rewrite Hc.
      cbn [sent slept stdout map List.concat fst snd List.length].
      rewrite !app_nil_r. split; [lia|].
      split; [constructor; [exact Hk1 | constructor]|].
      repeat split; discriminate.
Qed.

Lemma total_app (a b : list Z) : total (a ++ b) = total a + total b.
Proof.
  unfold total. induction a as [|x a IH]; simpl; [reflexivity|].
  rewrite IH. lia.
Qed.

(** At most four GETs and 22 seconds of waiting for each page. *)
Lemma budget_of_counts api_base per_page (ps : list Z) (ks : list nat) :
  Forall (fun k => (1 <= k <= 4)%nat) ks ->
  (List.length (combine ps ks)
   <= List.length (requests_of api_base per_page (combine ps ks))
   <= 4 * List.length ks)%nat /\
  0 <= total (List.concat (map waits_of ks)) <= 22 * Z.of_nat (List.length ks).
Proof.
  intros Hall. revert ps.
  induction Hall as [|k ks Hk _ IH]; intros ps.
  - destruct ps; cbn; lia.
  - split.
    + destruct ps as [|p ps]; [cbn; lia|].
      unfold requests_of in *. cbn [combine map List.concat fst snd List.length].
      rewrite length_app, repeat_length.
      destruct (IH ps) as [[H1 H2] _]. lia.
    + cbn [map List.concat List.length]. rewrite total_app.
      destruct (IH ps) as [_ H].
      assert (Hw : 0 <= total (waits_of k) <= 22).
      { unfold waits_of.
        destruct k as [|[|[|[|[|k]]]]]; try lia; cbn; lia. }
      lia.
Qed.

(** Line by line, the log of the fetches names the pages of the GETs. *)
Lemma lines_match_requests api_base per_page (pks : list (Z * nat)) :
  map line_page (fetching_of pks)
  = map request_page (requests_of api_base per_page pks).
Proof.
  unfold fetching_of, requests_of.
  induction pks as [|[p k] pks IH]; [reflexivity|].
  cbn [map List.concat fst snd]. rewrite !map_app, IH. f_equal.
  induction k as [|k IHk]; [reflexivity|].
  cbn [repeat map]. now rewrite IHk.
Qed.

(** A loop over at least one page sends the GET of its first page at
    least once, before anything else. *)
Lemma extract_first_request api_base per_page p ps raw w :
  exists (k : nat) (more : list request),
    (1 <= k <= 4)%nat /\
    sent (snd (extract api_base per_page (p :: ps) raw w))
    = sent w ++ repeat (request_of p api_base per_page) k ++ more.
Proof.
  pose proof (extract_counts api_base per_page (p :: ps) raw w) as Hc.
  cbv zeta in Hc. destruct Hc as (ks & _ & Hall & Hsent & _ & _ & Hok).
  cbn [extract] in *. unfold bind in *.
  rewrite fetch_page_run in *. cbv zeta in *.
  pose proof (executions_pos 3
                (execution w (request_of p api_base per_page))) as Hk1.
  set (k1 := executions 3 (execution w (request_of p api_base per_page)))
    in *.
  destruct (execution w (request_of p api_base per_page) (k1 - 1))
    as [pg|e].
  - match goal with
    | |- context [extract _ _ ps _ ?w1] =>
        pose proof (extract_counts api_base per_page ps (raw ++ [pg]) w1)
          as Hc'
    end.
    cbv zeta in Hc'. destruct Hc' as (ks' & _ & _ & Hsent' & _).
    exists k1. eexists. split; [exact Hk1|].
    rewrite Hsent'. cbn [sent]. rewrite <- app_assoc. reflexivity.
  - exists k1, []. split; [exact Hk1|].
    cbn [snd sent]. now rewrite app_nil_r.
Qed.

End FlowMoreFacts.

Module PageSizeClaims.
Import TaskFacts FetchFacts LoopFacts FlowFacts FlowMoreFacts.

(** C9. The configured page size reaches the service unchanged,
    whatever its value: an execution of the body of [fetch_page] sends
    one GET whose [per_page] parameter is the configured value, next to
    the page number, on the articles URL with the 30 s timeout; a call
    of the task [fetch_page] sends that same request between one and
    four times; and the GETs of a run are those requests and nothing
    else, page by page, the first of them (for page 1, when at least
    one page is asked for) always being sent.  No value is rejected and
    none is altered. *)
Theorem per_page_passed_verbatim (api_base : string) (pages per_page : Z)
    (output_file : string) (w : world) :
  let rq := fun page : Z =>
    mkRequest (api_base ++ "/articles")%string
              [("page", page); ("per_page", per_page)] 30 in
  let run := etl api_base pages per_page output_file w in
  (forall page w0,
      sent (snd (fetch_page_fn page api_base per_page w0))
      = sent w0 ++ [rq page]) /\
  (forall page w0,
      exists k : nat,
        (1 <= k <= 4)%nat /\
        sent (snd (fetch_page page api_base per_page w0))
        = sent w0 ++ repeat (rq page) k) /\
  (exists ks : list nat,
      (List.length ks <= Z.to_nat pages)%nat /\
      Forall (fun k => (1 <= k <= 4)%nat) ks /\
      sent (snd run)
      = sent w ++ List.concat
                    (map (fun pk => repeat (rq (fst pk)) (snd pk))
                         (combine (range 1 (pages + 1)) ks)) /\
      (fst run = Ok tt -> List.length ks = Z.to_nat pages)) /\
  (1 <= pages ->
   exists (k : nat) (more : list request),
     (1 <= k <= 4)%nat /\
     sent (snd run) = sent w ++ repeat (rq 1) k ++ more /\
     Forall (fun r => Dict.get "per_page" (params r) = Some per_page)
            (repeat (rq 1) k ++ more)).
Proof.
  cbv zeta.
  assert (Hrun : sent (snd (etl api_base pages per_page output_file w))
                 = sent (snd (extract api_base per_page
                                (range 1 (pages + 1)) [] w)) /\
                 (fst (etl api_base pages per_page output_file w) = Ok tt ->
                  exists raw,
                    fst (extract api_base per_page
                           (range 1 (pages + 1)) [] w) = Ok raw)).
  { rewrite etl_run.
    destruct (extract _ _ _ _ w) as [[raw|e] w1]; cbn [fst snd].
    - cbv zeta. destruct (to_dataframe_fn raw) as [df|e].
      + rewrite save_csv_run. cbn [writable].
        destruct (writable w1 output_file); cbn [fst snd sent];
          (split; [reflexivity | intros _; now exists raw]).
      + split; [reflexivity | intros _; now exists raw].
    - split; [reflexivity | discriminate]. }
  destruct Hrun as [Hsame Hret].
  assert (Hlen : List.length (range 1 (pages + 1)) = Z.to_nat pages).
  { unfold range. rewrite length_map, length_seq. f_equal. lia. }
  pose proof (extract_counts api_base per_page (range 1 (pages + 1)) [] w)
    as Hc. cbv zeta in Hc.
  destruct Hc as (ks & Hks & Hall & Hsent & _ & _ & Hok).
  rewrite Hlen in Hks, Hok.
  split; [|split; [|split]].
  - intros page w0. rewrite fetch_page_fn_run. reflexivity.
  - intros page w0. rewrite fetch_page_run. cbv zeta.
    pose proof (executions_pos 3
                  (execution w0 (request_of page api_base per_page))) as Hk.
    eexists. split; [exact Hk|].
    destruct (execution w0 _ _); reflexivity.
  - exists ks. split; [exact Hks|]. split; [exact Hall|].
    split; [rewrite Hsame; exact Hsent|].
    intros Hrun. destruct (Hret Hrun) as [raw Hraw]. exact (Hok raw Hraw).
  - intros Hpages. rewrite Hsame.
    assert (Hr : range 1 (pages + 1) = 1 :: range 2 (pages + 1)).
    { unfold range.
      replace (Z.to_nat (pages + 1 - 1)) with (S (Z.to_nat (pages + 1 - 2)))
        by lia.
      cbn [seq map]. f_equal. rewrite <- seq_shift, map_map.
      apply map_ext. intros i. lia. }
    rewrite Hr.
    destruct (extract_first_request api_base per_page 1
                (range 2 (pages + 1)) [] w) as (k & more & Hk & Hs).
    exists k, more. split; [exact Hk|]. split; [exact Hs|].
    rewrite <- Hr in Hs. rewrite Hsent in Hs. apply app_inv_head in Hs.
    unfold request_of in Hs. rewrite <- Hs. unfold requests_of.
    apply Forall_concat. apply Forall_map. apply Forall_forall.
    intros [p n] _. cbn [fst snd]. apply Forall_forall.
    intros r Hin. apply repeat_spec in Hin. subst r. reflexivity.
Qed.

(** A page size above the usual thirty: two pages of a hundred, each
    fetched with one GET carrying [per_page = 100]. *)
Lemma per_page_passed_verbatim_witness :
  let api := "https://dev.to/api" in
  let w := Samples.fresh Samples.two_pages in
  let rq := fun page : Z =>
    mkRequest "https://dev.to/api/articles"
              [("page", page); ("per_page", 100)] 30 in
  sent (snd (etl api 2 100 "out.csv" w)) = [rq 1; rq 2] /\
  (exists k : nat,
      (1 <= k <= 4)%nat /\
      sent (snd (fetch_page 1 api 100 w)) = repeat (rq 1) k) /\
  (exists (k : nat) (more : list request),
      (1 <= k <= 4)%nat /\
      sent (snd (etl api 2 100 "out.csv" w)) = repeat (rq 1) k ++ more /\
      Forall (fun r => Dict.get "per_page" (params r) = Some 100)
             (repeat (rq 1) k ++ more)).
Proof.
  cbv zeta.
  pose proof (per_page_passed_verbatim "https://dev.to/api" 2 100 "out.csv"
                (Samples.fresh Samples.two_pages)) as H.
  cbv zeta in H. destruct H as (_ & Htask & _ & Hfirst).
  split; [vm_compute; reflexivity|].
  split; [exact (Htask 1 (Samples.fresh Samples.two_pages))|].
  apply Hfirst. lia.
Defined.

End PageSizeClaims.

Module FlowMore.
Import Dict DictFacts TaskFacts FetchFacts LoopFacts FlowFacts TransformFacts
  FetchMore FlowMoreFacts.

Lemma extract_ok_fetched api_base per_page ps w raw w1 :
  extract api_base per_page ps [] w = (Ok raw, w1) <->
  fetched api_base per_page ps w raw w1.
Proof.
  rewrite extract_ok_iff. split.
  - intros [pgs [-> H]]. exact H.
  - intros H. exists raw. now split.
Qed.

(** X10. The flow returns exactly when every page is fetched, every
    kept column is found in some flattened record and the output path
    can be written; the output file then holds the kept columns as
    header and the row of every fetched record, in fetch order. *)
Theorem etl_ok_iff (api_base : string) (pages per_page : Z)
    (output_file : string) (w : world) :
  let run := etl api_base pages per_page output_file w in
  (fst run = Ok tt <->
   exists raw_pages w1,
     fetched api_base per_page (range 1 (pages + 1)) w raw_pages w1 /\
     absent_columns (List.concat raw_pages) = [] /\
     writable w output_file = true) /\
  (forall raw_pages w1,
      fetched api_base per_page (range 1 (pages + 1)) w raw_pages w1 ->
      fst run = Ok tt ->
      Dict.get output_file (files (snd run))
      = Some (mkCsv COLUMNS (map project (List.concat raw_pages)))).
Proof.
  cbv zeta.
  pose proof (extract_frame api_base per_page (range 1 (pages + 1)) [] w)
    as Hfr. cbv zeta in Hfr. destruct Hfr as (_ & Hwr & _).
  split; [split|].
  - rewrite etl_run.
    destruct (extract _ _ _ _ w) as [[raw|e] w1] eqn:E; [|discriminate].
    cbn [snd] in Hwr. cbv zeta. rewrite to_dataframe_fn_eq.
    destruct (absent_columns (List.concat raw)) eqn:Ha; [|discriminate].
    rewrite save_csv_run. cbn [writable]. rewrite Hwr.
    destruct (writable w output_file) eqn:Hw; [|discriminate].
    intros _. exists raw, w1. split; [now apply extract_ok_fetched|].
    split; [exact Ha | reflexivity].
  - intros (raw & w1 & Hf & Ha & Hw).
    exact (proj1 (etl_writes_table _ _ _ _ _ _ _ Hf Ha Hw)).
  - intros raw w1 Hf Hok.
    rewrite (etl_after_fetched _ _ _ _ _ _ _ Hf) in Hok |- *.
    cbv zeta in Hok |- *. rewrite to_dataframe_fn_eq in Hok |- *.
    destruct (absent_columns (List.concat raw)); [|discriminate].
    rewrite save_csv_run in Hok |- *. cbn [writable] in Hok |- *.
    destruct (writable w1 output_file); [|discriminate].
    cbn [snd files columns values]. apply get_set_same.
Qed.

(** X11. When the fetch of a page fails after the pages before it were
    fetched, the flow raises that failure and ends in the world that
    fetch left: no later page is asked for, [to_dataframe] and
    [save_csv] are not run, nothing is written. *)
Theorem etl_stops_at_failed_page (api_base : string) (pages per_page : Z)
    (output_file : string) (w w1 w2 : world) (before after : list Z)
    (p : Z) (fetched_pages : list page) (e : error) :
  range 1 (pages + 1) = before ++ p :: after ->
  fetched api_base per_page before w fetched_pages w1 ->
  fetch_page p api_base per_page w1 = (Raise e, w2) ->
  etl api_base pages per_page output_file w = (Raise e, w2).
Proof.
  intros Hr Hf Hp. rewrite etl_run.
  assert (E : extract api_base per_page (range 1 (pages + 1)) [] w
              = (Raise e, w2)).
  { apply extract_raise_iff. exists before, p, after, fetched_pages, w1.
    auto. }
  now rewrite E.
Qed.

(** Three pages asked for, the second never answers: one GET for page
    1, four for page 2, none for page 3, and nothing after. *)
Lemma etl_stops_at_failed_page_witness :
  let api := "https://dev.to/api" in
  let rq1 := request_of 1 api 30 in
  let rq2 := request_of 2 api 30 in
  etl api 3 30 "out.csv" (Samples.fresh MoreSamples.second_down)
  = (Raise NetworkError,
     mkWorld MoreSamples.second_down (fun _ => true)
             [rq1; rq2; rq2; rq2; rq2] [2; 5; 15]
             [Fetching 1; Fetching 2; Fetching 2; Fetching 2; Fetching 2]
             [Run_fetch_page 1 api 30; Run_fetch_page 2 api 30] []).
Proof.
  cbv zeta.
  apply (etl_stops_at_failed_page "https://dev.to/api" 3 30 "out.csv"
           (Samples.fresh MoreSamples.second_down)
           (mkWorld MoreSamples.second_down (fun _ => true)
                    [request_of 1 "https://dev.to/api" 30] []
                    [Fetching 1] [Run_fetch_page 1 "https://dev.to/api" 30] [])
           _ [1] [3] 2 [[Samples.article 11 "a" "u1"]] NetworkError).
  - reflexivity.
  - econstructor; [vm_compute; reflexivity | constructor].
  - vm_compute. reflexivity.
Defined.

(** The flow on the sample server with two pages. *)
Lemma etl_ok_iff_witness :
  let api := "https://dev.to/api" in
  let a := Samples.article 11 "a" "u1" in
  let b := Samples.article 12 "b" "u2" in
  let c := Samples.article 21 "c" "u3" in
  let run := etl api 2 2 "out.csv" (Samples.fresh Samples.two_pages) in
  fst run = Ok tt /\
  Dict.get "out.csv" (files (snd run))
  = Some (mkCsv COLUMNS (map project (List.concat [[a; b]; [c]]))).
Proof.
  cbv zeta.
  assert (Hf : fetched "https://dev.to/api" 2 (range 1 (2 + 1))
                 (Samples.fresh Samples.two_pages)
                 [[Samples.article 11 "a" "u1"; Samples.article 12 "b" "u2"];
                  [Samples.article 21 "c" "u3"]]
                 (snd (extract "https://dev.to/api" 2 (range 1 (2 + 1)) []
                         (Samples.fresh Samples.two_pages)))).
  { econstructor; [reflexivity|]. econstructor; [reflexivity|]. constructor. }
  destruct (etl_ok_iff "https://dev.to/api" 2 2 "out.csv"
              (Samples.fresh Samples.two_pages)) as [Hiff Hfile].
  assert (Hok : fst (etl "https://dev.to/api" 2 2 "out.csv"
                       (Samples.fresh Samples.two_pages)) = Ok tt).
  { apply Hiff. eexists. eexists. split; [exact Hf|]. split; reflexivity. }
  split; [exact Hok|]. exact (Hfile _ _ Hf Hok).
Defined.

(** X12. The GETs of a run go page by page in increasing page order,
    between one and four identical requests for each page reached, and
    the waits are those of each page's retries in the same order; so a
    run over N pages sends at most 4N requests and waits at most 22N
    seconds in all, and a run that returns has reached all N pages. *)
Theorem etl_request_budget (api_base : string) (pages per_page : Z)
    (output_file : string) (w : world) :
  let run := etl api_base pages per_page output_file w in
  let numbers := range 1 (pages + 1) in
  let N := Z.to_nat pages in
  exists ks : list nat,
    (List.length ks <= N)%nat /\
    Forall (fun k => (1 <= k <= 4)%nat) ks /\
    sent (snd run)
    = sent w ++ requests_of api_base per_page (combine numbers ks) /\
    slept (snd run) = slept w ++ List.concat (map waits_of ks) /\
    (List.length (sent (snd run)) <= List.length (sent w) + 4 * N)%nat /\
    total (slept (snd run)) <= total (slept w) + 22 * Z.of_nat N /\
    (fst run = Ok tt ->
     List.length ks = N /\
     (List.length (sent w) + N <= List.length (sent (snd run)))%nat).
Proof.
  cbv zeta.
  assert (Hlen : List.length (range 1 (pages + 1)) = Z.to_nat pages).
  { unfold range. rewrite length_map, length_seq. f_equal. lia. }
  pose proof (extract_counts api_base per_page (range 1 (pages + 1)) [] w)
    as Hc. cbv zeta in Hc.
  destruct Hc as (ks & Hks & Hall & Hsent & Hslept & _ & Hok).
  rewrite Hlen in Hks, Hok.
  destruct (budget_of_counts api_base per_page (range 1 (pages + 1)) ks Hall)
    as [[Hlo Hhi] [_ Hwait]].
  assert (Hsame : sent (snd (etl api_base pages per_page output_file w))
                  = sent (snd (extract api_base per_page
                                 (range 1 (pages + 1)) [] w)) /\
                  slept (snd (etl api_base pages per_page output_file w))
                  = slept (snd (extract api_base per_page
                                  (range 1 (pages + 1)) [] w)) /\
                  (fst (etl api_base pages per_page output_file w) = Ok tt ->
                   exists raw,
                     fst (extract api_base per_page
                            (range 1 (pages + 1)) [] w) = Ok raw)).
  { rewrite etl_run.
    destruct (extract _ _ _ _ w) as [[raw|e] w1]; cbn [fst snd].
    - cbv zeta. destruct (to_dataframe_fn raw) as [df|e].
      + rewrite save_csv_run. cbn [writable].
        destruct (writable w1 output_file); cbn [fst snd sent slept];
          repeat split; try reflexivity; intros _; now exists raw.
      + repeat split; intros _; now exists raw.
    - repeat split. discriminate. }
  destruct Hsame as (Hs1 & Hs2 & Hs3).
  exists ks. split; [exact Hks|]. split; [exact Hall|].
  split; [now rewrite Hs1|]. split; [now rewrite Hs2|].
  split; [rewrite Hs1, Hsent, length_app; lia|].
  split; [rewrite Hs2, Hslept, total_app; lia|].
  intros Hrun. destruct (Hs3 Hrun) as [raw Hraw].
  pose proof (Hok raw Hraw) as Hn. split; [exact Hn|].
  rewrite Hs1, Hsent, length_app.
  assert (Hcomb : List.length (combine (range 1 (pages + 1)) ks)
                  = Z.to_nat pages).
  { rewrite length_combine, Hlen, Hn. apply Nat.min_id. }
  lia.
Qed.

(** X13. Whatever happens, on success or failure, the flow leaves
    every file but the output file as it was. *)
Theorem etl_touches_only_output (api_base : string) (pages per_page : Z)
    (output_file : string) (w : world) (other : string) :
  other <> output_file ->
  Dict.get other
    (files (snd (etl api_base pages per_page output_file w)))
  = Dict.get other (files w).
Proof.
  intros Hne. rewrite etl_run.
  pose proof (extract_frame api_base per_page (range 1 (pages + 1)) [] w)
    as Hfr. cbv zeta in Hfr. destruct Hfr as (_ & _ & Hfiles & _).
  destruct (extract _ _ _ _ w) as [[raw|e1] w1]; cbn [fst snd] in *.
  - cbv zeta. destruct (to_dataframe_fn raw) as [df|e2].
    + rewrite save_csv_run. cbn [writable].
      destruct (writable w1 output_file); cbn [fst snd files].
      * rewrite <- Hfiles. now apply get_set_other.
      * now rewrite Hfiles.
    + cbn [fst snd files]. now rewrite Hfiles.
  - now rewrite Hfiles.
Qed.

(** A run that writes [out.csv] next to [notes.csv]. *)
Lemma etl_touches_only_output_witness :
  let run := etl "https://dev.to/api" 2 2 "out.csv"
                 (MoreSamples.used Samples.two_pages) in
  fst run = Ok tt /\
  Dict.get "notes.csv" (files (snd run)) = Some (mkCsv ["n"] []).
Proof.
  cbv zeta. split; [vm_compute; reflexivity|].
  rewrite (etl_touches_only_output "https://dev.to/api" 2 2 "out.csv"
             (MoreSamples.used Samples.two_pages) "notes.csv");
    [reflexivity | discriminate].
Defined.

(** X14. What the flow raises tells the stage that failed.
    [MissingFieldError] with a list of columns: all pages were fetched
    and those are the kept columns found in no record.  [IoError]: all
    pages were fetched, the table was built, the path could not be
    written.  Anything else is what the fetch of some page raised,
    after the pages before it were fetched. *)
Theorem etl_error_stage (api_base : string) (pages per_page : Z)
    (output_file : string) (w : world) :
  let run := etl api_base pages per_page output_file w in
  let numbers := range 1 (pages + 1) in
  (forall missing,
      fst run = Raise (MissingFieldError missing) <->
      exists raw_pages w1,
        fetched api_base per_page numbers w raw_pages w1 /\
        absent_columns (List.concat raw_pages) = missing /\ missing <> []) /\
  (fst run = Raise IoError <->
   exists raw_pages w1,
     fetched api_base per_page numbers w raw_pages w1 /\
     absent_columns (List.concat raw_pages) = [] /\
     writable w output_file = false) /\
  (forall e,
      (forall missing, e <> MissingFieldError missing) -> e <> IoError ->
      (fst run = Raise e <->
       exists before p after fetched_pages w1,
         numbers = before ++ p :: after /\
         fetched api_base per_page before w fetched_pages w1 /\
         fst (fetch_page p api_base per_page w1) = Raise e)).
Proof.
  cbv zeta.
  pose proof (extract_frame api_base per_page (range 1 (pages + 1)) [] w)
    as Hfr. cbv zeta in Hfr. destruct Hfr as (_ & Hwr & _).
  pose proof (extract_fetch_errors api_base per_page (range 1 (pages + 1)) [] w)
    as Hkinds.
  assert (Hok : forall raw w1,
             fetched api_base per_page (range 1 (pages + 1)) w raw w1 ->
             fst (etl api_base pages per_page output_file w)
             = match absent_columns (List.concat raw) with
               | [] => if writable w output_file then Ok tt else Raise IoError
               | m => Raise (MissingFieldError m)
               end).
  { intros raw w1 Hf. rewrite (etl_after_fetched _ _ _ _ _ _ _ Hf).
    cbv zeta. rewrite to_dataframe_fn_eq.
    apply extract_ok_fetched in Hf. rewrite Hf in Hwr. cbn [snd] in Hwr.
    destruct (absent_columns (List.concat raw)); [|reflexivity].
    rewrite save_csv_run. cbn [writable]. rewrite Hwr.
    now destruct (writable w output_file). }
  assert (Hraise : forall e,
             fst (etl api_base pages per_page output_file w) = Raise e ->
             (exists raw w1,
                 fetched api_base per_page (range 1 (pages + 1)) w raw w1) \/
             (exists before p after fetched_pages w1,
                 range 1 (pages + 1) = before ++ p :: after /\
                 fetched api_base per_page before w fetched_pages w1 /\
                 fst (fetch_page p api_base per_page w1) = Raise e)).
  { intros e He. rewrite etl_run in He.
    destruct (extract _ _ _ _ w) as [[raw|e1] w1] eqn:E.
    - left. exists raw, w1. now apply extract_ok_fetched.
    - right. cbn [fst] in He. injection He as ->.
      apply extract_raise_iff in E.
      destruct E as (ps1 & p & ps2 & pgs & w0 & Hps & Hf & Hp).
      exists ps1, p, ps2, pgs, w0. rewrite Hp. auto. }
  assert (Hfail : forall e before p after fetched_pages w1,
             range 1 (pages + 1) = before ++ p :: after ->
             fetched api_base per_page before w fetched_pages w1 ->
             fst (fetch_page p api_base per_page w1) = Raise e ->
             fst (etl api_base pages per_page output_file w) = Raise e).
  { intros e before p after pgs w1 Hps Hf Hp.
    destruct (fetch_page p api_base per_page w1) as [res w2] eqn:E.
    cbn [fst] in Hp. subst res. rewrite etl_run.
    assert (Ex : extract api_base per_page (range 1 (pages + 1)) [] w
                 = (Raise e, w2)).
    { apply extract_raise_iff. exists before, p, after, pgs, w1. auto. }
    now rewrite Ex. }
  assert (Hnofetch : forall e,
             ((exists m, e = MissingFieldError m) \/ e = IoError) ->
             forall before p after fetched_pages w1,
               range 1 (pages + 1) = before ++ p :: after ->
               fetched api_base per_page before w fetched_pages w1 ->
               fst (fetch_page p api_base per_page w1) = Raise e -> False).
  { intros e He before p after pgs w1 _ _ Hp.
    destruct (fetch_page_error_kinds p api_base per_page w1) as [Hm Hio].
    destruct He as [[m ->] | ->]; [now apply (Hm m) | contradiction]. }
  split; [|split].
  - intros missing. split.
    + intros He. destruct (Hraise _ He) as [(raw & w1 & Hf) | Hx].
      * exists raw, w1. split; [exact Hf|]. rewrite (Hok _ _ Hf) in He.
        destruct (absent_columns (List.concat raw)) eqn:Ha.
        -- destruct (writable w output_file); discriminate.
        -- injection He as <-. split; [reflexivity | discriminate].
      * destruct Hx as (b & p & a & pgs & w1 & H1 & H2 & H3). exfalso.
        exact (Hnofetch _ (or_introl (ex_intro _ missing eq_refl))
                        b p a pgs w1 H1 H2 H3).
    + intros (raw & w1 & Hf & Ha & Hne). rewrite (Hok _ _ Hf), Ha.
      destruct missing; [contradiction | reflexivity].
  - split.
    + intros He. destruct (Hraise _ He) as [(raw & w1 & Hf) | Hx].
      * exists raw, w1. split; [exact Hf|]. rewrite (Hok _ _ Hf) in He.
        destruct (absent_columns (List.concat raw)); [|discriminate].
        destruct (writable w output_file); [discriminate | auto].
      * destruct Hx as (b & p & a & pgs & w1 & H1 & H2 & H3). exfalso.
        exact (Hnofetch _ (or_intror eq_refl) b p a pgs w1 H1 H2 H3).
    + intros (raw & w1 & Hf & Ha & Hw). now rewrite (Hok _ _ Hf), Ha, Hw.
  - intros e Hm Hio. split.
    + intros He. destruct (Hraise _ He) as [(raw & w1 & Hf) | Hx];
        [|exact Hx].
      exfalso. rewrite (Hok _ _ Hf) in He.
      destruct (absent_columns (List.concat raw)).
      * destruct (writable w output_file); [discriminate|].
        injection He as <-. contradiction.
      * injection He as <-. now apply (Hm (s :: l)).
    + intros (b & p & a & pgs & w1 & H1 & H2 & H3). eapply Hfail; eauto.
Qed.

Lemma etl_logs_after_extract api_base pages per_page output_file w :
  let run := etl api_base pages per_page output_file w in
  let loop := extract api_base per_page (range 1 (pages + 1)) [] w in
  sent (snd run) = sent (snd loop) /\
  slept (snd run) = slept (snd loop) /\
  exists summary,
    stdout (snd run) = stdout (snd loop) ++ summary /\
    ((fst run = Ok tt /\
      exists raw_pages,
        fst loop = Ok raw_pages /\
        summary = [Saved (List.length (List.concat raw_pages)) output_file
                     (head (mkDataFrame COLUMNS
                              (map project (List.concat raw_pages))))]) \/
     ((exists e, fst run = Raise e) /\ summary = [])).
Proof.
  cbv zeta. rewrite etl_run.
  destruct (extract _ _ _ _ w) as [[raw|e] w1]; cbn [fst snd].
  - cbv zeta. rewrite to_dataframe_fn_eq.
    destruct (absent_columns (List.concat raw)) as [|m ms].
    + rewrite save_csv_run. cbn [writable].
      destruct (writable w1 output_file); cbn [fst snd sent slept stdout].
      * split; [reflexivity|]. split; [reflexivity|]. eexists.
        split; [reflexivity|]. left. split; [reflexivity|]. exists raw.
        split; [reflexivity|]. unfold len. cbn [values].
        now rewrite length_map.
      * split; [reflexivity|]. split; [reflexivity|]. exists [].
        rewrite app_nil_r. split; [reflexivity|]. right.
        split; [eexists; reflexivity | reflexivity].
    + cbn [fst snd sent slept stdout]. split; [reflexivity|].
      split; [reflexivity|]. exists []. rewrite app_nil_r.
      split; [reflexivity|]. right. split; [eexists; reflexivity | reflexivity].
  - split; [reflexivity|]. split; [reflexivity|]. exists [].
    rewrite app_nil_r. split; [reflexivity|]. right.
    split; [eexists; reflexivity | reflexivity].
Qed.

(** X15. What a run prints is one [Fetching page] line per GET: the
    GETs and the lines of a run are those of the same pages with the
    same numbers of executions, so the i-th line names the page the
    i-th GET asks for, page by page in increasing order.  After them
    comes the summary line exactly when the run returned; it reports
    as row count the number of records fetched, over all pages.  A
    failed run prints no summary. *)
Theorem etl_log (api_base : string) (pages per_page : Z)
    (output_file : string) (w : world) :
  let run := etl api_base pages per_page output_file w in
  let numbers := range 1 (pages + 1) in
  exists (ks : list nat) (summary : list log_line),
    (List.length ks <= Z.to_nat pages)%nat /\
    Forall (fun k => (1 <= k <= 4)%nat) ks /\
    sent (snd run)
    = sent w ++ requests_of api_base per_page (combine numbers ks) /\
    stdout (snd run)
    = stdout w ++ fetching_of (combine numbers ks) ++ summary /\
    map line_page (fetching_of (combine numbers ks))
    = map request_page (requests_of api_base per_page (combine numbers ks)) /\
    List.length (fetching_of (combine numbers ks))
    = List.length (requests_of api_base per_page (combine numbers ks)) /\
    existsb is_saved (fetching_of (combine numbers ks)) = false /\
    ((fst run = Ok tt /\
      exists raw_pages w1,
        fetched api_base per_page numbers w raw_pages w1 /\
        summary = [Saved (List.length (List.concat raw_pages)) output_file
                     (head (mkDataFrame COLUMNS
                              (map project (List.concat raw_pages))))]) \/
     ((exists e, fst run = Raise e) /\ summary = [])).
Proof.
  cbv zeta.
  assert (Hlen : List.length (range 1 (pages + 1)) = Z.to_nat pages).
  { unfold range. rewrite length_map, length_seq. f_equal. lia. }
  pose proof (extract_counts api_base per_page (range 1 (pages + 1)) [] w)
    as Hc. cbv zeta in Hc.
  destruct Hc as (ks & Hks & Hall & Hsent & _ & Hout & _).
  rewrite Hlen in Hks.
  pose proof (etl_logs_after_extract api_base pages per_page output_file w)
    as Hl. cbv zeta in Hl.
  destruct Hl as (Hs & _ & summary & Hstd & Hsum).
  pose proof (lines_match_requests api_base per_page
                (combine (range 1 (pages + 1)) ks)) as Hm.
  exists ks, summary. split; [exact Hks|]. split; [exact Hall|].
  split; [now rewrite Hs|].
  split; [rewrite Hstd, Hout; now rewrite <- app_assoc|].
  split; [exact Hm|].
  split.
  { apply (f_equal (@List.length (option Z))) in Hm.
    now rewrite !length_map in Hm. }
  split.
  { unfold fetching_of. generalize (combine (range 1 (pages + 1)) ks).
    intros pks. induction pks as [|[p k] pks IH]; [reflexivity|].
    cbn [map List.concat fst snd]. rewrite existsb_app, IH, orb_false_r.
    induction k as [|k IHk]; [reflexivity | exact IHk]. }
  destruct Hsum as [[Hok (raw & Hraw & ->)] | Hfail]; [left | now right].
  split; [exact Hok|].
  destruct (extract api_base per_page (range 1 (pages + 1)) [] w)
    as [res w1] eqn:E. cbn [fst] in Hraw. subst res.
  exists raw, w1. split; [now apply extract_ok_fetched | reflexivity].
Qed.

(** X16. The script as configured asks only for pages 1 to 3 of
    [https://dev.to/api/articles], thirty articles a page, with at
    most twelve GETs in all, and touches no file but
    [devto_articles.csv]. *)
Theorem main_requests (w : world) (other : string) :
  other <> "devto_articles.csv" ->
  (exists new,
      sent (snd (main w)) = sent w ++ new /\
      (List.length new <= 12)%nat /\
      Forall (fun rq =>
                url rq = "https://dev.to/api/articles" /\
                timeout rq = 30 /\
                exists page,
                  1 <= page <= 3 /\
                  params rq = [("page", page); ("per_page", 30)])
             new) /\
  Dict.get other (files (snd (main w))) = Dict.get other (files w).
Proof.
  intros Hne. unfold main. cbv zeta. split.
  - pose proof (etl_logs_after_extract "https://dev.to/api" 3 30
                  "devto_articles.csv" w) as Hl.
    cbv zeta in Hl. destruct Hl as (Hs & _).
    pose proof (extract_counts "https://dev.to/api" 30 (range 1 (3 + 1)) [] w)
      as Hc. cbv zeta in Hc.
    destruct Hc as (ks & Hks & Hall & Hsent & _).
    destruct (budget_of_counts "https://dev.to/api" 30 (range 1 (3 + 1))
                ks Hall) as [[_ Hhi] _].
    pose proof (extract_frame "https://dev.to/api" 30 (range 1 (3 + 1)) [] w)
      as Hfr. cbv zeta in Hfr.
    destruct Hfr as (_ & _ & _ & k & new & _ & _ & Hsent' & Hreq & _).
    exists new. rewrite Hs. split; [exact Hsent'|].
    assert (Hnew : new = requests_of "https://dev.to/api" 30
                           (combine (range 1 (3 + 1)) ks)).
    { rewrite Hsent in Hsent'. now apply app_inv_head in Hsent'. }
    split.
    + rewrite Hnew. cbn [List.length] in Hks.
      change (List.length (range 1 (3 + 1))) with 3%nat in Hks. lia.
    + eapply Forall_impl; [|exact Hreq]. intros rq [p [Hp ->]].
      split; [reflexivity|]. split; [reflexivity|]. exists p.
      split; [|reflexivity].
      unfold range in Hp. apply in_map_iff in Hp.
      destruct Hp as [i [<- Hi]]. apply in_seq in Hi. lia.
  - rewrite etl_run.
    pose proof (extract_frame "https://dev.to/api" 30 (range 1 (3 + 1)) [] w)
      as Hfr. cbv zeta in Hfr. destruct Hfr as (_ & _ & Hfiles & _).
    destruct (extract _ _ _ _ w) as [[raw|e1] w1]; cbn [fst snd] in *.
    + cbv zeta. destruct (to_dataframe_fn raw) as [df|e2].
      * rewrite save_csv_run. cbn [writable].
        destruct (writable w1 "devto_articles.csv"); cbn [fst snd files].
        -- rewrite <- Hfiles. now apply get_set_other.
        -- now rewrite Hfiles.
      * cbn [fst snd files]. now rewrite Hfiles.
    + now rewrite Hfiles.
Qed.

(** The script on a server with two pages, next to an older file. *)
Lemma main_requests_witness :
  Dict.get "notes.csv"
    (files (snd (main (MoreSamples.used Samples.two_pages))))
  = Some (mkCsv ["n"] []).
Proof.
  rewrite (proj2 (main_requests (MoreSamples.used Samples.two_pages)
                    "notes.csv" ltac:(discriminate))).
  reflexivity.
Defined.

(** Two pages on the sample server: one GET each, no wait. *)
Lemma etl_request_budget_witness :
  let api := "https://dev.to/api" in
  let run := etl api 2 2 "out.csv" (Samples.fresh Samples.two_pages) in
  fst run = Ok tt /\
  exists ks : list nat,
    List.length ks = 2%nat /\
    sent (snd run) = requests_of api 2 (combine (range 1 (2 + 1)) ks) /\
    (2 <= List.length (sent (snd run)) <= 8)%nat.
Proof.
  cbv zeta.
  assert (Hok : fst (etl "https://dev.to/api" 2 2 "out.csv"
                       (Samples.fresh Samples.two_pages)) = Ok tt)
    by (vm_compute; reflexivity).
  split; [exact Hok|].
  destruct (etl_request_budget "https://dev.to/api" 2 2 "out.csv"
              (Samples.fresh Samples.two_pages))
    as (ks & _ & _ & Hsent & _ & Hhi & _ & Hall).
  destruct (Hall Hok) as [Hn Hlo].
  exists ks. split; [exact Hn|]. split; [exact Hsent|].
  cbn [List.length sent Samples.fresh] in Hhi, Hlo.
  change (Z.to_nat 2) with 2%nat in Hhi, Hlo. lia.
Defined.

(** The second page never answers: the failure is that of its fetch. *)
Lemma etl_error_stage_witness :
  let api := "https://dev.to/api" in
  let w := Samples.fresh MoreSamples.second_down in
  fst (etl api 3 30 "out.csv" w) = Raise NetworkError /\
  exists before p after fetched_pages w1,
    range 1 (3 + 1) = before ++ p :: after /\
    fetched api 30 before w fetched_pages w1 /\
    fst (fetch_page p api 30 w1) = Raise NetworkError.
Proof.
  cbv zeta.
  assert (Hr : fst (etl "https://dev.to/api" 3 30 "out.csv"
                      (Samples.fresh MoreSamples.second_down))
               = Raise NetworkError) by (vm_compute; reflexivity).
  split; [exact Hr|].
  apply (proj2 (proj2 (etl_error_stage "https://dev.to/api" 3 30 "out.csv"
                         (Samples.fresh MoreSamples.second_down)))
           NetworkError); [discriminate | discriminate | exact Hr].
Defined.

End FlowMore.

(** ** The file as text *)

Module CsvFileFacts.
Import Csv CsvFacts StorageFacts.

Lemma all_some_nth {A} (l : list (option A)) (xs : list A) :
  all_some l = Some xs ->
  List.length xs = List.length l /\
  forall i o, nth_error l i = Some o ->
              exists x, o = Some x /\ nth_error xs i = Some x.
Proof.
  revert xs. induction l as [|[a|] l IH]; intros xs H; cbn in H.
  - injection H as <-. split; [reflexivity|]. intros [|i] o; discriminate.
  - destruct (all_some l) as [ys|]; [|discriminate]. cbn in H.
    injection H as <-. destruct (IH ys eq_refl) as [Hlen Hnth].
    split; [cbn; now rewrite Hlen|].
    intros [|i] o Ho; cbn in Ho |- *.
    + injection Ho as <-. now exists a.
    + now apply Hnth.
  - discriminate.
Qed.

Lemma to_csv_text_inv (os : platform) (df : DataFrame) (text : string) :
  to_csv_text os df = Some text ->
  exists table rows,
    stored df = Some table /\
    all_some (map row_texts (values table)) = Some rows /\
    forallb (forallb cr_free) (columns df :: rows) = true /\
    text = writerows (linesep os) (columns df :: rows).
Proof.
  unfold to_csv_text. destruct (stored df) as [table|]; [|discriminate].
  destruct (all_some _) as [rows|] eqn:Hrows; [|discriminate].
  destruct (forallb _ _) eqn:Hcr; [|discriminate].
  intros [= <-]. now exists table, rows.
Qed.

(** Reading the text of a frame gives its labels and the texts of its
    rows. *)
Lemma csv_reader_to_csv_text (os : platform) (df : DataFrame) (text : string) :
  to_csv_text os df = Some text ->
  exists table rows,
    stored df = Some table /\
    all_some (map row_texts (values table)) = Some rows /\
    csv_reader text = Some (columns df :: rows).
Proof.
  intros H. apply to_csv_text_inv in H.
  destruct H as (table & rows & Ht & Hrows & Hcr & ->).
  exists table, rows. split; [exact Ht|]. split; [exact Hrows|].
  apply csv_reader_writerows.
  apply Forall_forall. intros row Hrow. apply Forall_forall. intros f Hf.
  rewrite forallb_forall in Hcr. specialize (Hcr row Hrow).
  rewrite forallb_forall in Hcr. now apply Hcr.
Qed.

(** The text of a cell, by the value it was built from. *)
Lemma cell_text_store (d : dtype) (c : cell) (s : string) :
  cell_text (store d c) = Some s ->
  match c with
  | None | Some JNull => s = ""
  | Some (JInt n) =>
      match d with
      | dtype_float64 => float_repr (float_of_int n) = Some s
      | _ => s = str_int n
      end
  | Some (JFloat x) =>
      if PrimFloat.is_nan x then s = "" else float_repr x = Some s
  | Some v => py_str v = Some s
  end.
Proof.
  destruct c as [[| b | n | x | t | items | members]|]; cbn [store].
  - destruct d; cbn; congruence.
  - cbn. congruence.
  - destruct d; cbn; congruence.
  - destruct (PrimFloat.is_nan x); cbn; congruence.
  - cbn. congruence.
  - intros H. exact H.
  - intros H. exact H.
  - cbn. congruence.
Qed.

End CsvFileFacts.

Module RoundTripClaims.
Import Csv CsvFacts StorageFacts CsvFileFacts TaskFacts TransformFacts DictFacts.




End RoundTripClaims.
